(** * Portfolio ledger: validators, entities, repository and ledger service

    A shallow embedding of the portfolio ledger of PortfolioMcp
    ([services/validators.py], [models/domain.py], [database/repository.py],
    [services/portfolio_service.py], [tools/portfolio_tools.py]) and the
    properties of its specification.

    Modelling conventions.
    - A Python [float] is an exact rational ([Q]) and the arithmetic of the
      operations is exact; NaN is outside the model.  Python compares floats
      by value, so the comparisons of the code are [Qle_bool], [Qeq_bool] and
      the like.  Where a property depends on the rounding of a product the
      code compares, [Float64] gives the floats and the rounded product.
    - A Python [str] is a [string] of 8-bit characters; [upper] and [strip] act
      on the ASCII range.
    - A [datetime] is a record of its calendar fields and an optional fixed
      UTC offset in whole minutes (naive when absent).
    - A Python [dict] with string keys is an association list in insertion
      order.
    - A Cosmos DB container is a [gmap] from (partition key, id) to documents.
    - Exceptions are values of [exn]; an operation is a function from the
      world to an outcome and the world it leaves behind, so that the writes
      made before an exception was raised stay in place. *)

From Stdlib Require Import ZArith QArith Qround Qabs Qpower Lqa Lia String Ascii List Bool
  Sorted Permutation.
From stdpp Require Import gmap strings list fin_maps.
Import ListNotations.

Local Open Scope Z_scope.
Local Open Scope string_scope.

(** ** Exceptions *)

Inductive exn : Type :=
| ValidationError (msg : string)          (* services.validators.ValidationError *)
| InsufficientFundsError (msg : string)   (* services.portfolio_service *)
| RepositoryException (msg : string)      (* database.repository *)
| ItemNotFoundException (msg : string)    (* subclass of RepositoryException *)
| DuplicateItemException (msg : string)   (* subclass of RepositoryException *)
| PydanticValidationError (field : string)(* pydantic_core.ValidationError *)
| ValueError (msg : string)
| TypeError (msg : string).

Inductive result (A : Type) : Type :=
| Ok (a : A)
| Raise (e : exn).
Arguments Ok {A} a.
Arguments Raise {A} e.

Definition is_ValidationError (e : exn) : bool :=
  match e with ValidationError _ => true | _ => false end.

Definition is_InsufficientFundsError (e : exn) : bool :=
  match e with InsufficientFundsError _ => true | _ => false end.

(** ** Numbers: the comparisons of Python floats *)

Module Num.
Definition leb (x y : Q) : bool := Qle_bool x y.
Definition ltb (x y : Q) : bool := negb (Qle_bool y x).
Definition eqb (x y : Q) : bool := Qeq_bool x y.
Definition gtb (x y : Q) : bool := ltb y x.
Definition geb (x y : Q) : bool := leb y x.
End Num.

(** ** Strings *)

Module Str.

Definition is_upper (c : ascii) : bool :=
  let n := nat_of_ascii c in (65 <=? n)%nat && (n <=? 90)%nat.

Definition is_lower (c : ascii) : bool :=
  let n := nat_of_ascii c in (97 <=? n)%nat && (n <=? 122)%nat.

Definition is_digit (c : ascii) : bool :=
  let n := nat_of_ascii c in (48 <=? n)%nat && (n <=? 57)%nat.

(* str.isspace on the ASCII range: \t \n \v \f \r, 0x1c-0x1f and space *)
Definition is_space (c : ascii) : bool :=
  let n := nat_of_ascii c in
  ((9 <=? n)%nat && (n <=? 13)%nat) || ((28 <=? n)%nat && (n <=? 32)%nat).

Definition upper_char (c : ascii) : ascii :=
  if is_lower c then ascii_of_nat (nat_of_ascii c - 32) else c.

Fixpoint upper (s : string) : string :=
  match s with
  | EmptyString => EmptyString
  | String c r => String (upper_char c) (upper r)
  end.

Fixpoint lstrip (s : string) : string :=
  match s with
  | EmptyString => EmptyString
  | String c r => if is_space c then lstrip r else s
  end.

(* drop the trailing white space: a character is kept when it is not a
   space or when something is kept after it *)
Fixpoint rstrip (s : string) : string :=
  match s with
  | EmptyString => EmptyString
  | String c r =>
      match rstrip r with
      | EmptyString => if is_space c then EmptyString else String c EmptyString
      | r' => String c r'
      end
  end.

Definition strip (s : string) : string := rstrip (lstrip s).

Definition len (s : string) : Z := Z.of_nat (String.length s).

Definition is_empty (s : string) : bool :=
  match s with EmptyString => true | _ => false end.

Fixpoint contains_char (c : ascii) (s : string) : bool :=
  match s with
  | EmptyString => false
  | String d r => if Ascii.eqb c d then true else contains_char c r
  end.

(* s.replace(c, t) for a one-character pattern *)
Fixpoint replace_char (c : ascii) (t : string) (s : string) : string :=
  match s with
  | EmptyString => EmptyString
  | String d r =>
      if Ascii.eqb c d then t ++ replace_char c t r
      else String d (replace_char c t r)
  end.

Fixpoint all_chars (p : ascii -> bool) (s : string) : bool :=
  match s with
  | EmptyString => true
  | String c r => p c && all_chars p r
  end.

End Str.

(** ** Validators ([services/validators.py]) *)

Module PortfolioValidator.

(* [A-Z]{lo,hi} matched greedily at the head of [s]: the letters taken
   (at most [hi]) and the rest *)
Fixpoint take_upper (hi : nat) (s : string) : string * string :=
  match hi, s with
  | S hi', String c r =>
      if Str.is_upper c then
        let '(l, rest) := take_upper hi' r in (String c l, rest)
      else (EmptyString, s)
  | _, _ => (EmptyString, s)
  end.

(* TICKER_PATTERN = ^[A-Z]{1,10}(\.[A-Z]{1,3})?$ *)
Definition TICKER_PATTERN_match (s : string) : bool :=
  let '(root, rest) := take_upper 10 s in
  if Str.is_empty root then false
  else
    match rest with
    | EmptyString => true
    | String c suffix =>
        if Ascii.eqb c "."%char then
          let '(sfx, rest') := take_upper 3 suffix in
          negb (Str.is_empty sfx) && Str.is_empty rest'
        else false
    end.

Definition validate_ticker (ticker : string) : result string :=
  if Str.is_empty ticker then Raise (ValidationError "Ticker cannot be empty")
  else
    let ticker := Str.upper (Str.strip ticker) in
    if negb (TICKER_PATTERN_match ticker) then
      Raise (ValidationError "Invalid ticker format")
    else Ok ticker.

(* int(x): truncation towards zero *)
Definition int (x : Q) : Z := Z.quot (Qnum x) (Zpos (Qden x)).

Definition validate_quantity (quantity : Q) (allow_zero : bool) : result Q :=
  if Num.ltb quantity 0 then
    Raise (ValidationError "Quantity cannot be negative")
  else if negb allow_zero && Num.eqb quantity 0 then
    Raise (ValidationError "Quantity must be greater than zero")
  else if negb (Num.eqb quantity (inject_Z (int quantity))) then
    Raise (ValidationError "Quantity must be a whole number")
  else Ok quantity.

Definition validate_price (price : Q) (allow_zero : bool) : result Q :=
  if Num.ltb price 0 then
    Raise (ValidationError "Price cannot be negative")
  else if negb allow_zero && Num.eqb price 0 then
    Raise (ValidationError "Price must be greater than zero")
  else Ok price.

Definition valid_types : list string :=
  ["BUY"; "SELL"; "DIVIDEND"; "SPLIT"; "TRANSFER_IN"; "TRANSFER_OUT"].

Definition validate_transaction_type (transaction_type : string) : result string :=
  if Str.is_empty transaction_type then
    Raise (ValidationError "Transaction type cannot be empty")
  else
    let transaction_type := Str.upper (Str.strip transaction_type) in
    if existsb (String.eqb transaction_type) valid_types then Ok transaction_type
    else Raise (ValidationError "Invalid transaction type").

Definition validate_notes (notes : option string) (max_length : Z)
  : result (option string) :=
  match notes with
  | None => Ok None
  | Some notes =>
      let notes := Str.strip notes in
      if Str.is_empty notes then Ok None
      else if (max_length <? Str.len notes)%Z then
        Raise (ValidationError "Notes too long")
      else Ok (Some notes)
  end.

Definition validate_position_id (position_id : string) : result string :=
  if Str.is_empty position_id then
    Raise (ValidationError "Position ID cannot be empty")
  else
    let position_id := Str.strip position_id in
    if Str.is_empty position_id then
      Raise (ValidationError "Position ID cannot be empty")
    else Ok position_id.

End PortfolioValidator.

(** ** datetime: calendar fields, comparison, isoformat and fromisoformat *)

Module DT.

Record datetime : Type := {
  year : Z; month : Z; day : Z;
  hour : Z; minute : Z; second : Z; microsecond : Z;
  tzinfo : option Z   (* UTC offset in minutes; None for a naive datetime *)
}.

Definition is_leap (y : Z) : bool :=
  (y mod 4 =? 0)%Z && (negb (y mod 100 =? 0)%Z || (y mod 400 =? 0)%Z).

Definition days_in_month (y m : Z) : Z :=
  if (m =? 2)%Z then (if is_leap y then 29 else 28)
  else if (m =? 4)%Z || (m =? 6)%Z || (m =? 9)%Z || (m =? 11)%Z then 30
  else 31.

Definition in_range (lo x hi : Z) : bool := (lo <=? x)%Z && (x <=? hi)%Z.

(* the field ranges the datetime constructor enforces *)
Definition valid (d : datetime) : bool :=
  in_range 1 (year d) 9999 && in_range 1 (month d) 12 &&
  in_range 1 (day d) (days_in_month (year d) (month d)) &&
  in_range 0 (hour d) 23 && in_range 0 (minute d) 59 &&
  in_range 0 (second d) 59 && in_range 0 (microsecond d) 999999 &&
  match tzinfo d with
  | None => true
  | Some off => in_range (-1439) off 1439
  end.

Definition days_before_year (y : Z) : Z :=
  let p := y - 1 in p * 365 + p / 4 - p / 100 + p / 400.

Fixpoint days_before_month_aux (y : Z) (m : nat) : Z :=
  match m with
  | O => 0
  | S m' => days_before_month_aux y m' + days_in_month y (Z.of_nat m)
  end.

Definition days_before_month (y m : Z) : Z :=
  days_before_month_aux y (Z.to_nat (m - 1)).

Definition toordinal (d : datetime) : Z :=
  days_before_year (year d) + days_before_month (year d) (month d) + day d.

(* microseconds of the wall-clock reading since 0001-01-01 *)
Definition micros (d : datetime) : Z :=
  (((toordinal d * 24 + hour d) * 60 + minute d) * 60 + second d) * 1000000
  + microsecond d.

Definition utcoffset (d : datetime) : Z :=
  match tzinfo d with Some off => off | None => 0 end.

(* the instant on the UTC time line *)
Definition instant (d : datetime) : Z := micros d - utcoffset d * 60000000.

Definition aware (d : datetime) : bool :=
  match tzinfo d with Some _ => true | None => false end.

(* ordering comparisons: a naive and an aware datetime do not compare *)
Definition compare (a b : datetime) : result comparison :=
  if Bool.eqb (aware a) (aware b) then Ok (instant a ?= instant b)%Z
  else Raise (TypeError "can't compare offset-naive and offset-aware datetimes").

Definition ge (a b : datetime) : result bool :=
  match compare a b with
  | Ok Lt => Ok false
  | Ok _ => Ok true
  | Raise e => Raise e
  end.

Definition le (a b : datetime) : result bool :=
  match compare a b with
  | Ok Gt => Ok false
  | Ok _ => Ok true
  | Raise e => Raise e
  end.

(** *** isoformat *)

Definition digit (n : Z) : ascii := ascii_of_nat (48 + Z.to_nat n).

(* the [w] low decimal digits of [n], most significant first *)
Fixpoint pad (w : nat) (n : Z) : string :=
  match w with
  | O => EmptyString
  | S w' => String (digit ((n / 10 ^ Z.of_nat w') mod 10)) (pad w' n)
  end.

Definition format_offset (tz : option Z) : string :=
  match tz with
  | None => ""
  | Some off =>
      (if (off <? 0)%Z then "-" else "+") ++
      pad 2 (Z.abs off / 60) ++ ":" ++ pad 2 (Z.abs off mod 60)
  end.

Definition isoformat (d : datetime) : string :=
  pad 4 (year d) ++ "-" ++ pad 2 (month d) ++ "-" ++ pad 2 (day d) ++ "T" ++
  pad 2 (hour d) ++ ":" ++ pad 2 (minute d) ++ ":" ++ pad 2 (second d) ++
  (if (microsecond d =? 0)%Z then "" else "." ++ pad 6 (microsecond d)) ++
  format_offset (tzinfo d).

(** *** fromisoformat

    The strings accepted are the ones [isoformat] produces and the
    date-only form: YYYY-MM-DD[*HH:MM:SS[.ffffff][(+|-)HH:MM]], where * is
    any one character.  The fields are range-checked as the datetime
    constructor does. *)

Definition digit_val (c : ascii) : Z := Z.of_nat (nat_of_ascii c) - 48.

Fixpoint read_digits (w : nat) (s : string) (acc : Z) : option (Z * string) :=
  match w with
  | O => Some (acc, s)
  | S w' =>
      match s with
      | String c r =>
          if Str.is_digit c then read_digits w' r (acc * 10 + digit_val c)
          else None
      | EmptyString => None
      end
  end.

Definition expect (c : ascii) (s : string) : option string :=
  match s with
  | String d r => if Ascii.eqb c d then Some r else None
  | EmptyString => None
  end.

Definition parse_offset (s : string) : option (option Z) :=
  match s with
  | EmptyString => Some None
  | String c r =>
      if Ascii.eqb c "+"%char || Ascii.eqb c "-"%char then
        match read_digits 2 r 0 with
        | Some (hh, r1) =>
            match expect ":" r1 with
            | Some r2 =>
                match read_digits 2 r2 0 with
                | Some (mm, EmptyString) =>
                    if (hh <? 24)%Z && (mm <? 60)%Z then
                      let off := hh * 60 + mm in
                      Some (Some (if Ascii.eqb c "-"%char then - off else off))
                    else None
                | _ => None
                end
            | None => None
            end
        | None => None
        end
      else None
  end.

Definition parse_fraction (s : string) : option (Z * string) :=
  match s with
  | String "." r => read_digits 6 r 0
  | _ => Some (0, s)
  end.

Definition parse_time (s : string) : option (Z * Z * Z * Z * option Z) :=
  match read_digits 2 s 0 with
  | Some (hh, r1) =>
    match expect ":" r1 with
    | Some r2 =>
      match read_digits 2 r2 0 with
      | Some (mi, r3) =>
        match expect ":" r3 with
        | Some r4 =>
          match read_digits 2 r4 0 with
          | Some (ss, r5) =>
            match parse_fraction r5 with
            | Some (us, r6) =>
              match parse_offset r6 with
              | Some tz => Some (hh, mi, ss, us, tz)
              | None => None
              end
            | None => None
            end
          | None => None
          end
        | None => None
        end
      | None => None
      end
    | None => None
    end
  | None => None
  end.

Definition parse_date (s : string) : option (Z * Z * Z * string) :=
  match read_digits 4 s 0 with
  | Some (y, r1) =>
    match expect "-" r1 with
    | Some r2 =>
      match read_digits 2 r2 0 with
      | Some (m, r3) =>
        match expect "-" r3 with
        | Some r4 =>
          match read_digits 2 r4 0 with
          | Some (d, r5) => Some (y, m, d, r5)
          | None => None
          end
        | None => None
        end
      | None => None
      end
    | None => None
    end
  | None => None
  end.

Definition checked (d : datetime) : result datetime :=
  if valid d then Ok d else Raise (ValueError "field out of range").

Definition fromisoformat (s : string) : result datetime :=
  match parse_date s with
  | Some (y, m, d, EmptyString) =>
      checked {| year := y; month := m; day := d; hour := 0; minute := 0;
                 second := 0; microsecond := 0; tzinfo := None |}
  | Some (y, m, d, String _ r) =>
      match parse_time r with
      | Some (hh, mi, ss, us, tz) =>
          checked {| year := y; month := m; day := d; hour := hh; minute := mi;
                     second := ss; microsecond := us; tzinfo := tz |}
      | None => Raise (ValueError "Invalid isoformat string")
      end
  | None => Raise (ValueError "Invalid isoformat string")
  end.

End DT.

Abbreviation datetime := DT.datetime.

Module PortfolioValidatorDate.

(* validate_date for a date string; [None] is handled where the clock is *)
Definition validate_date_str (date_str : string) : result datetime :=
  let parsed :=
    if Str.contains_char "T"%char date_str
    then DT.fromisoformat (Str.replace_char "Z"%char "+00:00" date_str)
    else DT.fromisoformat date_str in
  match parsed with
  | Ok d => Ok d
  | Raise (ValueError _) => Raise (ValidationError "Invalid date format")
  | Raise e => Raise e
  end.

End PortfolioValidatorDate.

(** ** Python values and dicts *)

Inductive TransactionType : Type :=
| BUY | SELL | DIVIDEND | SPLIT | TRANSFER_IN | TRANSFER_OUT.

Module TType.

Definition value (t : TransactionType) : string :=
  match t with
  | BUY => "buy" | SELL => "sell" | DIVIDEND => "dividend" | SPLIT => "split"
  | TRANSFER_IN => "transfer_in" | TRANSFER_OUT => "transfer_out"
  end.

Definition all : list TransactionType :=
  [BUY; SELL; DIVIDEND; SPLIT; TRANSFER_IN; TRANSFER_OUT].

(* TransactionType(s): the member whose value is [s] *)
Definition of_value (s : string) : result TransactionType :=
  match List.find (fun t => String.eqb (value t) s) all with
  | Some t => Ok t
  | None => Raise (ValueError "not a valid TransactionType")
  end.

Definition eqb (a b : TransactionType) : bool := String.eqb (value a) (value b).

End TType.

Inductive pyval : Type :=
| PNone
| PStr (s : string)
| PFloat (x : Q)
| PDatetime (d : datetime)
| PEnum (t : TransactionType).

(** A dict keeps its keys in insertion order; assigning to a key that is
    present replaces the value in place. *)
Definition dict : Type := list (string * pyval).

Module Dict.

Fixpoint get (k : string) (d : dict) : option pyval :=
  match d with
  | [] => None
  | (k', v) :: r => if String.eqb k k' then Some v else get k r
  end.

Fixpoint set (k : string) (v : pyval) (d : dict) : dict :=
  match d with
  | [] => [(k, v)]
  | (k', v') :: r => if String.eqb k k' then (k, v) :: r else (k', v') :: set k v r
  end.

Definition of_option (o : option string) : pyval :=
  match o with Some s => PStr s | None => PNone end.

Definition of_option_float (o : option Q) : pyval :=
  match o with Some x => PFloat x | None => PNone end.

(* for key in keys: if isinstance(data[key], datetime):
                       data[key] = data[key].isoformat() *)
Fixpoint dates_to_iso (keys : list string) (data : dict) : dict :=
  match keys with
  | [] => data
  | key :: keys' =>
      match get key data with
      | Some (PDatetime d) => dates_to_iso keys' (set key (PStr (DT.isoformat d)) data)
      | _ => dates_to_iso keys' data
      end
  end.

(* for key in keys: if key in data and isinstance(data[key], str):
                       data[key] = datetime.fromisoformat(data[key]) *)
Fixpoint dates_from_iso (keys : list string) (data : dict) : result dict :=
  match keys with
  | [] => Ok data
  | key :: keys' =>
      match get key data with
      | Some (PStr s) =>
          match DT.fromisoformat s with
          | Ok d => dates_from_iso keys' (set key (PDatetime d) data)
          | Raise e => Raise e
          end
      | _ => dates_from_iso keys' data
      end
  end.

End Dict.

(** ** The world: three containers, the clock and the uuid source *)

(** A Cosmos DB container: documents keyed by partition key and id. *)
Abbreviation container := (gmap (string * string) dict).

Record World : Type := {
  holdings : container;        (* partition key /portfolio_id *)
  transactions : container;    (* partition key /portfolio_id *)
  portfolios : container;      (* partition key /id *)
  clock : nat -> datetime;     (* the successive readings of datetime.utcnow() *)
  ticks : nat;
  uuids : nat -> string;       (* the successive values of str(uuid.uuid4()) *)
  drawn : nat
}.

(** An operation runs in a world and leaves a world, whether it returns or
    raises. *)
Definition M (A : Type) : Type := World -> result A * World.

Definition ret {A} (a : A) : M A := fun w => (Ok a, w).
Definition raise {A} (e : exn) : M A := fun w => (Raise e, w).
Definition lift {A} (r : result A) : M A := fun w => (r, w).

Definition bind {A B} (m : M A) (k : A -> M B) : M B :=
  fun w =>
    match m w with
    | (Ok a, w') => k a w'
    | (Raise e, w') => (Raise e, w')
    end.

(* try: m  except Exception as e: h e *)
Definition try_except {A} (m : M A) (h : exn -> M A) : M A :=
  fun w =>
    match m w with
    | (Ok a, w') => (Ok a, w')
    | (Raise e, w') => h e w'
    end.

Notation "'let!' x ':=' m 'in' k" := (bind m (fun x => k))
  (at level 10, x pattern, m at level 100, k at level 200).

Definition tick (w : World) : World :=
  {| holdings := holdings w; transactions := transactions w;
     portfolios := portfolios w; clock := clock w; ticks := S (ticks w);
     uuids := uuids w; drawn := drawn w |}.

Definition draw (w : World) : World :=
  {| holdings := holdings w; transactions := transactions w;
     portfolios := portfolios w; clock := clock w; ticks := ticks w;
     uuids := uuids w; drawn := S (drawn w) |}.

(* datetime.utcnow(): a naive reading of the clock *)
Definition utcnow : M datetime := fun w => (Ok (clock w (ticks w)), tick w).

(* str(uuid.uuid4()) *)
Definition uuid4 : M string := fun w => (Ok (uuids w (drawn w)), draw w).

(* Field(default_factory=datetime.utcnow) *)
Definition default_utcnow (o : option datetime) : M datetime :=
  match o with
  | Some d => ret d
  | None => utcnow
  end.

(* validate_date: None defaults to the current time *)
Definition validate_date (date_str : option string) : M datetime :=
  match date_str with
  | None => utcnow
  | Some s => lift (PortfolioValidatorDate.validate_date_str s)
  end.

(** ** Entities ([models/domain.py]) *)

(* pydantic reports a constraint that fails *)
Definition require (b : bool) (field : string) : result unit :=
  if b then Ok tt else Raise (PydanticValidationError field).

Definition rbind {A B} (r : result A) (k : A -> result B) : result B :=
  match r with
  | Ok a => k a
  | Raise e => Raise e
  end.

Notation "'let?' x ':=' r 'in' k" := (rbind r (fun x => k))
  (at level 10, x pattern, r at level 100, k at level 200).

(* reading the keyword arguments the constructor gets from the dict; a value
   of another type
   than the field's is rejected (the lax coercions of pydantic, such as
   numeric strings, are not modelled) *)
Module Arg.

Definition str (k : string) (d : dict) : result string :=
  match Dict.get k d with
  | Some (PStr s) => Ok s
  | _ => Raise (PydanticValidationError k)
  end.

Definition str_default (k : string) (dflt : string) (d : dict) : result string :=
  match Dict.get k d with
  | None => Ok dflt
  | Some (PStr s) => Ok s
  | _ => Raise (PydanticValidationError k)
  end.

Definition opt_str (k : string) (d : dict) : result (option string) :=
  match Dict.get k d with
  | None | Some PNone => Ok None
  | Some (PStr s) => Ok (Some s)
  | _ => Raise (PydanticValidationError k)
  end.

Definition float (k : string) (d : dict) : result Q :=
  match Dict.get k d with
  | Some (PFloat x) => Ok x
  | _ => Raise (PydanticValidationError k)
  end.

Definition float_default (k : string) (dflt : Q) (d : dict) : result Q :=
  match Dict.get k d with
  | None => Ok dflt
  | Some (PFloat x) => Ok x
  | _ => Raise (PydanticValidationError k)
  end.

Definition opt_float (k : string) (d : dict) : result (option Q) :=
  match Dict.get k d with
  | None | Some PNone => Ok None
  | Some (PFloat x) => Ok (Some x)
  | _ => Raise (PydanticValidationError k)
  end.

Definition date (k : string) (d : dict) : result datetime :=
  match Dict.get k d with
  | Some (PDatetime x) => Ok x
  | _ => Raise (PydanticValidationError k)
  end.

(* a field with a default factory: absent means "call the factory" *)
Definition opt_date (k : string) (d : dict) : result (option datetime) :=
  match Dict.get k d with
  | None => Ok None
  | Some (PDatetime x) => Ok (Some x)
  | _ => Raise (PydanticValidationError k)
  end.

Definition enum (k : string) (d : dict) : result TransactionType :=
  match Dict.get k d with
  | Some (PEnum t) => Ok t
  | _ => Raise (PydanticValidationError k)
  end.

End Arg.

Record Holding : Type := {
  h_id : string;
  h_portfolio_id : string;
  h_ticker : string;
  h_quantity : Q;
  h_purchase_price : Q;
  h_purchase_date : datetime;
  h_notes : option string;
  h_created_at : datetime;
  h_updated_at : datetime
}.

Module HoldingM.

(* the field constraints, then the ticker_uppercase validator *)
Definition validate (h : Holding) : result Holding :=
  let? _ := require ((1 <=? Str.len (h_ticker h))%Z && (Str.len (h_ticker h) <=? 10)%Z)
                    "ticker" in
  let? _ := require (Num.gtb (h_quantity h) 0) "quantity" in
  let? _ := require (Num.gtb (h_purchase_price h) 0) "purchase_price" in
  Ok {| h_id := h_id h; h_portfolio_id := h_portfolio_id h;
        h_ticker := Str.upper (h_ticker h);
        h_quantity := h_quantity h; h_purchase_price := h_purchase_price h;
        h_purchase_date := h_purchase_date h; h_notes := h_notes h;
        h_created_at := h_created_at h; h_updated_at := h_updated_at h |}.

(* Holding(id=..., ...): created_at and updated_at default to utcnow() *)
Definition init (id portfolio_id ticker : string) (quantity purchase_price : Q)
    (purchase_date : datetime) (notes : option string)
    (created_at updated_at : option datetime) : M Holding :=
  let! created_at := default_utcnow created_at in
  let! updated_at := default_utcnow updated_at in
  lift (validate {| h_id := id; h_portfolio_id := portfolio_id; h_ticker := ticker;
                    h_quantity := quantity; h_purchase_price := purchase_price;
                    h_purchase_date := purchase_date; h_notes := notes;
                    h_created_at := created_at; h_updated_at := updated_at |}).

Definition date_keys : list string := ["purchase_date"; "created_at"; "updated_at"].

Definition model_dump (h : Holding) : dict :=
  [("id", PStr (h_id h)); ("portfolio_id", PStr (h_portfolio_id h));
   ("ticker", PStr (h_ticker h)); ("quantity", PFloat (h_quantity h));
   ("purchase_price", PFloat (h_purchase_price h));
   ("purchase_date", PDatetime (h_purchase_date h));
   ("notes", Dict.of_option (h_notes h));
   ("created_at", PDatetime (h_created_at h));
   ("updated_at", PDatetime (h_updated_at h))].

Definition to_dict (h : Holding) : dict :=
  Dict.dates_to_iso date_keys (model_dump h).

Definition from_dict (data : dict) : M Holding :=
  let! data := lift (Dict.dates_from_iso date_keys data) in
  let! id := lift (Arg.str "id" data) in
  let! portfolio_id := lift (Arg.str_default "portfolio_id" "default" data) in
  let! ticker := lift (Arg.str "ticker" data) in
  let! quantity := lift (Arg.float "quantity" data) in
  let! purchase_price := lift (Arg.float "purchase_price" data) in
  let! purchase_date := lift (Arg.date "purchase_date" data) in
  let! notes := lift (Arg.opt_str "notes" data) in
  let! created_at := lift (Arg.opt_date "created_at" data) in
  let! updated_at := lift (Arg.opt_date "updated_at" data) in
  init id portfolio_id ticker quantity purchase_price purchase_date notes
       created_at updated_at.

End HoldingM.

Record Transaction : Type := {
  t_id : string;
  t_portfolio_id : string;
  t_type : TransactionType;
  t_ticker : option string;
  t_quantity : option Q;
  t_price : Q;
  t_total : Q;
  t_date : datetime;
  t_notes : option string;
  t_created_at : datetime
}.

Module TransactionM.

Definition ticker_ok (o : option string) : bool :=
  match o with
  | None => true
  | Some v => (1 <=? Str.len v)%Z && (Str.len v <=? 10)%Z
  end.

Definition quantity_ok (o : option Q) : bool :=
  match o with
  | None => true
  | Some x => Num.gtb x 0
  end.

(* v.upper() if v else v *)
Definition ticker_uppercase (o : option string) : option string :=
  match o with
  | Some v => if Str.is_empty v then Some v else Some (Str.upper v)
  | None => None
  end.

Definition validate (t : Transaction) : result Transaction :=
  let? _ := require (ticker_ok (t_ticker t)) "ticker" in
  let? _ := require (quantity_ok (t_quantity t)) "quantity" in
  let? _ := require (Num.geb (t_price t) 0) "price" in
  Ok {| t_id := t_id t; t_portfolio_id := t_portfolio_id t; t_type := t_type t;
        t_ticker := ticker_uppercase (t_ticker t); t_quantity := t_quantity t;
        t_price := t_price t; t_total := t_total t; t_date := t_date t;
        t_notes := t_notes t; t_created_at := t_created_at t |}.

Definition init (id portfolio_id : string) (type : TransactionType)
    (ticker : option string) (quantity : option Q) (price total : Q)
    (date : datetime) (notes : option string) (created_at : option datetime)
  : M Transaction :=
  let! created_at := default_utcnow created_at in
  lift (validate {| t_id := id; t_portfolio_id := portfolio_id; t_type := type;
                    t_ticker := ticker; t_quantity := quantity; t_price := price;
                    t_total := total; t_date := date; t_notes := notes;
                    t_created_at := created_at |}).

Definition date_keys : list string := ["date"; "created_at"].

Definition model_dump (t : Transaction) : dict :=
  [("id", PStr (t_id t)); ("portfolio_id", PStr (t_portfolio_id t));
   ("type", PEnum (t_type t)); ("ticker", Dict.of_option (t_ticker t));
   ("quantity", Dict.of_option_float (t_quantity t));
   ("price", PFloat (t_price t)); ("total", PFloat (t_total t));
   ("date", PDatetime (t_date t)); ("notes", Dict.of_option (t_notes t));
   ("created_at", PDatetime (t_created_at t))].

(* if isinstance(data['type'], TransactionType): data['type'] = data['type'].value *)
Definition type_to_value (data : dict) : dict :=
  match Dict.get "type" data with
  | Some (PEnum t) => Dict.set "type" (PStr (TType.value t)) data
  | _ => data
  end.

Definition to_dict (t : Transaction) : dict :=
  type_to_value (Dict.dates_to_iso date_keys (model_dump t)).

(* if 'type' in data and isinstance(data['type'], str):
      data['type'] = TransactionType(data['type']) *)
Definition type_from_value (data : dict) : result dict :=
  match Dict.get "type" data with
  | Some (PStr s) =>
      let? t := TType.of_value s in Ok (Dict.set "type" (PEnum t) data)
  | _ => Ok data
  end.

Definition from_dict (data : dict) : M Transaction :=
  let! data := lift (Dict.dates_from_iso date_keys data) in
  let! data := lift (type_from_value data) in
  let! id := lift (Arg.str "id" data) in
  let! portfolio_id := lift (Arg.str_default "portfolio_id" "default" data) in
  let! type := lift (Arg.enum "type" data) in
  let! ticker := lift (Arg.opt_str "ticker" data) in
  let! quantity := lift (Arg.opt_float "quantity" data) in
  let! price := lift (Arg.float "price" data) in
  let! total := lift (Arg.float "total" data) in
  let! date := lift (Arg.date "date" data) in
  let! notes := lift (Arg.opt_str "notes" data) in
  let! created_at := lift (Arg.opt_date "created_at" data) in
  init id portfolio_id type ticker quantity price total date notes created_at.

End TransactionM.

Record Portfolio : Type := {
  p_id : string;
  p_cash_balance : Q;
  p_last_updated : datetime;
  p_created_at : datetime
}.

Module PortfolioM.

Definition validate (p : Portfolio) : result Portfolio :=
  let? _ := require (Num.geb (p_cash_balance p) 0) "cash_balance" in
  Ok p.

(* Portfolio(id=..., cash_balance=...): the defaults are "default", 0.0 and
   utcnow() for both time stamps *)
Definition init (id : option string) (cash_balance : option Q)
    (last_updated created_at : option datetime) : M Portfolio :=
  let! last_updated := default_utcnow last_updated in
  let! created_at := default_utcnow created_at in
  lift (validate {| p_id := default "default" id;
                    p_cash_balance := default 0%Q cash_balance;
                    p_last_updated := last_updated; p_created_at := created_at |}).

Definition date_keys : list string := ["last_updated"; "created_at"].

Definition model_dump (p : Portfolio) : dict :=
  [("id", PStr (p_id p)); ("cash_balance", PFloat (p_cash_balance p));
   ("last_updated", PDatetime (p_last_updated p));
   ("created_at", PDatetime (p_created_at p))].

Definition to_dict (p : Portfolio) : dict :=
  Dict.dates_to_iso date_keys (model_dump p).

Definition from_dict (data : dict) : M Portfolio :=
  let! data := lift (Dict.dates_from_iso date_keys data) in
  let! id := lift (Arg.str_default "id" "default" data) in
  let! cash_balance := lift (Arg.float_default "cash_balance" 0%Q data) in
  let! last_updated := lift (Arg.opt_date "last_updated" data) in
  let! created_at := lift (Arg.opt_date "created_at" data) in
  init (Some id) (Some cash_balance) last_updated created_at.

Definition with_cash (p : Portfolio) (balance : Q) (now : datetime) : Portfolio :=
  {| p_id := p_id p; p_cash_balance := balance;
     p_last_updated := now; p_created_at := p_created_at p |}.

Definition add_cash (p : Portfolio) (amount : Q) : M Portfolio :=
  if Num.leb amount 0 then raise (ValueError "Amount must be positive")
  else
    let! now := utcnow in
    ret (with_cash p (p_cash_balance p + amount)%Q now).

Definition withdraw_cash (p : Portfolio) (amount : Q) : M Portfolio :=
  if Num.leb amount 0 then raise (ValueError "Amount must be positive")
  else if Num.gtb amount (p_cash_balance p) then
    raise (ValueError "Insufficient cash balance")
  else
    let! now := utcnow in
    ret (with_cash p (p_cash_balance p - amount)%Q now).

End PortfolioM.

(** ** Repositories ([database/repository.py]) *)

(** What the generic repository needs from its model class: the two
    conversions, and the time stamp that [update] refreshes when the model
    has one ([updated_at], else [last_updated]). *)
Class ModelClass (T : Type) : Type := {
  mc_to_dict : T -> dict;
  mc_from_dict : dict -> M T;
  mc_stamp : option (T -> datetime -> T)
}.

#[global] Instance Holding_model : ModelClass Holding := {
  mc_to_dict := HoldingM.to_dict;
  mc_from_dict := HoldingM.from_dict;
  mc_stamp := Some (fun h now =>
    {| h_id := h_id h; h_portfolio_id := h_portfolio_id h; h_ticker := h_ticker h;
       h_quantity := h_quantity h; h_purchase_price := h_purchase_price h;
       h_purchase_date := h_purchase_date h; h_notes := h_notes h;
       h_created_at := h_created_at h; h_updated_at := now |})
}.

#[global] Instance Transaction_model : ModelClass Transaction := {
  mc_to_dict := TransactionM.to_dict;
  mc_from_dict := TransactionM.from_dict;
  mc_stamp := None
}.

#[global] Instance Portfolio_model : ModelClass Portfolio := {
  mc_to_dict := PortfolioM.to_dict;
  mc_from_dict := PortfolioM.from_dict;
  mc_stamp := Some (fun p now =>
    {| p_id := p_id p; p_cash_balance := p_cash_balance p;
       p_last_updated := now; p_created_at := p_created_at p |})
}.

Inductive container_id : Type := HoldingsC | TransactionsC | PortfoliosC.

Inductive cosmos_error : Type :=
| CosmosResourceNotFoundError
| CosmosResourceExistsError
| CosmosHttpResponseError.

(** The container proxy of the store.  The store itself always answers; a
    request fails only for the reason the document model gives (absent,
    present already, malformed). *)
Module ContainerProxy.

Definition partition_key_path (c : container_id) : string :=
  match c with
  | HoldingsC | TransactionsC => "portfolio_id"
  | PortfoliosC => "id"
  end.

Definition docs (c : container_id) (w : World) : container :=
  match c with
  | HoldingsC => holdings w
  | TransactionsC => transactions w
  | PortfoliosC => portfolios w
  end.

Definition set_docs (c : container_id) (m : container) (w : World) : World :=
  {| holdings := match c with HoldingsC => m | _ => holdings w end;
     transactions := match c with TransactionsC => m | _ => transactions w end;
     portfolios := match c with PortfoliosC => m | _ => portfolios w end;
     clock := clock w; ticks := ticks w; uuids := uuids w; drawn := drawn w |}.

Definition str_field (k : string) (body : dict) : option string :=
  match Dict.get k body with
  | Some (PStr s) => Some s
  | _ => None
  end.

(* the (partition key, id) under which a body is stored *)
Definition key_of (c : container_id) (body : dict) : option (string * string) :=
  match str_field (partition_key_path c) body, str_field "id" body with
  | Some pk, Some id => Some (pk, id)
  | _, _ => None
  end.

Definition read_item (c : container_id) (item partition_key : string) (w : World)
  : dict + cosmos_error :=
  match docs c w !! (partition_key, item) with
  | Some doc => inl doc
  | None => inr CosmosResourceNotFoundError
  end.

Definition create_item (c : container_id) (body : dict) (w : World)
  : (dict + cosmos_error) * World :=
  match key_of c body with
  | None => (inr CosmosHttpResponseError, w)
  | Some k =>
      match docs c w !! k with
      | Some _ => (inr CosmosResourceExistsError, w)
      | None => (inl body, set_docs c (<[k := body]> (docs c w)) w)
      end
  end.

Definition replace_item (c : container_id) (item : string) (body : dict) (w : World)
  : (dict + cosmos_error) * World :=
  match key_of c body with
  | None => (inr CosmosHttpResponseError, w)
  | Some (pk, id) =>
      if negb (String.eqb id item) then (inr CosmosHttpResponseError, w)
      else
        match docs c w !! (pk, item) with
        | None => (inr CosmosResourceNotFoundError, w)
        | Some _ => (inl body, set_docs c (<[(pk, item) := body]> (docs c w)) w)
        end
  end.

Definition delete_item (c : container_id) (item partition_key : string) (w : World)
  : (unit + cosmos_error) * World :=
  match docs c w !! (partition_key, item) with
  | None => (inr CosmosResourceNotFoundError, w)
  | Some _ => (inl tt, set_docs c (delete (partition_key, item) (docs c w)) w)
  end.

Definition value_eqb (a b : pyval) : bool :=
  match a, b with
  | PNone, PNone => true
  | PStr x, PStr y => String.eqb x y
  | PFloat x, PFloat y => Num.eqb x y
  | _, _ => false
  end.

(* SELECT * FROM c WHERE c.f1 = v1 AND ..., within a partition when one is
   given; the documents come in the order of the container *)
Definition query_items (c : container_id) (conditions : list (string * pyval))
    (partition_key : option string) (w : World) : list dict :=
  let in_partition (kd : (string * string) * dict) :=
    match partition_key with
    | Some pk => String.eqb (fst (fst kd)) pk
    | None => true
    end in
  let satisfies (kd : (string * string) * dict) :=
    forallb (fun fv : string * pyval =>
               match Dict.get (fst fv) (snd kd) with
               | Some v => value_eqb v (snd fv)
               | None => false
               end) conditions in
  List.map snd
    (List.filter (fun kd => in_partition kd && satisfies kd)
                 (map_to_list (docs c w))).

End ContainerProxy.

(** CosmosRepositoryBase: the generic CRUD operations over one container. *)
Module CosmosRepositoryBase.
Section Generic.

Context {T : Type} `{ModelClass T}.
Variable c : container_id.

Definition _to_cosmos (item : T) : dict := mc_to_dict item.
Definition _from_cosmos (data : dict) : M T := mc_from_dict data.

(* except Exception as e: raise RepositoryException(msg) *)
Definition wrapped {A} (msg : string) (m : M A) : M A :=
  try_except m (fun _ => raise (RepositoryException msg)).

Definition get_by_id (item_id : string) (partition_key : option string)
  : M (option T) :=
  let partition_key := default item_id partition_key in
  fun w =>
    match ContainerProxy.read_item c item_id partition_key w with
    | inl item_data =>
        wrapped "Failed to retrieve item"
                (let! item := _from_cosmos item_data in ret (Some item)) w
    | inr CosmosResourceNotFoundError => (Ok None, w)
    | inr _ => (Raise (RepositoryException "Failed to retrieve item"), w)
    end.

Fixpoint from_cosmos_all (items : list dict) : M (list T) :=
  match items with
  | [] => ret []
  | item :: rest =>
      let! x := _from_cosmos item in
      let! xs := from_cosmos_all rest in
      ret (x :: xs)
  end.

(* "if partition_key:" is false for None and for the empty string *)
Definition get_all (partition_key : option string) : M (list T) :=
  let scope :=
    match partition_key with
    | Some pk => if Str.is_empty pk then None else Some pk
    | None => None
    end in
  fun w =>
    wrapped "Failed to retrieve items"
            (from_cosmos_all (ContainerProxy.query_items c [] scope w)) w.

Definition query (filters : list (string * pyval)) (partition_key : option string)
  : M (list T) :=
  fun w =>
    wrapped "Failed to query items"
            (from_cosmos_all (ContainerProxy.query_items c filters partition_key w)) w.

Definition create (item : T) : M T :=
  fun w =>
    match ContainerProxy.create_item c (_to_cosmos item) w with
    | (inl created_item, w') =>
        wrapped "Failed to create item" (_from_cosmos created_item) w'
    | (inr CosmosResourceExistsError, w') =>
        (Raise (DuplicateItemException "Item already exists"), w')
    | (inr _, w') => (Raise (RepositoryException "Failed to create item"), w')
    end.

(* the time stamp is set on the caller's object; no caller reads it
   afterwards *)
Definition stamped (item : T) : M T :=
  match mc_stamp with
  | Some set_stamp => let! now := utcnow in ret (set_stamp item now)
  | None => ret item
  end.

Definition update (item_id : string) (item : T) (partition_key : option string)
  : M T :=
  let! item := stamped item in
  fun w =>
    match ContainerProxy.replace_item c item_id (_to_cosmos item) w with
    | (inl updated_item, w') =>
        wrapped "Failed to update item" (_from_cosmos updated_item) w'
    | (inr CosmosResourceNotFoundError, w') =>
        (Raise (ItemNotFoundException "Item not found"), w')
    | (inr _, w') => (Raise (RepositoryException "Failed to update item"), w')
    end.

Definition delete (item_id : string) (partition_key : option string) : M bool :=
  let partition_key := default item_id partition_key in
  fun w =>
    match ContainerProxy.delete_item c item_id partition_key w with
    | (inl _, w') => (Ok true, w')
    | (inr CosmosResourceNotFoundError, w') => (Ok false, w')
    | (inr _, w') => (Raise (RepositoryException "Failed to delete item"), w')
    end.

End Generic.
End CosmosRepositoryBase.

Module CosmosHoldingsRepository.
Definition get_by_id := CosmosRepositoryBase.get_by_id (T := Holding) HoldingsC.
Definition create := CosmosRepositoryBase.create (T := Holding) HoldingsC.
Definition update := CosmosRepositoryBase.update (T := Holding) HoldingsC.
Definition delete := CosmosRepositoryBase.delete HoldingsC.
Definition get_by_ticker (ticker portfolio_id : string) : M (list Holding) :=
  CosmosRepositoryBase.query HoldingsC [("ticker", PStr (Str.upper ticker))]
                             (Some portfolio_id).
Definition get_portfolio_holdings (portfolio_id : string) : M (list Holding) :=
  CosmosRepositoryBase.get_all HoldingsC (Some portfolio_id).
End CosmosHoldingsRepository.

Module CosmosTransactionsRepository.
Definition create := CosmosRepositoryBase.create (T := Transaction) TransactionsC.
Definition get_by_ticker (ticker portfolio_id : string) : M (list Transaction) :=
  CosmosRepositoryBase.query TransactionsC [("ticker", PStr (Str.upper ticker))]
                             (Some portfolio_id).
Definition get_portfolio_transactions (portfolio_id : string) : M (list Transaction) :=
  CosmosRepositoryBase.get_all TransactionsC (Some portfolio_id).
End CosmosTransactionsRepository.

Module CosmosPortfolioRepository.
Definition get_by_id := CosmosRepositoryBase.get_by_id (T := Portfolio) PortfoliosC.
Definition create := CosmosRepositoryBase.create (T := Portfolio) PortfoliosC.
Definition update := CosmosRepositoryBase.update (T := Portfolio) PortfoliosC.

Definition get_default_portfolio : M (option Portfolio) :=
  get_by_id "default" (Some "default").

(* the duplicate is caught here, and the record that exists is read back *)
Definition create_default_portfolio : M Portfolio :=
  let! portfolio := PortfolioM.init (Some "default") None None None in
  try_except (create portfolio)
    (fun e =>
       match e with
       | DuplicateItemException _ =>
           let! existing := get_default_portfolio in
           match existing with
           | Some p => ret p
           | None => raise e
           end
       | _ => raise e
       end).
End CosmosPortfolioRepository.

(** ** The ledger service ([services/portfolio_service.py]) *)

Record AddResult : Type := {
  ar_holding : dict;
  ar_transaction : dict;
  ar_total_cost : Q;
  ar_new_cash_balance : Q
}.

Record RemoveResult : Type := {
  rr_transaction : dict;
  rr_quantity_sold : Q;
  rr_proceeds : Q;
  rr_new_cash_balance : Q;
  rr_holding_removed : bool;
  rr_remaining_quantity : Q
}.

Record Totals : Type := {
  total_invested : Q;
  tot_cash_balance : Q;
  total_portfolio_value : Q;
  by_ticker : list (string * (Q * Q))     (* ticker, (quantity, invested) *)
}.

Record HoldingsResult : Type := {
  hr_holdings : list dict;
  hr_count : nat;
  hr_totals : option Totals
}.

Record HistoryResult : Type := {
  tr_transactions : list dict;
  tr_count : nat;
  tr_filters : option string * option string * option string * option string * Z
}.

Module PortfolioService.

(* the truth value of an optional string argument *)
Definition given (o : option string) : bool :=
  match o with
  | Some s => negb (Str.is_empty s)
  | None => false
  end.

(* the part of get_or_create_portfolio that follows the read *)
Definition create_if_absent (portfolio_id : string) (portfolio : option Portfolio)
  : M Portfolio :=
  match portfolio with
  | Some portfolio => ret portfolio
  | None =>
      let! portfolio := PortfolioM.init (Some portfolio_id) (Some 100000%Q) None None in
      CosmosPortfolioRepository.create portfolio
  end.

Definition get_or_create_portfolio (portfolio_id : string) : M Portfolio :=
  let! portfolio := CosmosPortfolioRepository.get_by_id portfolio_id (Some portfolio_id) in
  create_if_absent portfolio_id portfolio.

Definition get_cash_balance (portfolio_id : string) : M Q :=
  let! portfolio := get_or_create_portfolio portfolio_id in
  ret (p_cash_balance portfolio).

Definition update_cash_balance (amount : Q) (operation : string)
    (portfolio_id : string) : M Q :=
  if Num.ltb amount 0 then raise (ValidationError "Amount must be positive")
  else if negb (String.eqb operation "add" || String.eqb operation "subtract") then
    raise (ValidationError "Invalid operation. Must be 'add' or 'subtract'")
  else
    let! portfolio := get_or_create_portfolio portfolio_id in
    let! portfolio :=
      if String.eqb operation "add" then PortfolioM.add_cash portfolio amount
      else
        if Num.gtb amount (p_cash_balance portfolio) then
          raise (InsufficientFundsError "Insufficient funds")
        else PortfolioM.withdraw_cash portfolio amount in
    let! _ := CosmosPortfolioRepository.update portfolio_id portfolio (Some portfolio_id) in
    ret (p_cash_balance portfolio).

(* the two numbers an f-string puts into a note are not rendered *)
Definition purchase_note : string := "Purchase of shares".
Definition sale_note : string := "Sale of shares".

Definition add_holding (ticker : string) (quantity purchase_price : Q)
    (purchase_date notes : option string) (portfolio_id : string) : M AddResult :=
  let! ticker := lift (PortfolioValidator.validate_ticker ticker) in
  let! quantity := lift (PortfolioValidator.validate_quantity quantity false) in
  let! purchase_price := lift (PortfolioValidator.validate_price purchase_price false) in
  let! purchase_date_dt := validate_date purchase_date in
  let! notes := lift (PortfolioValidator.validate_notes notes 1000) in
  let total_cost := (quantity * purchase_price)%Q in
  let! current_balance := get_cash_balance portfolio_id in
  if Num.gtb total_cost current_balance then
    raise (InsufficientFundsError "Insufficient funds")
  else
    (* try: ... except Exception: log and raise again *)
    let! holding_id := uuid4 in
    let! holding := HoldingM.init holding_id portfolio_id ticker quantity
                      purchase_price purchase_date_dt notes None None in
    let! created_holding := CosmosHoldingsRepository.create holding in
    let! transaction_id := uuid4 in
    let! transaction := TransactionM.init transaction_id portfolio_id BUY
                          (Some ticker) (Some quantity) purchase_price
                          (- total_cost)%Q purchase_date_dt
                          (Some purchase_note) None in
    let! created_transaction := CosmosTransactionsRepository.create transaction in
    let! new_balance := update_cash_balance total_cost "subtract" portfolio_id in
    ret {| ar_holding := HoldingM.to_dict created_holding;
           ar_transaction := TransactionM.to_dict created_transaction;
           ar_total_cost := total_cost;
           ar_new_cash_balance := new_balance |}.

Definition with_quantity (h : Holding) (quantity : Q) : Holding :=
  {| h_id := h_id h; h_portfolio_id := h_portfolio_id h; h_ticker := h_ticker h;
     h_quantity := quantity; h_purchase_price := h_purchase_price h;
     h_purchase_date := h_purchase_date h; h_notes := h_notes h;
     h_created_at := h_created_at h; h_updated_at := h_updated_at h |}.

Definition with_updated_at (h : Holding) (now : datetime) : Holding :=
  {| h_id := h_id h; h_portfolio_id := h_portfolio_id h; h_ticker := h_ticker h;
     h_quantity := h_quantity h; h_purchase_price := h_purchase_price h;
     h_purchase_date := h_purchase_date h; h_notes := h_notes h;
     h_created_at := h_created_at h; h_updated_at := now |}.

Definition remove_holding (position_id : string) (quantity : option Q)
    (portfolio_id : string) : M RemoveResult :=
  let! position_id := lift (PortfolioValidator.validate_position_id position_id) in
  let! holding := CosmosHoldingsRepository.get_by_id position_id (Some portfolio_id) in
  match holding with
  | None => raise (ItemNotFoundException "Holding not found")
  | Some holding =>
      let! (quantity_to_sell, is_full_sale) :=
        match quantity with
        | None => ret (h_quantity holding, true)
        | Some quantity =>
            let! quantity_to_sell :=
              lift (PortfolioValidator.validate_quantity quantity false) in
            if Num.gtb quantity_to_sell (h_quantity holding) then
              raise (ValidationError "Cannot sell more shares than held")
            else ret (quantity_to_sell, Num.eqb quantity_to_sell (h_quantity holding))
        end in
      let proceeds := (quantity_to_sell * h_purchase_price holding)%Q in
      let! holding :=
        if is_full_sale : bool then
          let! _ := CosmosHoldingsRepository.delete position_id (Some portfolio_id) in
          ret holding
        else
          let holding :=
            with_quantity holding (h_quantity holding - quantity_to_sell)%Q in
          let! now := utcnow in
          let holding := with_updated_at holding now in
          let! _ := CosmosHoldingsRepository.update position_id holding
                      (Some portfolio_id) in
          ret holding in
      let! transaction_id := uuid4 in
      let! now := utcnow in
      let! transaction := TransactionM.init transaction_id portfolio_id SELL
                            (Some (h_ticker holding)) (Some quantity_to_sell)
                            (h_purchase_price holding) proceeds now
                            (Some sale_note) None in
      let! created_transaction := CosmosTransactionsRepository.create transaction in
      let! new_balance := update_cash_balance proceeds "add" portfolio_id in
      ret {| rr_transaction := TransactionM.to_dict created_transaction;
             rr_quantity_sold := quantity_to_sell;
             rr_proceeds := proceeds;
             rr_new_cash_balance := new_balance;
             rr_holding_removed := is_full_sale;
             rr_remaining_quantity :=
               if is_full_sale then 0%Q else h_quantity holding |}
  end.

Definition with_notes (h : Holding) (notes : option string) : Holding :=
  {| h_id := h_id h; h_portfolio_id := h_portfolio_id h; h_ticker := h_ticker h;
     h_quantity := h_quantity h; h_purchase_price := h_purchase_price h;
     h_purchase_date := h_purchase_date h; h_notes := notes;
     h_created_at := h_created_at h; h_updated_at := h_updated_at h |}.

Definition with_price (h : Holding) (price : Q) : Holding :=
  {| h_id := h_id h; h_portfolio_id := h_portfolio_id h; h_ticker := h_ticker h;
     h_quantity := h_quantity h; h_purchase_price := price;
     h_purchase_date := h_purchase_date h; h_notes := h_notes h;
     h_created_at := h_created_at h; h_updated_at := h_updated_at h |}.

Definition update_position (position_id : string) (notes : option string)
    (purchase_price : option Q) (portfolio_id : string) : M dict :=
  let! position_id := lift (PortfolioValidator.validate_position_id position_id) in
  let! holding := CosmosHoldingsRepository.get_by_id position_id (Some portfolio_id) in
  match holding with
  | None => raise (ItemNotFoundException "Holding not found")
  | Some holding =>
      let updated := false in
      let! (holding, updated) :=
        match notes with
        | Some notes =>
            let! notes := lift (PortfolioValidator.validate_notes (Some notes) 1000) in
            ret (with_notes holding notes, true)
        | None => ret (holding, updated)
        end in
      let! (holding, updated) :=
        match purchase_price with
        | Some purchase_price =>
            let! purchase_price :=
              lift (PortfolioValidator.validate_price purchase_price false) in
            ret (with_price holding purchase_price, true)
        | None => ret (holding, updated)
        end in
      if negb updated then raise (ValidationError "No fields to update")
      else
        let! now := utcnow in
        let holding := with_updated_at holding now in
        let! updated_holding :=
          CosmosHoldingsRepository.update position_id holding (Some portfolio_id) in
        ret (HoldingM.to_dict updated_holding)
  end.

(* ticker_totals[h.ticker] += ... *)
Fixpoint add_to_ticker (ticker : string) (quantity invested : Q)
    (totals : list (string * (Q * Q))) : list (string * (Q * Q)) :=
  match totals with
  | [] => [(ticker, (0 + quantity, 0 + invested)%Q)]
  | (k, (q, i)) :: r =>
      if String.eqb ticker k then (k, (q + quantity, i + invested)%Q) :: r
      else (k, (q, i)) :: add_to_ticker ticker quantity invested r
  end.

Definition get_holdings (filter_ticker : option string) (include_totals : bool)
    (portfolio_id : string) : M HoldingsResult :=
  let! holdings :=
    if given filter_ticker then
      let! filter_ticker :=
        lift (PortfolioValidator.validate_ticker (default "" filter_ticker)) in
      CosmosHoldingsRepository.get_by_ticker filter_ticker portfolio_id
    else CosmosHoldingsRepository.get_portfolio_holdings portfolio_id in
  let! totals :=
    if include_totals then
      let total_invested :=
        fold_left (fun acc h => acc + h_quantity h * h_purchase_price h)%Q holdings 0%Q in
      let! cash_balance := get_cash_balance portfolio_id in
      let ticker_totals :=
        fold_left (fun acc h =>
                     add_to_ticker (h_ticker h) (h_quantity h)
                                   (h_quantity h * h_purchase_price h)%Q acc)
                  holdings [] in
      ret (Some {| total_invested := total_invested;
                   tot_cash_balance := cash_balance;
                   total_portfolio_value := (total_invested + cash_balance)%Q;
                   by_ticker := ticker_totals |})
    else ret None in
  ret {| hr_holdings := List.map HoldingM.to_dict holdings;
         hr_count := length holdings;
         hr_totals := totals |}.

(* [t for t in ts if keep(t)], where the test may raise *)
Fixpoint filter_r (keep : Transaction -> result bool) (ts : list Transaction)
  : result (list Transaction) :=
  match ts with
  | [] => Ok []
  | t :: r =>
      let? b := keep t in
      let? r' := filter_r keep r in
      Ok (if b then t :: r' else r')
  end.

(* list.sort(key=lambda t: t.date, reverse=True): a stable sort, newest
   first; the keys are compared, and a comparison may raise *)
Fixpoint insert_by_date (t : Transaction) (sorted : list Transaction)
  : result (list Transaction) :=
  match sorted with
  | [] => Ok [t]
  | u :: r =>
      match DT.compare (t_date u) (t_date t) with
      | Ok Gt => let? r' := insert_by_date t r in Ok (u :: r')
      | Ok _ => Ok (t :: u :: r)
      | Raise e => Raise e
      end
  end.

Fixpoint sort_by_date_desc (ts : list Transaction) : result (list Transaction) :=
  match ts with
  | [] => Ok []
  | t :: r => let? r' := sort_by_date_desc r in insert_by_date t r'
  end.

Definition clamp_limit (limit : Z) : Z := Z.min (Z.max 1 limit) 200.

(* the filters, the sort and the limit of get_transaction_history, applied
   to the transactions the repository returned; [limit] is the clamped one *)
Definition select_transactions (transaction_type : option string)
    (start_dt end_dt : option datetime) (limit : Z)
    (transactions : list Transaction) : result (list Transaction) :=
  let filtered := transactions in
  let filtered :=
    if given transaction_type then
      List.filter (fun t => String.eqb (Str.upper (TType.value (t_type t)))
                                       (default "" transaction_type)) filtered
    else filtered in
  let? filtered :=
    match start_dt with
    | Some start_dt => filter_r (fun t => DT.ge (t_date t) start_dt) filtered
    | None => Ok filtered
    end in
  let? filtered :=
    match end_dt with
    | Some end_dt => filter_r (fun t => DT.le (t_date t) end_dt) filtered
    | None => Ok filtered
    end in
  let? filtered := sort_by_date_desc filtered in
  Ok (firstn (Z.to_nat limit) filtered).

Definition get_transaction_history (ticker start_date end_date
    transaction_type : option string) (limit : Z) (portfolio_id : string)
  : M HistoryResult :=
  let! ticker :=
    if given ticker then
      let! t := lift (PortfolioValidator.validate_ticker (default "" ticker)) in
      ret (Some t)
    else ret ticker in
  let! transaction_type :=
    if given transaction_type then
      let! t := lift (PortfolioValidator.validate_transaction_type
                        (default "" transaction_type)) in
      ret (Some t)
    else ret transaction_type in
  let! start_dt :=
    if given start_date then
      let! d := validate_date start_date in ret (Some d)
    else ret None in
  let! end_dt :=
    if given end_date then
      let! d := validate_date end_date in ret (Some d)
    else ret None in
  let limit := clamp_limit limit in
  let! transactions :=
    if given ticker then
      CosmosTransactionsRepository.get_by_ticker (default "" ticker) portfolio_id
    else CosmosTransactionsRepository.get_portfolio_transactions portfolio_id in
  let! filtered := lift (select_transactions transaction_type start_dt end_dt limit
                                             transactions) in
  ret {| tr_transactions := List.map TransactionM.to_dict filtered;
         tr_count := length filtered;
         tr_filters := (ticker, start_date, end_date, transaction_type, limit) |}.

End PortfolioService.

(** ** The tool boundary ([tools/portfolio_tools.py]) *)

Inductive ToolReply (A : Type) : Type :=
| Success (a : A)
| Failure (error : string) (message : string).
Arguments Success {A} a.
Arguments Failure {A} error message.

Module Tools.

Definition message (e : exn) : string :=
  match e with
  | ValidationError m | InsufficientFundsError m | RepositoryException m
  | ItemNotFoundException m | DuplicateItemException m
  | PydanticValidationError m | ValueError m | TypeError m => m
  end.

(* except ValidationError / except InsufficientFundsError / except Exception *)
Definition reply_add {A} (r : result A) : ToolReply A :=
  match r with
  | Ok a => Success a
  | Raise (ValidationError m) => Failure "validation_error" m
  | Raise (InsufficientFundsError m) => Failure "insufficient_funds" m
  | Raise e => Failure "internal_error" (message e)
  end.

(* except ValidationError / except Exception *)
Definition reply {A} (r : result A) : ToolReply A :=
  match r with
  | Ok a => Success a
  | Raise (ValidationError m) => Failure "validation_error" m
  | Raise e => Failure "internal_error" (message e)
  end.

Definition run {A B} (m : M A) (f : result A -> B) (w : World) : B * World :=
  let '(r, w') := m w in (f r, w').

(* the tools use the service's default portfolio *)
Definition add_to_portfolio (ticker : string) (quantity : Z) (purchase_price : Q)
    (purchase_date notes : option string) : World -> ToolReply AddResult * World :=
  run (PortfolioService.add_holding ticker (inject_Z quantity) purchase_price
                                    purchase_date notes "default") reply_add.


Definition update_position (position_id : string) (notes : option string)
    (purchase_price : option Q) : World -> ToolReply dict * World :=
  run (PortfolioService.update_position position_id notes purchase_price "default")
      reply.

Definition get_holdings (filter_ticker : option string) (include_totals : bool)
  : World -> ToolReply HoldingsResult * World :=
  run (PortfolioService.get_holdings filter_ticker include_totals "default") reply.

Definition get_transaction_history (ticker start_date end_date
    transaction_type : option string) (limit : Z)
  : World -> ToolReply HistoryResult * World :=
  run (PortfolioService.get_transaction_history ticker start_date end_date
                                                transaction_type limit "default")
      reply.

End Tools.

(** ** Valid field values

    The values an entity can hold after its constructor ran: the field
    constraints are met, the ticker is in upper case, and every datetime is
    one the datetime constructor accepts. *)

Module WF.

Definition upper_case (s : string) : bool := String.eqb (Str.upper s) s.

Definition holding (h : Holding) : bool :=
  (1 <=? Str.len (h_ticker h))%Z && (Str.len (h_ticker h) <=? 10)%Z &&
  upper_case (h_ticker h) &&
  Num.gtb (h_quantity h) 0 && Num.gtb (h_purchase_price h) 0 &&
  DT.valid (h_purchase_date h) && DT.valid (h_created_at h) &&
  DT.valid (h_updated_at h).

Definition transaction (t : Transaction) : bool :=
  TransactionM.ticker_ok (t_ticker t) &&
  match t_ticker t with Some v => upper_case v | None => true end &&
  TransactionM.quantity_ok (t_quantity t) && Num.geb (t_price t) 0 &&
  DT.valid (t_date t) && DT.valid (t_created_at t).

Definition portfolio (p : Portfolio) : bool :=
  Num.geb (p_cash_balance p) 0 &&
  DT.valid (p_last_updated p) && DT.valid (p_created_at p).

(* every reading of the clock is a datetime *)
Definition clock_ok (w : World) : Prop := forall n, DT.valid (clock w n) = true.

End WF.

(** ** What the store holds *)

(** The record [p] is the portfolio stored under [pid]. *)
Definition portfolio_at (w : World) (pid : string) (p : Portfolio) : Prop :=
  portfolios w !! (pid, pid) = Some (PortfolioM.to_dict p) /\
  WF.portfolio p = true /\ p_id p = pid.

(** The current cash balance of portfolio [pid]: the balance of its record,
    or the default balance the record is created with on first access. *)
Definition cash_is (w : World) (pid : string) (balance : Q) : Prop :=
  (portfolios w !! (pid, pid) = None /\ balance = 100000%Q) \/
  (exists p, portfolio_at w pid p /\ p_cash_balance p = balance).

(** The record [h] is the holding stored under [id] in portfolio [pid]. *)
Definition holding_at (w : World) (pid id : string) (h : Holding) : Prop :=
  holdings w !! (pid, id) = Some (HoldingM.to_dict h) /\
  WF.holding h = true /\ h_id h = id /\ h_portfolio_id h = pid.



(** Serializing the record and parsing the document again gives the record
    back and leaves the world as it is. *)
Definition round_trips {T : Type} `{ModelClass T} (x : T) : Prop :=
  forall w, mc_from_dict (mc_to_dict x) w = (Ok x, w).


(** [w1] differs from [w] at most in the record of portfolio [pid] and in
    the number of clock readings: the holdings, the transactions, the other
    portfolios, the clock and the uuid source are the same. *)
Definition only_portfolio (pid : string) (w w1 : World) : Prop :=
  holdings w1 = holdings w /\ transactions w1 = transactions w /\
  (forall k, k <> (pid, pid) -> portfolios w1 !! k = portfolios w !! k) /\
  clock w1 = clock w /\ uuids w1 = uuids w /\ drawn w1 = drawn w.


(** ** Frames: what an operation may write

    A frame says, for each container, which new values a key may get (an
    absent value stands for a deleted document).  [steps F w w'] holds when
    [w'] differs from [w] only by such writes and by the number of clock
    readings and uuids drawn. *)

Record Frame : Type := {
  okH : string * string -> option dict -> Prop;
  okT : string * string -> option dict -> Prop;
  okP : string * string -> option dict -> Prop
}.

Definition ok_of (F : Frame) (c : container_id)
  : string * string -> option dict -> Prop :=
  match c with
  | HoldingsC => okH F
  | TransactionsC => okT F
  | PortfoliosC => okP F
  end.

Definition step (ok : string * string -> option dict -> Prop) (m m' : container)
  : Prop :=
  forall k, m' !! k = m !! k \/ ok k (m' !! k).

Definition steps (F : Frame) (w w' : World) : Prop :=
  step (okH F) (holdings w) (holdings w') /\
  step (okT F) (transactions w) (transactions w') /\
  step (okP F) (portfolios w) (portfolios w') /\
  clock w' = clock w /\ uuids w' = uuids w.

(** [hoare F m Q]: whatever the world, running [m] writes within the frame
    (also when it raises), and a value it returns satisfies [Q]. *)
Definition hoare {A : Type} (F : Frame) (m : M A) (Q : A -> Prop) : Prop :=
  forall w,
    steps F w (snd (m w)) /\
    match fst (m w) with
    | Ok a => Q a
    | Raise _ => True
    end.

(** The frame of the cash invariant: holdings and transactions are free, a
    portfolio document is written only with a cash balance that is not
    negative, and none is deleted. *)
Definition cash_nonneg (d : dict) : Prop :=
  exists x, Dict.get "cash_balance" d = Some (PFloat x) /\ (0 <= x)%Q.

Definition cash_frame : Frame := {|
  okH := fun _ _ => True;
  okT := fun _ _ => True;
  okP := fun _ v => match v with Some d => cash_nonneg d | None => False end
|}.

(** Every stored portfolio has a cash balance that is not negative. *)
Definition cash_ok (w : World) : Prop :=
  forall k d, portfolios w !! k = Some d -> cash_nonneg d.

(** The frame of update_position: only the holding under [key] may change. *)
Definition position_frame (key : string * string) : Frame := {|
  okH := fun k _ => k = key;
  okT := fun _ _ => False;
  okP := fun _ _ => False
|}.

(** The frame of a read: nothing is written (a first access may still
    create the portfolio record [pid] with the default balance). *)
Definition read_frame (pid : string) : Frame := {|
  okH := fun _ _ => False;
  okT := fun _ _ => False;
  okP := fun k _ => k = (pid, pid)
|}.

(** The ledger operations and the world each leaves behind. *)
Inductive ledger_op : Type :=
| OpGetOrCreatePortfolio (portfolio_id : string)
| OpGetCashBalance (portfolio_id : string)
| OpUpdateCashBalance (amount : Q) (operation : string) (portfolio_id : string)
| OpAddHolding (ticker : string) (quantity purchase_price : Q)
               (purchase_date notes : option string) (portfolio_id : string)
| OpRemoveHolding (position_id : string) (quantity : option Q) (portfolio_id : string)
| OpUpdatePosition (position_id : string) (notes : option string)
                   (purchase_price : option Q) (portfolio_id : string)
| OpGetHoldings (filter_ticker : option string) (include_totals : bool)
                (portfolio_id : string)
| OpGetTransactionHistory (ticker start_date end_date transaction_type : option string)
                          (limit : Z) (portfolio_id : string).

Definition run_op (op : ledger_op) (w : World) : World :=
  match op with
  | OpGetOrCreatePortfolio pid => snd (PortfolioService.get_or_create_portfolio pid w)
  | OpGetCashBalance pid => snd (PortfolioService.get_cash_balance pid w)
  | OpUpdateCashBalance a o pid => snd (PortfolioService.update_cash_balance a o pid w)
  | OpAddHolding t q p d n pid => snd (PortfolioService.add_holding t q p d n pid w)
  | OpRemoveHolding i q pid => snd (PortfolioService.remove_holding i q pid w)
  | OpUpdatePosition i n p pid => snd (PortfolioService.update_position i n p pid w)
  | OpGetHoldings f t pid => snd (PortfolioService.get_holdings f t pid w)
  | OpGetTransactionHistory t s e ty l pid =>
      snd (PortfolioService.get_transaction_history t s e ty l pid w)
  end.

(* the operations of a sequence, one after the other *)
Definition run_ops (ops : list ledger_op) (w : World) : World :=
  fold_left (fun w op => run_op op w) ops w.


(** ** A small world to run the operations in *)

Module Scenario.

(* 2025-01-01T00:00:00, naive *)
Definition new_year : datetime :=
  {| DT.year := 2025; DT.month := 1; DT.day := 1; DT.hour := 0; DT.minute := 0;
     DT.second := 0; DT.microsecond := 0; DT.tzinfo := None |}.

(* 2024-06-30T12:00:00+00:00, aware *)
Definition mid_year_utc : datetime :=
  {| DT.year := 2024; DT.month := 6; DT.day := 30; DT.hour := 12; DT.minute := 0;
     DT.second := 0; DT.microsecond := 0; DT.tzinfo := Some 0 |}.

Definition ids (n : nat) : string := "id-" ++ DT.pad 3 (Z.of_nat n).

(* nothing stored yet; the clock stands at the new year *)
Definition empty : World :=
  {| holdings := ∅; transactions := ∅; portfolios := ∅;
     clock := fun _ => new_year; ticks := 0; uuids := ids; drawn := 0 |}.

(* the world after add_to_portfolio("aapl", 10, 150.0) *)
Definition bought : World :=
  snd (Tools.add_to_portfolio "aapl" 10 150 None None empty).

Definition apple : Holding :=
  {| h_id := "id-000"; h_portfolio_id := "default"; h_ticker := "AAPL";
     h_quantity := 10; h_purchase_price := 150; h_purchase_date := new_year;
     h_notes := None; h_created_at := new_year; h_updated_at := new_year |}.

Definition bought_apple : Transaction :=
  {| t_id := "id-001"; t_portfolio_id := "default"; t_type := BUY;
     t_ticker := Some "AAPL"; t_quantity := Some 10%Q; t_price := 150;
     t_total := (-1500)%Q; t_date := new_year;
     t_notes := Some PortfolioService.purchase_note; t_created_at := new_year |}.

Definition fund : Portfolio :=
  {| p_id := "default"; p_cash_balance := 100000; p_last_updated := new_year;
     p_created_at := new_year |}.

End Scenario.


(** ** Words of the claims *)

(** A whole number: the test [quantity != int(quantity)] of validate_quantity
    does not fire. *)
Definition whole (x : Q) : Prop := (x == inject_Z (PortfolioValidator.int x))%Q.

(** All the transactions carry dates of the same kind: all aware ([a] is
    true) or all naive. *)
Definition uniform (a : bool) (ts : list Transaction) : Prop :=
  Forall (fun t => DT.aware (t_date t) = a) ts.

(** [u] is not newer than [t]. *)
Definition not_newer (t u : Transaction) : Prop :=
  (DT.instant (t_date u) <= DT.instant (t_date t))%Z.

(** Sorted by date, newest first; equal dates may follow each other. *)
Definition newest_first (ts : list Transaction) : Prop := Sorted not_newer ts.

(** Every document of the transactions container is the serialized form of a
    transaction with valid field values whose date is of kind [a]. *)
Definition transactions_stored (a : bool) (w : World) : Prop :=
  forall k d, transactions w !! k = Some d ->
    exists t, d = TransactionM.to_dict t /\ WF.transaction t = true /\
              DT.aware (t_date t) = a.

(** An optional filter argument that, when given, passes its validator. *)
Definition filter_valid {A : Type} (validate : string -> result A)
    (o : option string) : Prop :=
  PortfolioService.given o = true -> exists a, validate (default "" o) = Ok a.

(** An optional date filter that, when given, parses to a datetime of kind
    [a]. *)
Definition date_filter_valid (a : bool) (o : option string) : Prop :=
  PortfolioService.given o = true ->
  exists d, PortfolioValidatorDate.validate_date_str (default "" o) = Ok d /\
            DT.aware d = a.


Module ScenarioMore.



End ScenarioMore.


(** ** Dates named in the further properties *)

Module DTMore.

(* d.replace(tzinfo=timezone.utc): the same wall-clock reading, in UTC *)
Definition as_utc (d : datetime) : datetime :=
  {| DT.year := DT.year d; DT.month := DT.month d; DT.day := DT.day d;
     DT.hour := DT.hour d; DT.minute := DT.minute d; DT.second := DT.second d;
     DT.microsecond := DT.microsecond d; DT.tzinfo := Some 0 |}.

(* the naive midnight at which a day starts *)
Definition midnight (y m d : Z) : datetime :=
  {| DT.year := y; DT.month := m; DT.day := d; DT.hour := 0; DT.minute := 0;
     DT.second := 0; DT.microsecond := 0; DT.tzinfo := None |}.

(* YYYY-MM-DD *)
Definition isodate (y m d : Z) : string :=
  DT.pad 4 y ++ "-" ++ DT.pad 2 m ++ "-" ++ DT.pad 2 d.

End DTMore.

(** ** The rest of the repository ([database/repository.py]) *)

Module CosmosRepositoryMore.
Section Generic.

Context {T : Type} `{ModelClass T}.
Variable c : container_id.

(* exists: the item is read with get_by_id; any exception is logged and
   answered with False *)
Definition exists_ (item_id : string) (partition_key : option string) : M bool :=
  try_except
    (let! item := CosmosRepositoryBase.get_by_id (T := T) c item_id partition_key in
     ret (match item with Some _ => true | None => false end))
    (fun _ => ret false).

End Generic.
End CosmosRepositoryMore.

(** Every document of the holdings container is the serialized form of a
    holding with valid field values, stored under its own partition key and
    id. *)
Definition holdings_stored (w : World) : Prop :=
  forall k d, holdings w !! k = Some d ->
    exists h, d = HoldingM.to_dict h /\ WF.holding h = true /\
              k = (h_portfolio_id h, h_id h).

(** ** More frames *)

(** The frame of a pure read: nothing is written. *)
Definition nothing_frame : Frame := {|
  okH := fun _ _ => False;
  okT := fun _ _ => False;
  okP := fun _ _ => False
|}.

(** The frame of an operation on the holdings alone: holdings may be
    written, none is deleted, and the transactions and the portfolios stay. *)
Definition holdings_only_frame : Frame := {|
  okH := fun _ v => is_Some v;
  okT := fun _ _ => False;
  okP := fun _ _ => False
|}.

(** ** The sums of get_holdings *)

Module HoldingsTotals.

(* sum(h.quantity * h.purchase_price for h in holdings) *)
Definition invested (hs : list Holding) : Q :=
  fold_left (fun acc h => acc + h_quantity h * h_purchase_price h)%Q hs 0%Q.




End HoldingsTotals.

(** ** The transactions a history query asks for *)

(** [t] is a transaction stored in portfolio [pid] that passes the filters
    given: its ticker is the validated ticker filter, its type is the one
    the type filter names, and its date lies in the range of the date
    filters (bounds included). *)
Definition history_match (w : World) (pid : string)
    (ticker start_date end_date transaction_type : option string)
    (t : Transaction) : Prop :=
  WF.transaction t = true /\
  (exists id, transactions w !! (pid, id) = Some (TransactionM.to_dict t)) /\
  (PortfolioService.given ticker = true ->
   exists tk, PortfolioValidator.validate_ticker (default "" ticker) = Ok tk /\
              t_ticker t = Some tk) /\
  (PortfolioService.given transaction_type = true ->
   PortfolioValidator.validate_transaction_type (default "" transaction_type)
   = Ok (Str.upper (TType.value (t_type t)))) /\
  (PortfolioService.given start_date = true ->
   exists d, PortfolioValidatorDate.validate_date_str (default "" start_date) = Ok d /\
             (DT.instant d <= DT.instant (t_date t))%Z) /\
  (PortfolioService.given end_date = true ->
   exists d, PortfolioValidatorDate.validate_date_str (default "" end_date) = Ok d /\
             (DT.instant (t_date t) <= DT.instant d)%Z).

(** ** The rest of the entities ([models/domain.py]) *)

Module HoldingCalc.




End HoldingCalc.

Record Watchlist : Type := {
  wl_id : string;
  wl_user_id : string;
  wl_name : string;
  wl_tickers : list string;
  wl_notes : option string;
  wl_created_at : datetime;
  wl_updated_at : datetime
}.

(** The values of a watchlist document: besides strings and dates, a list
    of strings. *)
Inductive wval : Type :=
| WNone
| WStr (s : string)
| WList (l : list string)
| WDatetime (d : datetime).

Definition wdict : Type := list (string * wval).

Module WDict.

Fixpoint get (k : string) (d : wdict) : option wval :=
  match d with
  | [] => None
  | (k', v) :: r => if String.eqb k k' then Some v else get k r
  end.

Fixpoint set (k : string) (v : wval) (d : wdict) : wdict :=
  match d with
  | [] => [(k, v)]
  | (k', v') :: r => if String.eqb k k' then (k, v) :: r else (k', v') :: set k v r
  end.

Fixpoint dates_to_iso (keys : list string) (data : wdict) : wdict :=
  match keys with
  | [] => data
  | key :: keys' =>
      match get key data with
      | Some (WDatetime d) => dates_to_iso keys' (set key (WStr (DT.isoformat d)) data)
      | _ => dates_to_iso keys' data
      end
  end.

Fixpoint dates_from_iso (keys : list string) (data : wdict) : result wdict :=
  match keys with
  | [] => Ok data
  | key :: keys' =>
      match get key data with
      | Some (WStr s) =>
          match DT.fromisoformat s with
          | Ok d => dates_from_iso keys' (set key (WDatetime d) data)
          | Raise e => Raise e
          end
      | _ => dates_from_iso keys' data
      end
  end.

End WDict.

Module WatchlistM.

(* name: min_length=1, max_length=100; then the tickers_uppercase validator *)
Definition validate (x : Watchlist) : result Watchlist :=
  let? _ := require ((1 <=? Str.len (wl_name x))%Z && (Str.len (wl_name x) <=? 100)%Z)
                    "name" in
  Ok {| wl_id := wl_id x; wl_user_id := wl_user_id x; wl_name := wl_name x;
        wl_tickers := List.map Str.upper (wl_tickers x); wl_notes := wl_notes x;
        wl_created_at := wl_created_at x; wl_updated_at := wl_updated_at x |}.

(* Watchlist(id=..., ...): user_id defaults to "default", tickers to [],
   created_at and updated_at to utcnow() *)
Definition init (id : string) (user_id : option string) (name : string)
    (tickers : option (list string)) (notes : option string)
    (created_at updated_at : option datetime) : M Watchlist :=
  let! created_at := default_utcnow created_at in
  let! updated_at := default_utcnow updated_at in
  lift (validate {| wl_id := id; wl_user_id := default "default" user_id;
                    wl_name := name; wl_tickers := default [] tickers;
                    wl_notes := notes; wl_created_at := created_at;
                    wl_updated_at := updated_at |}).

Definition date_keys : list string := ["created_at"; "updated_at"].

Definition model_dump (x : Watchlist) : wdict :=
  [("id", WStr (wl_id x)); ("user_id", WStr (wl_user_id x));
   ("name", WStr (wl_name x)); ("tickers", WList (wl_tickers x));
   ("notes", match wl_notes x with Some s => WStr s | None => WNone end);
   ("created_at", WDatetime (wl_created_at x));
   ("updated_at", WDatetime (wl_updated_at x))].

Definition to_dict (x : Watchlist) : wdict :=
  WDict.dates_to_iso date_keys (model_dump x).

Definition arg_str (k : string) (d : wdict) : result string :=
  match WDict.get k d with
  | Some (WStr s) => Ok s
  | _ => Raise (PydanticValidationError k)
  end.

Definition arg_opt_str_default (k : string) (d : wdict) : result (option string) :=
  match WDict.get k d with
  | None => Ok None
  | Some (WStr s) => Ok (Some s)
  | _ => Raise (PydanticValidationError k)
  end.

Definition arg_opt_str (k : string) (d : wdict) : result (option string) :=
  match WDict.get k d with
  | None | Some WNone => Ok None
  | Some (WStr s) => Ok (Some s)
  | _ => Raise (PydanticValidationError k)
  end.

Definition arg_opt_list (k : string) (d : wdict) : result (option (list string)) :=
  match WDict.get k d with
  | None => Ok None
  | Some (WList l) => Ok (Some l)
  | _ => Raise (PydanticValidationError k)
  end.

Definition arg_opt_date (k : string) (d : wdict) : result (option datetime) :=
  match WDict.get k d with
  | None => Ok None
  | Some (WDatetime x) => Ok (Some x)
  | _ => Raise (PydanticValidationError k)
  end.

Definition from_dict (data : wdict) : M Watchlist :=
  let! data := lift (WDict.dates_from_iso date_keys data) in
  let! id := lift (arg_str "id" data) in
  let! user_id := lift (arg_opt_str_default "user_id" data) in
  let! name := lift (arg_str "name" data) in
  let! tickers := lift (arg_opt_list "tickers" data) in
  let! notes := lift (arg_opt_str "notes" data) in
  let! created_at := lift (arg_opt_date "created_at" data) in
  let! updated_at := lift (arg_opt_date "updated_at" data) in
  init id user_id name tickers notes created_at updated_at.

(* "ticker in self.tickers" *)
Definition has (ticker : string) (tickers : list string) : bool :=
  existsb (String.eqb ticker) tickers.

(* list.remove(x): the first occurrence goes *)
Fixpoint remove_first (ticker : string) (tickers : list string) : list string :=
  match tickers with
  | [] => []
  | t :: r => if String.eqb ticker t then r else t :: remove_first ticker r
  end.

Definition with_tickers (x : Watchlist) (tickers : list string) (now : datetime)
  : Watchlist :=
  {| wl_id := wl_id x; wl_user_id := wl_user_id x; wl_name := wl_name x;
     wl_tickers := tickers; wl_notes := wl_notes x;
     wl_created_at := wl_created_at x; wl_updated_at := now |}.

(* the method changes the object; here the changed object is returned *)
Definition add_ticker (x : Watchlist) (ticker : string) : M Watchlist :=
  let ticker := Str.upper ticker in
  if negb (has ticker (wl_tickers x)) then
    let! now := utcnow in
    ret (with_tickers x (wl_tickers x ++ [ticker]) now)
  else ret x.

Definition remove_ticker (x : Watchlist) (ticker : string) : M (bool * Watchlist) :=
  let ticker := Str.upper ticker in
  if has ticker (wl_tickers x) then
    let! now := utcnow in
    ret (true, with_tickers x (remove_first ticker (wl_tickers x)) now)
  else ret (false, x).

End WatchlistM.

(** ** A watchlist named in the further properties *)

Module ScenarioWatch.

Definition tech : Watchlist :=
  {| wl_id := "wl-1"; wl_user_id := "default"; wl_name := "Tech";
     wl_tickers := ["AAPL"; "MSFT"]; wl_notes := None;
     wl_created_at := Scenario.new_year; wl_updated_at := Scenario.mid_year_utc |}.

End ScenarioWatch.

(** ** The ledger of transactions only grows *)

(** The transactions of [w] are all stored in [w'], unchanged. *)
Definition ledger_kept (w w' : World) : Prop :=
  forall k d, transactions w !! k = Some d -> transactions w' !! k = Some d.

(** The frame of what happens beside the ledger: holdings and portfolios are
    free, no transaction is written. *)
Definition beside_ledger_frame : Frame := {|
  okH := fun _ _ => True;
  okT := fun _ _ => False;
  okP := fun _ _ => True
|}.

(** [appends m]: whatever the world, and whether [m] returns or raises, the
    transactions stored before are stored afterwards and at most one has
    been added. *)
Definition appends {A : Type} (m : M A) : Prop :=
  forall w,
    ledger_kept w (snd (m w)) /\
    (size (transactions (snd (m w))) <= S (size (transactions w)))%nat.

(** ** The stored holdings stay well-formed *)

(** The clock gives datetimes and every stored holding is the document of a
    holding with valid field values, under its own key. *)
Definition store_ok (w : World) : Prop := WF.clock_ok w /\ holdings_stored w.

(** [keeps m Q]: from a world that is [store_ok], running [m] leads to a
    world that is [store_ok] (also when it raises), and a value it returns
    satisfies [Q]. *)
Definition keeps {A : Type} (m : M A) (Q : A -> Prop) : Prop :=
  forall w, store_ok w ->
    store_ok (snd (m w)) /\
    match fst (m w) with
    | Ok a => Q a
    | Raise _ => True
    end.

(** The frame of the writes that keep the holdings well-formed. *)
Definition wf_holding_doc (k : string * string) (v : option dict) : Prop :=
  match v with
  | None => True
  | Some d => exists h, d = HoldingM.to_dict h /\ WF.holding h = true /\
                        k = (h_portfolio_id h, h_id h)
  end.

Definition wf_holdings_frame : Frame := {|
  okH := wf_holding_doc;
  okT := fun _ _ => True;
  okP := fun _ _ => True
|}.

(** ** Python floats: the values and the rounding of IEEE 754 binary64

    The model computes with exact rationals.  On floats a product is the
    exact product rounded to the nearest float, a tie going to the float
    with the even significand; [fmul] gives it, for the places where the
    code compares a product it has computed. *)

Module Float64.









End Float64.
(** * Properties *)

(** ** Decimal fields: printing then reading *)

Section Digits.

Local Open Scope Z_scope.

Lemma digit_cases (d : Z) :
  0 <= d < 10 ->
  d = 0 \/ d = 1 \/ d = 2 \/ d = 3 \/ d = 4 \/ d = 5 \/ d = 6 \/ d = 7 \/ d = 8 \/ d = 9.
Proof. lia. Qed.

Lemma is_digit_digit (d : Z) : 0 <= d < 10 -> Str.is_digit (DT.digit d) = true.
Proof.
  intros Hd. pose proof (digit_cases d Hd) as Hc.
  repeat (destruct Hc as [-> | Hc]; [reflexivity |]). subst. reflexivity.
Qed.

Lemma digit_val_digit (d : Z) : 0 <= d < 10 -> DT.digit_val (DT.digit d) = d.
Proof.
  intros Hd. pose proof (digit_cases d Hd) as Hc.
  repeat (destruct Hc as [-> | Hc]; [reflexivity |]). subst. reflexivity.
Qed.

Lemma append_String (c : ascii) (s r : string) :
  (String c s ++ r)%string = String c (s ++ r).
Proof. reflexivity. Qed.

Lemma append_Empty (r : string) : (EmptyString ++ r)%string = r.
Proof. reflexivity. Qed.

Lemma read_digits_pad (w : nat) : forall (n acc : Z) (rest : string),
  DT.read_digits w (DT.pad w n ++ rest) acc
  = Some (acc * 10 ^ Z.of_nat w + n mod 10 ^ Z.of_nat w, rest).
Proof.
  induction w as [| w IH]; intros n acc rest.
  - cbn [DT.read_digits DT.pad]. rewrite append_Empty. f_equal. f_equal.
    change (10 ^ Z.of_nat 0) with 1. rewrite Z.mod_1_r. lia.
  - cbn [DT.read_digits DT.pad]. rewrite append_String.
    assert (Hd : 0 <= (n / 10 ^ Z.of_nat w) mod 10 < 10)
      by (apply Z.mod_pos_bound; lia).
    rewrite (is_digit_digit _ Hd), (digit_val_digit _ Hd), IH.
    f_equal. f_equal.
    rewrite Nat2Z.inj_succ, Z.pow_succ_r by lia.
    assert (Hp : 0 < 10 ^ Z.of_nat w) by (apply Z.pow_pos_nonneg; lia).
    rewrite (Z.mul_comm 10 (10 ^ Z.of_nat w)).
    rewrite (Z.rem_mul_r n (10 ^ Z.of_nat w) 10) by lia.
    ring.
Qed.

Lemma read_field (w : nat) (n : Z) (rest : string) :
  0 <= n < 10 ^ Z.of_nat w ->
  DT.read_digits w (DT.pad w n ++ rest) 0 = Some (n, rest).
Proof.
  intros Hn. rewrite read_digits_pad. f_equal. f_equal.
  rewrite Z.mod_small by lia. lia.
Qed.

End Digits.

(** ** isoformat and fromisoformat *)

Section Iso.

Lemma append_nil (s : string) : s ++ "" = s.
Proof.
  induction s as [| c s IH]; [reflexivity |].
  rewrite append_String, IH. reflexivity.
Qed.

Lemma read_field_end (w : nat) (n : Z) :
  0 <= n < 10 ^ Z.of_nat w ->
  DT.read_digits w (DT.pad w n) 0 = Some (n, "").
Proof.
  intros Hn. rewrite <- (append_nil (DT.pad w n)). apply read_field, Hn.
Qed.

Lemma valid_fields (d : datetime) :
  DT.valid d = true ->
  1 <= DT.year d <= 9999 /\ 1 <= DT.month d <= 12 /\
  1 <= DT.day d <= 31 /\
  0 <= DT.hour d <= 23 /\ 0 <= DT.minute d <= 59 /\ 0 <= DT.second d <= 59 /\
  0 <= DT.microsecond d <= 999999 /\
  match DT.tzinfo d with Some off => -1439 <= off <= 1439 | None => True end.
Proof.
  unfold DT.valid, DT.in_range. intros H.
  repeat (apply andb_prop in H; destruct H as [H ?]).
  assert (Hdim : DT.days_in_month (DT.year d) (DT.month d) <= 31).
  { unfold DT.days_in_month.
    repeat match goal with |- context [if ?b then _ else _] => destruct b end; lia. }
  destruct (DT.tzinfo d); repeat split; try lia.
  all: try (apply andb_prop in H0; lia).
Qed.

Lemma parse_offset_format (tz : option Z) :
  match tz with Some off => -1439 <= off <= 1439 | None => True end ->
  DT.parse_offset (DT.format_offset tz) = Some tz.
Proof.
  destruct tz as [off |]; [| reflexivity]. intros Hoff.
  unfold DT.format_offset.
  assert (Hq : 0 <= Z.abs off / 60 < 24).
  { split; [apply Z.div_pos; lia | apply Z.div_lt_upper_bound; lia]. }
  assert (Hr : 0 <= Z.abs off mod 60 < 60) by (apply Z.mod_pos_bound; lia).
  assert (Hdec : Z.abs off = (Z.abs off / 60) * 60 + Z.abs off mod 60).
  { rewrite Z.mul_comm. apply Z.div_mod. lia. }
  assert (Hlt1 : (Z.abs off / 60 <? 24)%Z = true) by (apply Z.ltb_lt; lia).
  assert (Hlt2 : (Z.abs off mod 60 <? 60)%Z = true) by (apply Z.ltb_lt; lia).
  destruct (off <? 0)%Z eqn:Hneg.
  - rewrite append_String, append_Empty.
    cbn [DT.parse_offset]. change (Ascii.eqb "-" "+") with false.
    change (Ascii.eqb "-" "-") with true. cbn [orb].
    rewrite read_field by (change (10 ^ Z.of_nat 2) with 100; lia).
    rewrite append_String, append_Empty. cbn [DT.expect].
    change (Ascii.eqb ":" ":") with true. cbn iota.
    rewrite read_field_end by (change (10 ^ Z.of_nat 2) with 100; lia).
    rewrite Hlt1, Hlt2. cbn [andb]. apply Z.ltb_lt in Hneg.
    do 2 f_equal. lia.
  - rewrite append_String, append_Empty.
    cbn [DT.parse_offset]. change (Ascii.eqb "+" "+") with true. cbn [orb].
    change (Ascii.eqb "+" "-") with false.
    rewrite read_field by (change (10 ^ Z.of_nat 2) with 100; lia).
    rewrite append_String, append_Empty. cbn [DT.expect].
    change (Ascii.eqb ":" ":") with true. cbn iota.
    rewrite read_field_end by (change (10 ^ Z.of_nat 2) with 100; lia).
    rewrite Hlt1, Hlt2. cbn [andb]. apply Z.ltb_ge in Hneg.
    do 2 f_equal. lia.
Qed.

(* an offset never starts with the dot of a fraction *)
Lemma parse_fraction_offset (tz : option Z) :
  DT.parse_fraction (DT.format_offset tz) = Some (0, DT.format_offset tz).
Proof.
  destruct tz as [off |]; [| reflexivity].
  unfold DT.format_offset. destruct (off <? 0)%Z; reflexivity.
Qed.

Lemma parse_time_format (d : datetime) :
  DT.valid d = true ->
  DT.parse_time
    (DT.pad 2 (DT.hour d) ++ ":" ++ DT.pad 2 (DT.minute d) ++ ":" ++
     DT.pad 2 (DT.second d) ++
     (if (DT.microsecond d =? 0)%Z then "" else "." ++ DT.pad 6 (DT.microsecond d)) ++
     DT.format_offset (DT.tzinfo d))
  = Some (DT.hour d, DT.minute d, DT.second d, DT.microsecond d, DT.tzinfo d).
Proof.
  intros Hv. destruct (valid_fields d Hv) as (_ & _ & _ & Hh & Hmi & Hs & Hus & Htz).
  unfold DT.parse_time.
  rewrite read_field by (change (10 ^ Z.of_nat 2) with 100; lia).
  rewrite append_String, append_Empty. cbn [DT.expect].
  change (Ascii.eqb ":" ":") with true. cbn iota.
  rewrite read_field by (change (10 ^ Z.of_nat 2) with 100; lia).
  rewrite append_String, append_Empty. cbn [DT.expect].
  change (Ascii.eqb ":" ":") with true. cbn iota.
  rewrite read_field by (change (10 ^ Z.of_nat 2) with 100; lia).
  destruct (DT.microsecond d =? 0)%Z eqn:Hus0.
  - apply Z.eqb_eq in Hus0. rewrite append_Empty, parse_fraction_offset.
    rewrite parse_offset_format by exact Htz. rewrite Hus0. reflexivity.
  - rewrite !append_String, append_Empty. cbn [DT.parse_fraction].
    rewrite read_field by (change (10 ^ Z.of_nat 6) with 1000000; lia).
    rewrite parse_offset_format by exact Htz. reflexivity.
Qed.

Lemma parse_date_format (y m d : Z) (rest : string) :
  1 <= y <= 9999 -> 1 <= m <= 12 -> 1 <= d <= 31 ->
  DT.parse_date (DT.pad 4 y ++ "-" ++ DT.pad 2 m ++ "-" ++ DT.pad 2 d ++ rest)
  = Some (y, m, d, rest).
Proof.
  intros Hy Hm Hd. unfold DT.parse_date.
  rewrite read_field by (change (10 ^ Z.of_nat 4) with 10000; lia).
  rewrite append_String, append_Empty. cbn [DT.expect].
  change (Ascii.eqb "-" "-") with true. cbn iota.
  rewrite read_field by (change (10 ^ Z.of_nat 2) with 100; lia).
  rewrite append_String, append_Empty. cbn [DT.expect].
  change (Ascii.eqb "-" "-") with true. cbn iota.
  rewrite read_field by (change (10 ^ Z.of_nat 2) with 100; lia).
  reflexivity.
Qed.

(** fromisoformat is the inverse of isoformat. *)
Lemma fromisoformat_isoformat (d : datetime) :
  DT.valid d = true -> DT.fromisoformat (DT.isoformat d) = Ok d.
Proof.
  intros Hv. destruct (valid_fields d Hv) as (Hy & Hm & Hd & _).
  unfold DT.fromisoformat, DT.isoformat.
  rewrite parse_date_format by assumption.
  rewrite append_String, append_Empty.
  rewrite parse_time_format by exact Hv.
  unfold DT.checked. destruct d; cbn in Hv |- *. rewrite Hv. reflexivity.
Qed.

End Iso.

(** ** Entities: to_dict then from_dict *)

Ltac split_andb :=
  repeat match goal with
         | H : (_ && _)%bool = true |- _ => apply andb_prop in H; destruct H
         end.

Section RoundTrip.

Lemma holding_wf_fields (h : Holding) :
  WF.holding h = true ->
  ((1 <=? Str.len (h_ticker h))%Z && (Str.len (h_ticker h) <=? 10)%Z = true) /\
  Str.upper (h_ticker h) = h_ticker h /\
  Num.gtb (h_quantity h) 0 = true /\ Num.gtb (h_purchase_price h) 0 = true /\
  DT.valid (h_purchase_date h) = true /\ DT.valid (h_created_at h) = true /\
  DT.valid (h_updated_at h) = true.
Proof.
  unfold WF.holding, WF.upper_case. intros H. split_andb.
  repeat split; try assumption.
  - apply andb_true_intro. split; assumption.
  - apply String.eqb_eq. assumption.
Qed.

Lemma holding_validate_wf (h : Holding) :
  WF.holding h = true -> HoldingM.validate h = Ok h.
Proof.
  intros Hwf. destruct (holding_wf_fields h Hwf) as (Hlen & Hup & Hq & Hp & _).
  unfold HoldingM.validate. rewrite Hlen, Hq, Hp, Hup. cbn. destruct h; reflexivity.
Qed.

Lemma Holding_roundtrip (h : Holding) (w : World) :
  WF.holding h = true ->
  HoldingM.from_dict (HoldingM.to_dict h) w = (Ok h, w).
Proof.
  intros Hwf.
  destruct (holding_wf_fields h Hwf) as (_ & _ & _ & _ & Hd1 & Hd2 & Hd3).
  unfold HoldingM.from_dict, HoldingM.to_dict, HoldingM.model_dump, HoldingM.date_keys.
  cbn -[DT.isoformat DT.fromisoformat HoldingM.init].
  rewrite !fromisoformat_isoformat by assumption.
  cbn -[DT.isoformat DT.fromisoformat HoldingM.init].
  replace (match Dict.of_option (h_notes h) with
           | PNone => Ok None
           | PStr s => Ok (Some s)
           | _ => Raise (PydanticValidationError "notes")
           end) with (@Ok (option string) (h_notes h))
    by (destruct (h_notes h); reflexivity).
  unfold HoldingM.init. cbn -[HoldingM.validate].
  rewrite holding_validate_wf by (destruct h; exact Hwf).
  destruct h; reflexivity.
Qed.

Lemma transaction_wf_fields (t : Transaction) :
  WF.transaction t = true ->
  TransactionM.ticker_ok (t_ticker t) = true /\
  TransactionM.ticker_uppercase (t_ticker t) = t_ticker t /\
  TransactionM.quantity_ok (t_quantity t) = true /\
  Num.geb (t_price t) 0 = true /\
  DT.valid (t_date t) = true /\ DT.valid (t_created_at t) = true.
Proof.
  unfold WF.transaction, WF.upper_case. intros H. split_andb.
  repeat split; try assumption.
  destruct (t_ticker t) as [v |]; [| reflexivity].
  cbn. destruct (Str.is_empty v); [reflexivity |].
  f_equal. apply String.eqb_eq. assumption.
Qed.

Lemma transaction_validate_wf (t : Transaction) :
  WF.transaction t = true -> TransactionM.validate t = Ok t.
Proof.
  intros Hwf. destruct (transaction_wf_fields t Hwf) as (Ht & Hup & Hq & Hp & _).
  unfold TransactionM.validate. rewrite Ht, Hq, Hp, Hup. cbn. destruct t; reflexivity.
Qed.

Lemma of_value_value (t : TransactionType) : TType.of_value (TType.value t) = Ok t.
Proof. destruct t; reflexivity. Qed.

Lemma Transaction_roundtrip (t : Transaction) (w : World) :
  WF.transaction t = true ->
  TransactionM.from_dict (TransactionM.to_dict t) w = (Ok t, w).
Proof.
  intros Hwf.
  destruct (transaction_wf_fields t Hwf) as (_ & _ & _ & _ & Hd1 & Hd2).
  unfold TransactionM.from_dict, TransactionM.to_dict, TransactionM.model_dump,
    TransactionM.date_keys, TransactionM.type_to_value, TransactionM.type_from_value.
  cbn -[DT.isoformat DT.fromisoformat TransactionM.init TType.of_value TType.value].
  rewrite !fromisoformat_isoformat by assumption.
  cbn -[DT.isoformat DT.fromisoformat TransactionM.init TType.of_value TType.value].
  rewrite of_value_value.
  destruct t as [id pid ty tk q pr tot dt nt ca]; cbn [t_ticker t_quantity t_notes
    t_id t_portfolio_id t_type t_price t_total t_date t_created_at] in *.
  destruct tk, q, nt; cbn -[TransactionM.init];
    unfold TransactionM.init; cbn -[TransactionM.validate];
    rewrite transaction_validate_wf by exact Hwf; reflexivity.
Qed.

Lemma portfolio_wf_fields (p : Portfolio) :
  WF.portfolio p = true ->
  Num.geb (p_cash_balance p) 0 = true /\
  DT.valid (p_last_updated p) = true /\ DT.valid (p_created_at p) = true.
Proof.
  unfold WF.portfolio. intros H. split_andb. repeat split; assumption.
Qed.

Lemma portfolio_validate_wf (p : Portfolio) :
  WF.portfolio p = true -> PortfolioM.validate p = Ok p.
Proof.
  intros Hwf. destruct (portfolio_wf_fields p Hwf) as (Hc & _).
  unfold PortfolioM.validate. rewrite Hc. reflexivity.
Qed.

Lemma Portfolio_roundtrip (p : Portfolio) (w : World) :
  WF.portfolio p = true ->
  PortfolioM.from_dict (PortfolioM.to_dict p) w = (Ok p, w).
Proof.
  intros Hwf.
  destruct (portfolio_wf_fields p Hwf) as (_ & Hd1 & Hd2).
  unfold PortfolioM.from_dict, PortfolioM.to_dict, PortfolioM.model_dump,
    PortfolioM.date_keys.
  cbn -[DT.isoformat DT.fromisoformat PortfolioM.init].
  rewrite !fromisoformat_isoformat by assumption.
  cbn -[DT.isoformat DT.fromisoformat PortfolioM.init].
  unfold PortfolioM.init. cbn -[PortfolioM.validate].
  rewrite portfolio_validate_wf by (destruct p; exact Hwf).
  destruct p; reflexivity.
Qed.

End RoundTrip.

(** ** The monad and the repositories *)

Lemma bind_Ok {A B} (m : M A) (k : A -> M B) (w w1 : World) (a : A) :
  m w = (Ok a, w1) -> bind m k w = k a w1.
Proof. intros H. unfold bind. rewrite H. reflexivity. Qed.

Lemma bind_Raise {A B} (m : M A) (k : A -> M B) (w w1 : World) (e : exn) :
  m w = (Raise e, w1) -> bind m k w = (Raise e, w1).
Proof. intros H. unfold bind. rewrite H. reflexivity. Qed.

Section RepositoryFacts.

Context {T : Type} `{ModelClass T}.
Variable c : container_id.

Lemma get_by_id_hit (id pk : string) (x : T) (w : World) :
  ContainerProxy.docs c w !! (pk, id) = Some (mc_to_dict x) ->
  round_trips x ->
  CosmosRepositoryBase.get_by_id c id (Some pk) w = (Ok (Some x), w).
Proof.
  intros Hdoc Hrt. unfold CosmosRepositoryBase.get_by_id, ContainerProxy.read_item.
  change (default id (Some pk)) with pk. rewrite Hdoc.
  unfold CosmosRepositoryBase.wrapped, try_except, CosmosRepositoryBase._from_cosmos.
  rewrite (bind_Ok _ _ _ _ _ (Hrt w)). reflexivity.
Qed.

Lemma get_by_id_miss (id pk : string) (w : World) :
  ContainerProxy.docs c w !! (pk, id) = None ->
  CosmosRepositoryBase.get_by_id (T := T) c id (Some pk) w = (Ok None, w).
Proof.
  intros Hdoc. unfold CosmosRepositoryBase.get_by_id, ContainerProxy.read_item.
  change (default id (Some pk)) with pk. rewrite Hdoc. reflexivity.
Qed.

Lemma create_fresh (x : T) (k : string * string) (w : World) :
  ContainerProxy.key_of c (mc_to_dict x) = Some k ->
  ContainerProxy.docs c w !! k = None ->
  round_trips x ->
  CosmosRepositoryBase.create c x w
  = (Ok x, ContainerProxy.set_docs c (<[k := mc_to_dict x]> (ContainerProxy.docs c w)) w).
Proof.
  intros Hk Hfresh Hrt.
  unfold CosmosRepositoryBase.create, ContainerProxy.create_item,
    CosmosRepositoryBase._to_cosmos.
  rewrite Hk, Hfresh.
  unfold CosmosRepositoryBase.wrapped, try_except, CosmosRepositoryBase._from_cosmos.
  rewrite Hrt. reflexivity.
Qed.

Lemma create_duplicate (x : T) (k : string * string) (w : World) :
  ContainerProxy.key_of c (mc_to_dict x) = Some k ->
  is_Some (ContainerProxy.docs c w !! k) ->
  CosmosRepositoryBase.create c x w
  = (Raise (DuplicateItemException "Item already exists"), w).
Proof.
  intros Hk [d Hd].
  unfold CosmosRepositoryBase.create, ContainerProxy.create_item,
    CosmosRepositoryBase._to_cosmos.
  rewrite Hk, Hd. reflexivity.
Qed.

Lemma replace_hit (x : T) (id pk : string) (w : World) :
  ContainerProxy.key_of c (mc_to_dict x) = Some (pk, id) ->
  is_Some (ContainerProxy.docs c w !! (pk, id)) ->
  ContainerProxy.replace_item c id (mc_to_dict x) w
  = (inl (mc_to_dict x),
     ContainerProxy.set_docs c (<[(pk, id) := mc_to_dict x]> (ContainerProxy.docs c w)) w).
Proof.
  intros Hk [d Hd]. unfold ContainerProxy.replace_item.
  rewrite Hk, String.eqb_refl, Hd. reflexivity.
Qed.

Lemma delete_hit (id pk : string) (w : World) :
  is_Some (ContainerProxy.docs c w !! (pk, id)) ->
  CosmosRepositoryBase.delete c id (Some pk) w
  = (Ok true, ContainerProxy.set_docs c (delete (pk, id) (ContainerProxy.docs c w)) w).
Proof.
  intros [d Hd]. unfold CosmosRepositoryBase.delete, ContainerProxy.delete_item.
  change (default id (Some pk)) with pk. rewrite Hd. reflexivity.
Qed.

End RepositoryFacts.

(* update, for a model with a time stamp *)
Lemma update_hit {T : Type} `{ModelClass T} (c : container_id)
    (set_stamp : T -> datetime -> T) (x : T) (id pk : string) (opk : option string)
    (w : World) :
  mc_stamp = Some set_stamp ->
  let x' := set_stamp x (clock w (ticks w)) in
  ContainerProxy.key_of c (mc_to_dict x') = Some (pk, id) ->
  is_Some (ContainerProxy.docs c w !! (pk, id)) ->
  round_trips x' ->
  CosmosRepositoryBase.update c id x opk w
  = (Ok x',
     ContainerProxy.set_docs c (<[(pk, id) := mc_to_dict x']> (ContainerProxy.docs c w))
                             (tick w)).
Proof.
  intros Hst x' Hk Hsome Hrt.
  unfold CosmosRepositoryBase.update, CosmosRepositoryBase.stamped. rewrite Hst.
  unfold bind at 1. unfold bind at 1. unfold utcnow, ret.
  unfold CosmosRepositoryBase._to_cosmos. fold x'.
  rewrite (replace_hit c x' id pk (tick w) Hk) by exact Hsome.
  unfold CosmosRepositoryBase.wrapped, try_except, CosmosRepositoryBase._from_cosmos.
  rewrite Hrt. reflexivity.
Qed.

(** ** Comparisons of numbers *)

Lemma leb_true (x y : Q) : Num.leb x y = true <-> (x <= y)%Q.
Proof. unfold Num.leb. apply Qle_bool_iff. Qed.

Lemma leb_false (x y : Q) : Num.leb x y = false <-> (y < x)%Q.
Proof.
  unfold Num.leb. split; intros H.
  - apply Qnot_le_lt. intros Hle. apply Qle_bool_iff in Hle. congruence.
  - destruct (Qle_bool x y) eqn:E; [| reflexivity].
    apply Qle_bool_iff in E. exfalso. apply (Qlt_not_le _ _ H E).
Qed.

Lemma ltb_true (x y : Q) : Num.ltb x y = true <-> (x < y)%Q.
Proof.
  unfold Num.ltb. rewrite negb_true_iff. apply (leb_false y x).
Qed.

Lemma ltb_false (x y : Q) : Num.ltb x y = false <-> (y <= x)%Q.
Proof.
  unfold Num.ltb. rewrite negb_false_iff. apply (leb_true y x).
Qed.

Lemma gtb_true (x y : Q) : Num.gtb x y = true <-> (y < x)%Q.
Proof. apply ltb_true. Qed.

Lemma gtb_false (x y : Q) : Num.gtb x y = false <-> (x <= y)%Q.
Proof. apply ltb_false. Qed.

Lemma geb_true (x y : Q) : Num.geb x y = true <-> (y <= x)%Q.
Proof. apply leb_true. Qed.

Lemma eqb_true (x y : Q) : Num.eqb x y = true <-> (x == y)%Q.
Proof. unfold Num.eqb. apply Qeq_bool_iff. Qed.

Lemma eqb_false (x y : Q) : Num.eqb x y = false <-> ~ (x == y)%Q.
Proof.
  unfold Num.eqb. split; intros H.
  - intros E. apply Qeq_bool_iff in E. congruence.
  - destruct (Qeq_bool x y) eqn:E; [| reflexivity].
    apply Qeq_bool_iff in E. contradiction.
Qed.

(* turn the boolean comparisons in the context into propositions *)
Ltac num_props :=
  repeat match goal with
         | H : Num.leb _ _ = true |- _ => apply leb_true in H
         | H : Num.leb _ _ = false |- _ => apply leb_false in H
         | H : Num.ltb _ _ = true |- _ => apply ltb_true in H
         | H : Num.ltb _ _ = false |- _ => apply ltb_false in H
         | H : Num.gtb _ _ = true |- _ => apply gtb_true in H
         | H : Num.gtb _ _ = false |- _ => apply gtb_false in H
         | H : Num.geb _ _ = true |- _ => apply geb_true in H
         | H : Num.eqb _ _ = true |- _ => apply eqb_true in H
         | H : Num.eqb _ _ = false |- _ => apply eqb_false in H
         end.

(** ** Documents and their keys *)

Lemma key_of_portfolio (p : Portfolio) :
  ContainerProxy.key_of PortfoliosC (PortfolioM.to_dict p) = Some (p_id p, p_id p).
Proof. reflexivity. Qed.

Lemma key_of_holding (h : Holding) :
  ContainerProxy.key_of HoldingsC (HoldingM.to_dict h)
  = Some (h_portfolio_id h, h_id h).
Proof. reflexivity. Qed.

Lemma key_of_transaction (t : Transaction) :
  ContainerProxy.key_of TransactionsC (TransactionM.to_dict t)
  = Some (t_portfolio_id t, t_id t).
Proof. reflexivity. Qed.

Lemma cash_of_portfolio_doc (p : Portfolio) :
  Dict.get "cash_balance" (PortfolioM.to_dict p) = Some (PFloat (p_cash_balance p)).
Proof. reflexivity. Qed.

Lemma portfolio_round_trips (p : Portfolio) :
  WF.portfolio p = true -> round_trips p.
Proof. intros Hwf w. apply Portfolio_roundtrip, Hwf. Qed.

Lemma holding_round_trips (h : Holding) :
  WF.holding h = true -> round_trips h.
Proof. intros Hwf w. apply Holding_roundtrip, Hwf. Qed.


(** ** get_or_create_portfolio *)

Lemma get_or_create_existing (w : World) (pid : string) (p : Portfolio) :
  portfolio_at w pid p ->
  PortfolioService.get_or_create_portfolio pid w = (Ok p, w).
Proof.
  intros (Hdoc & Hwf & Hid).
  unfold PortfolioService.get_or_create_portfolio,
    CosmosPortfolioRepository.get_by_id.
  erewrite bind_Ok;
    [| apply (get_by_id_hit PortfoliosC pid pid p w);
       [exact Hdoc | apply portfolio_round_trips, Hwf]].
  reflexivity.
Qed.

(* the record a first access creates *)
Lemma get_or_create_absent (w : World) (pid : string) :
  portfolios w !! (pid, pid) = None ->
  WF.clock_ok w ->
  let p0 := {| p_id := pid; p_cash_balance := 100000%Q;
               p_last_updated := clock w (ticks w);
               p_created_at := clock w (S (ticks w)) |} in
  PortfolioService.get_or_create_portfolio pid w
  = (Ok p0,
     ContainerProxy.set_docs PortfoliosC
       (<[(pid, pid) := PortfolioM.to_dict p0]> (portfolios w)) (tick (tick w))).
Proof.
  intros Hnone Hclock p0.
  assert (Hwf : WF.portfolio p0 = true).
  { unfold WF.portfolio. cbn [p_cash_balance p_last_updated p_created_at p0].
    rewrite !Hclock. reflexivity. }
  unfold PortfolioService.get_or_create_portfolio,
    CosmosPortfolioRepository.get_by_id.
  erewrite bind_Ok;
    [| apply (get_by_id_miss (T := Portfolio) PortfoliosC pid pid w); exact Hnone].
  unfold PortfolioService.create_if_absent, PortfolioM.init.
  unfold bind at 1. unfold bind at 1. cbn [default_utcnow utcnow].
  unfold bind at 1. cbn [default_utcnow utcnow tick clock ticks].
  unfold lift. cbn [default from_option id].
  change (PortfolioM.validate _) with (PortfolioM.validate p0).
  rewrite (portfolio_validate_wf p0 Hwf).
  unfold CosmosPortfolioRepository.create.
  rewrite (create_fresh PortfoliosC p0 (pid, pid)).
  - reflexivity.
  - reflexivity.
  - exact Hnone.
  - apply portfolio_round_trips, Hwf.
Qed.

Lemma only_portfolio_refl (pid : string) (w : World) : only_portfolio pid w w.
Proof. unfold only_portfolio. repeat split; reflexivity. Qed.

Lemma only_portfolio_trans (pid : string) (w1 w2 w3 : World) :
  only_portfolio pid w1 w2 -> only_portfolio pid w2 w3 -> only_portfolio pid w1 w3.
Proof.
  intros (H1 & H2 & H3 & H4 & H5 & H6) (G1 & G2 & G3 & G4 & G5 & G6).
  unfold only_portfolio. repeat split; try congruence.
  intros k Hk. rewrite G3, H3 by exact Hk. reflexivity.
Qed.

Lemma only_portfolio_tick (pid : string) (w : World) : only_portfolio pid w (tick w).
Proof. unfold only_portfolio. repeat split; reflexivity. Qed.

Lemma only_portfolio_write (pid : string) (d : dict) (w : World) :
  only_portfolio pid w
    (ContainerProxy.set_docs PortfoliosC (<[(pid, pid) := d]> (portfolios w)) w).
Proof.
  unfold only_portfolio. cbn. repeat split; try reflexivity.
  intros k Hk. apply lookup_insert_ne. congruence.
Qed.

Lemma clock_ok_only_portfolio (pid : string) (w w1 : World) :
  only_portfolio pid w w1 -> WF.clock_ok w -> WF.clock_ok w1.
Proof.
  intros (_ & _ & _ & Hc & _) Hok n. rewrite Hc. apply Hok.
Qed.

(** Reading the portfolio: the record read carries the current balance and
    is in the store afterwards. *)
Lemma get_or_create_spec (w : World) (pid : string) (b : Q) :
  WF.clock_ok w -> cash_is w pid b ->
  exists p w1,
    PortfolioService.get_or_create_portfolio pid w = (Ok p, w1) /\
    portfolio_at w1 pid p /\ p_cash_balance p = b /\ only_portfolio pid w w1.
Proof.
  intros Hclock [[Hnone ->] | (p & Hat & Hb)].
  - eexists _, _. split; [apply get_or_create_absent; assumption |].
    split; [| split; [reflexivity |]].
    + unfold portfolio_at. cbn. rewrite lookup_insert_eq. split; [reflexivity |].
      split; [| reflexivity].
      unfold WF.portfolio. cbn. rewrite !Hclock. reflexivity.
    + eapply only_portfolio_trans; [apply only_portfolio_tick |].
      eapply only_portfolio_trans; [apply only_portfolio_tick |].
      apply (only_portfolio_write pid _ (tick (tick w))).
  - exists p, w. split; [apply get_or_create_existing; exact Hat |].
    split; [exact Hat | split; [exact Hb | apply only_portfolio_refl]].
Qed.

Lemma get_cash_balance_spec (w : World) (pid : string) (b : Q) :
  WF.clock_ok w -> cash_is w pid b ->
  exists p w1,
    PortfolioService.get_cash_balance pid w = (Ok b, w1) /\
    portfolio_at w1 pid p /\ p_cash_balance p = b /\ only_portfolio pid w w1.
Proof.
  intros Hclock Hcash.
  destruct (get_or_create_spec w pid b Hclock Hcash) as (p & w1 & Hrun & Hat & Hb & Hfr).
  exists p, w1. split; [| auto].
  unfold PortfolioService.get_cash_balance. rewrite (bind_Ok _ _ _ _ _ Hrun).
  unfold ret. rewrite Hb. reflexivity.
Qed.


(** ** update_cash_balance *)




(** ** What the validators guarantee *)

Lemma upper_char_fixed (c : ascii) :
  Str.is_upper c = true -> Str.upper_char c = c.
Proof.
  unfold Str.upper_char, Str.is_upper, Str.is_lower. intros H.
  apply andb_prop in H. destruct H as [H1 H2].
  apply Nat.leb_le in H1, H2.
  destruct (97 <=? nat_of_ascii c)%nat eqn:E; [| reflexivity].
  apply Nat.leb_le in E. lia.
Qed.

Lemma take_upper_spec (n : nat) : forall (s l rest : string),
  PortfolioValidator.take_upper n s = (l, rest) ->
  s = l ++ rest /\ Str.upper l = l /\ (String.length l <= n)%nat.
Proof.
  induction n as [| n IH]; intros s l rest Ht.
  - cbn in Ht. inversion Ht; subst. cbn. auto.
  - destruct s as [| c r]; cbn in Ht.
    + inversion Ht; subst. cbn. split; [reflexivity | split; [reflexivity | lia]].
    + destruct (Str.is_upper c) eqn:Hc.
      * destruct (PortfolioValidator.take_upper n r) as [l' rest'] eqn:Hr.
        inversion Ht; subst. destruct (IH r l' rest Hr) as (-> & Hup & Hlen).
        split; [reflexivity |]. split.
        -- cbn. rewrite Hup, (upper_char_fixed c Hc). reflexivity.
        -- cbn. lia.
      * inversion Ht; subst. cbn. split; [reflexivity | split; [reflexivity | lia]].
Qed.

Lemma upper_append (a b : string) : Str.upper (a ++ b) = Str.upper a ++ Str.upper b.
Proof.
  induction a as [| c a IH]; [reflexivity |].
  rewrite append_String. cbn [Str.upper]. rewrite append_String, IH. reflexivity.
Qed.

Lemma length_append (a b : string) :
  String.length (a ++ b) = (String.length a + String.length b)%nat.
Proof.
  induction a as [| c a IH]; [reflexivity |].
  rewrite append_String. cbn [String.length]. rewrite IH. reflexivity.
Qed.

Lemma pattern_upper (s : string) :
  PortfolioValidator.TICKER_PATTERN_match s = true ->
  Str.upper s = s /\ (1 <= Str.len s)%Z.
Proof.
  unfold PortfolioValidator.TICKER_PATTERN_match.
  destruct (PortfolioValidator.take_upper 10 s) as [root rest] eqn:Hroot.
  destruct (take_upper_spec _ _ _ _ Hroot) as (-> & Hup & _).
  destruct root as [| c root]; [discriminate |]. cbn [Str.is_empty].
  intros H. split.
  - rewrite upper_append, Hup. f_equal.
    destruct rest as [| d suffix]; [reflexivity |].
    destruct (Ascii.eqb d ".") eqn:Hd; [| discriminate].
    apply Ascii.eqb_eq in Hd. subst d.
    destruct (PortfolioValidator.take_upper 3 suffix) as [sfx rest'] eqn:Hs.
    destruct (take_upper_spec _ _ _ _ Hs) as (-> & Hup' & _).
    apply andb_prop in H. destruct H as [_ H].
    destruct rest'; [| discriminate].
    cbn [Str.upper]. rewrite upper_append, Hup'. reflexivity.
  - unfold Str.len. rewrite length_append. cbn [String.length]. lia.
Qed.

Lemma validate_ticker_ok (ticker tk : string) :
  PortfolioValidator.validate_ticker ticker = Ok tk ->
  tk = Str.upper (Str.strip ticker) /\
  PortfolioValidator.TICKER_PATTERN_match tk = true /\
  Str.upper tk = tk /\ (1 <= Str.len tk)%Z.
Proof.
  unfold PortfolioValidator.validate_ticker.
  destruct (Str.is_empty ticker); [discriminate |].
  destruct (PortfolioValidator.TICKER_PATTERN_match (Str.upper (Str.strip ticker)))
    eqn:Hm; cbn [negb]; [| discriminate].
  intros Heq. inversion Heq; subst tk.
  destruct (pattern_upper _ Hm) as (Hup & Hlen). auto.
Qed.


Lemma validate_price_ok (p p' : Q) :
  PortfolioValidator.validate_price p false = Ok p' -> p' = p /\ (0 < p)%Q.
Proof.
  unfold PortfolioValidator.validate_price. cbn [negb andb].
  destruct (Num.ltb p 0) eqn:H1; [discriminate |].
  destruct (Num.eqb p 0) eqn:H2; [discriminate |].
  intros Heq. inversion Heq; subst. num_props.
  split; [reflexivity |].
  apply Qle_lt_or_eq in H1. destruct H1 as [H1 | H1]; [exact H1 |].
  exfalso. apply H2. symmetry. exact H1.
Qed.

Lemma fromisoformat_valid (s : string) (d : datetime) :
  DT.fromisoformat s = Ok d -> DT.valid d = true.
Proof.
  unfold DT.fromisoformat, DT.checked. intros H.
  destruct (DT.parse_date s) as [[[[y m] dd] rest] |]; [| discriminate].
  destruct rest as [| c r].
  - match type of H with (if ?b then _ else _) = _ => destruct b eqn:Hv end;
      [| discriminate].
    inversion H; subst. exact Hv.
  - destruct (DT.parse_time r) as [[[[[hh mi] ss] us] tz] |]; [| discriminate].
    match type of H with (if ?b then _ else _) = _ => destruct b eqn:Hv end;
      [| discriminate].
    inversion H; subst. exact Hv.
Qed.

Lemma validate_date_str_valid (s : string) (d : datetime) :
  PortfolioValidatorDate.validate_date_str s = Ok d -> DT.valid d = true.
Proof.
  unfold PortfolioValidatorDate.validate_date_str. intros H.
  destruct (Str.contains_char "T" s).
  - destruct (DT.fromisoformat _) as [d' | e] eqn:Hp.
    + inversion H; subst. eapply fromisoformat_valid, Hp.
    + destruct e; discriminate.
  - destruct (DT.fromisoformat _) as [d' | e] eqn:Hp.
    + inversion H; subst. eapply fromisoformat_valid, Hp.
    + destruct e; discriminate.
Qed.

(* a date argument that validates: the datetime is valid and at most one
   reading of the clock was taken *)
Lemma validate_date_ok (date : option string) (w w0 : World) (dt : datetime) :
  WF.clock_ok w ->
  validate_date date w = (Ok dt, w0) ->
  DT.valid dt = true /\ (w0 = w \/ w0 = tick w).
Proof.
  intros Hclock H. destruct date as [s |]; cbn in H.
  - unfold lift in H. inversion H; subst. split; [| left; reflexivity].
    eapply validate_date_str_valid. eassumption.
  - unfold utcnow in H. inversion H; subst. split; [apply Hclock | right; reflexivity].
Qed.

(** ** add_holding *)

Lemma bind_lift_Ok {A B} (r : result A) (a : A) (k : A -> M B) (w : World) :
  r = Ok a -> bind (lift r) k w = k a w.
Proof. intros ->. reflexivity. Qed.

Lemma bind_lift_Raise {A B} (r : result A) (e : exn) (k : A -> M B) (w : World) :
  r = Raise e -> bind (lift r) k w = (Raise e, w).
Proof. intros ->. reflexivity. Qed.

Lemma bind_uuid4 {B} (k : string -> M B) (w : World) :
  bind uuid4 k w = k (uuids w (drawn w)) (draw w).
Proof. reflexivity. Qed.

Lemma bind_utcnow {B} (k : datetime -> M B) (w : World) :
  bind utcnow k w = k (clock w (ticks w)) (tick w).
Proof. reflexivity. Qed.




(** ** remove_holding *)

Lemma bind_assoc {A B C} (m : M A) (f : A -> M B) (k : B -> M C) (w : World) :
  bind (bind m f) k w = bind m (fun x => bind (f x) k) w.
Proof. unfold bind. destruct (m w) as [[a | e] w1]; reflexivity. Qed.

Lemma get_holding_hit (w : World) (pid id : string) (h : Holding) :
  holding_at w pid id h ->
  CosmosHoldingsRepository.get_by_id id (Some pid) w = (Ok (Some h), w).
Proof.
  intros (Hdoc & Hwf & _). unfold CosmosHoldingsRepository.get_by_id.
  apply (get_by_id_hit HoldingsC id pid h w); [exact Hdoc |].
  apply holding_round_trips, Hwf.
Qed.




(** ** Frames *)

Section FrameRules.

Variable F : Frame.

Lemma step_refl (ok : string * string -> option dict -> Prop) (m : container) :
  step ok m m.
Proof. intros k. left. reflexivity. Qed.

Lemma step_trans (ok : string * string -> option dict -> Prop) (m1 m2 m3 : container) :
  step ok m1 m2 -> step ok m2 m3 -> step ok m1 m3.
Proof.
  intros H12 H23 k. destruct (H23 k) as [E | O]; [| right; exact O].
  destruct (H12 k) as [E' | O'].
  - left. congruence.
  - right. rewrite E. exact O'.
Qed.

Lemma step_insert (ok : string * string -> option dict -> Prop) (m : container)
    (k : string * string) (d : dict) :
  ok k (Some d) -> step ok m (<[k := d]> m).
Proof.
  intros Hok k'. destruct (decide (k = k')) as [<- | Hne].
  - right. rewrite lookup_insert_eq. exact Hok.
  - left. apply lookup_insert_ne, Hne.
Qed.

Lemma step_delete (ok : string * string -> option dict -> Prop) (m : container)
    (k : string * string) :
  ok k None -> step ok m (delete k m).
Proof.
  intros Hok k'. destruct (decide (k = k')) as [<- | Hne].
  - right. rewrite lookup_delete_eq. exact Hok.
  - left. apply lookup_delete_ne, Hne.
Qed.

Lemma steps_refl (w : World) : steps F w w.
Proof. unfold steps. repeat split; try apply step_refl. Qed.

Lemma steps_trans (w1 w2 w3 : World) : steps F w1 w2 -> steps F w2 w3 -> steps F w1 w3.
Proof.
  intros (A1 & A2 & A3 & A4 & A5) (B1 & B2 & B3 & B4 & B5).
  unfold steps. repeat split; try congruence; eapply step_trans; eassumption.
Qed.

Lemma steps_tick (w : World) : steps F w (tick w).
Proof. exact (steps_refl w). Qed.

Lemma steps_draw (w : World) : steps F w (draw w).
Proof. exact (steps_refl w). Qed.

Lemma steps_set_docs (c : container_id) (m : container) (w : World) :
  step (ok_of F c) (ContainerProxy.docs c w) m ->
  steps F w (ContainerProxy.set_docs c m w).
Proof.
  intros Hs. unfold steps. destruct c; cbn in *; repeat split;
    try apply step_refl; exact Hs.
Qed.

Lemma hoare_ret {A} (a : A) (Q : A -> Prop) : Q a -> hoare F (ret a) Q.
Proof. intros Hq w. cbn. split; [apply steps_refl | exact Hq]. Qed.

Lemma hoare_raise {A} (e : exn) (Q : A -> Prop) : hoare F (raise e) Q.
Proof. intros w. cbn. split; [apply steps_refl | exact I]. Qed.

Lemma hoare_lift {A} (r : result A) (Q : A -> Prop) :
  (forall a, r = Ok a -> Q a) -> hoare F (lift r) Q.
Proof.
  intros Hq w. cbn. split; [apply steps_refl |].
  destruct r; [apply Hq; reflexivity | exact I].
Qed.

Lemma hoare_bind {A B} (m : M A) (k : A -> M B) (Q1 : A -> Prop) (Q2 : B -> Prop) :
  hoare F m Q1 -> (forall a, Q1 a -> hoare F (k a) Q2) -> hoare F (bind m k) Q2.
Proof.
  intros Hm Hk w. specialize (Hm w). unfold bind.
  destruct (m w) as [[a | e] w1]; cbn in Hm |- *.
  - destruct Hm as (Hs & Hq). specialize (Hk a Hq w1).
    destruct Hk as (Hs' & Hq'). split; [eapply steps_trans; eassumption | exact Hq'].
  - destruct Hm as (Hs & _). split; [exact Hs | exact I].
Qed.

Lemma hoare_try_except {A} (m : M A) (h : exn -> M A) (Q : A -> Prop) :
  hoare F m Q -> (forall e, hoare F (h e) Q) -> hoare F (try_except m h) Q.
Proof.
  intros Hm Hh w. specialize (Hm w). unfold try_except.
  destruct (m w) as [[a | e] w1]; cbn in Hm |- *.
  - exact Hm.
  - destruct Hm as (Hs & _). destruct (Hh e w1) as (Hs' & Hq').
    split; [eapply steps_trans; eassumption | exact Hq'].
Qed.

Lemma hoare_weaken {A} (m : M A) (Q1 Q2 : A -> Prop) :
  hoare F m Q1 -> (forall a, Q1 a -> Q2 a) -> hoare F m Q2.
Proof.
  intros Hm Himp w. destruct (Hm w) as (Hs & Hq). split; [exact Hs |].
  destruct (fst (m w)); [apply Himp, Hq | exact I].
Qed.

Lemma hoare_utcnow (Q : datetime -> Prop) : (forall d, Q d) -> hoare F utcnow Q.
Proof. intros Hq w. cbn. split; [apply steps_tick | apply Hq]. Qed.

Lemma hoare_uuid4 (Q : string -> Prop) : (forall s, Q s) -> hoare F uuid4 Q.
Proof. intros Hq w. cbn. split; [apply steps_draw | apply Hq]. Qed.

Lemma hoare_default_utcnow (o : option datetime) :
  hoare F (default_utcnow o) (fun _ => True).
Proof.
  destruct o; [apply hoare_ret; exact I | apply hoare_utcnow; intros; exact I].
Qed.

Lemma hoare_validate_date (o : option string) :
  hoare F (validate_date o) (fun _ => True).
Proof.
  destruct o; [apply hoare_lift; intros; exact I | apply hoare_utcnow; intros; exact I].
Qed.

End FrameRules.

(** ** The repositories within a frame *)

Section RepositoryFrames.

Context {T : Type} `{ModelClass T}.
Variable F : Frame.
Variable c : container_id.
Variable Qfd : T -> Prop.
Hypothesis from_dict_hoare : forall d, hoare F (mc_from_dict d) Qfd.

Lemma hoare_wrapped {A} (msg : string) (m : M A) (Q : A -> Prop) :
  hoare F m Q -> hoare F (CosmosRepositoryBase.wrapped msg m) Q.
Proof.
  intros Hm. apply hoare_try_except; [exact Hm |].
  intros e. apply hoare_raise.
Qed.

Lemma hoare_get_by_id (id : string) (pk : option string) :
  hoare F (CosmosRepositoryBase.get_by_id c id pk)
        (fun o => forall x, o = Some x -> Qfd x).
Proof.
  intros w. unfold CosmosRepositoryBase.get_by_id.
  destruct (ContainerProxy.read_item c id (default id pk) w) as [d | e].
  - apply hoare_wrapped. eapply hoare_bind; [apply from_dict_hoare |].
    intros a Ha. apply hoare_ret. intros x Hx. inversion Hx; subst. exact Ha.
  - destruct e; cbn; (split; [apply steps_refl | try exact I]).
    intros x Hx. discriminate.
Qed.

Lemma hoare_from_cosmos_all (items : list dict) :
  hoare F (CosmosRepositoryBase.from_cosmos_all items) (Forall Qfd).
Proof.
  induction items as [| d items IH]; cbn [CosmosRepositoryBase.from_cosmos_all].
  - apply hoare_ret. constructor.
  - eapply hoare_bind; [apply from_dict_hoare |]. intros x Hx.
    eapply hoare_bind; [apply IH |]. intros xs Hxs.
    apply hoare_ret. constructor; assumption.
Qed.

Lemma hoare_get_all (pk : option string) :
  hoare F (CosmosRepositoryBase.get_all c pk) (Forall Qfd).
Proof.
  intros w. unfold CosmosRepositoryBase.get_all.
  apply hoare_wrapped, hoare_from_cosmos_all.
Qed.

Lemma hoare_query (filters : list (string * pyval)) (pk : option string) :
  hoare F (CosmosRepositoryBase.query c filters pk) (Forall Qfd).
Proof.
  intros w. unfold CosmosRepositoryBase.query.
  apply hoare_wrapped, hoare_from_cosmos_all.
Qed.

Lemma hoare_create (item : T) :
  (forall k, ContainerProxy.key_of c (mc_to_dict item) = Some k ->
             ok_of F c k (Some (mc_to_dict item))) ->
  hoare F (CosmosRepositoryBase.create c item) Qfd.
Proof.
  intros Hok w. unfold CosmosRepositoryBase.create, ContainerProxy.create_item,
    CosmosRepositoryBase._to_cosmos.
  destruct (ContainerProxy.key_of c (mc_to_dict item)) as [k |] eqn:Hk.
  - destruct (ContainerProxy.docs c w !! k) as [d |] eqn:Hd.
    + cbn. split; [apply steps_refl | exact I].
    + pose proof (hoare_wrapped "Failed to create item" _ _
                    (from_dict_hoare (mc_to_dict item))) as Hw.
      specialize (Hw (ContainerProxy.set_docs c
                        (<[k := mc_to_dict item]> (ContainerProxy.docs c w)) w)).
      destruct Hw as (Hs & Hq). split; [| exact Hq].
      eapply steps_trans; [| exact Hs].
      apply steps_set_docs, step_insert, Hok. reflexivity.
  - cbn. split; [apply steps_refl | exact I].
Qed.

Lemma hoare_replace (id : string) (item : T) :
  (forall k, ContainerProxy.key_of c (mc_to_dict item) = Some k ->
             ok_of F c k (Some (mc_to_dict item))) ->
  hoare F (fun w =>
             match ContainerProxy.replace_item c id
                     (CosmosRepositoryBase._to_cosmos item) w with
             | (inl updated_item, w') =>
                 CosmosRepositoryBase.wrapped "Failed to update item"
                   (CosmosRepositoryBase._from_cosmos updated_item) w'
             | (inr CosmosResourceNotFoundError, w') =>
                 (Raise (ItemNotFoundException "Item not found"), w')
             | (inr _, w') => (Raise (RepositoryException "Failed to update item"), w')
             end) Qfd.
Proof.
  intros Hok w. unfold ContainerProxy.replace_item, CosmosRepositoryBase._to_cosmos.
  destruct (ContainerProxy.key_of c (mc_to_dict item)) as [[pk id'] |] eqn:Hk.
  - destruct (String.eqb id' id) eqn:Hid; cbn [negb].
    + apply String.eqb_eq in Hid. subst id'.
      destruct (ContainerProxy.docs c w !! (pk, id)) as [d |] eqn:Hd.
      * pose proof (hoare_wrapped "Failed to update item" _ _
                      (from_dict_hoare (mc_to_dict item))) as Hw.
        specialize (Hw (ContainerProxy.set_docs c
                          (<[(pk, id) := mc_to_dict item]> (ContainerProxy.docs c w)) w)).
        destruct Hw as (Hs & Hq). split; [| exact Hq].
        eapply steps_trans; [| exact Hs].
        apply steps_set_docs, step_insert, Hok. reflexivity.
      * cbn. split; [apply steps_refl | exact I].
    + cbn. split; [apply steps_refl | exact I].
  - cbn. split; [apply steps_refl | exact I].
Qed.

Lemma hoare_update (id : string) (item : T) (pk : option string) :
  (forall item' k,
     match mc_stamp with
     | Some set_stamp => exists now, item' = set_stamp item now
     | None => item' = item
     end ->
     ContainerProxy.key_of c (mc_to_dict item') = Some k ->
     ok_of F c k (Some (mc_to_dict item'))) ->
  hoare F (CosmosRepositoryBase.update c id item pk) Qfd.
Proof.
  intros Hok. unfold CosmosRepositoryBase.update.
  eapply hoare_bind with
    (Q1 := fun item' => match mc_stamp with
                        | Some set_stamp => exists now, item' = set_stamp item now
                        | None => item' = item
                        end).
  - unfold CosmosRepositoryBase.stamped. destruct mc_stamp as [set_stamp |].
    + eapply hoare_bind; [apply hoare_utcnow with (Q := fun _ => True); auto |].
      intros now _. apply hoare_ret. exists now. reflexivity.
    + apply hoare_ret. reflexivity.
  - intros item' Hitem'. apply hoare_replace. intros k. apply Hok. exact Hitem'.
Qed.

Lemma hoare_delete (id : string) (pk : option string) :
  ok_of F c (default id pk, id) None ->
  hoare F (CosmosRepositoryBase.delete c id pk) (fun _ => True).
Proof.
  intros Hok w. unfold CosmosRepositoryBase.delete, ContainerProxy.delete_item.
  destruct (ContainerProxy.docs c w !! (default id pk, id)) as [d |] eqn:Hd.
  - cbn. split; [| exact I]. apply steps_set_docs, step_delete, Hok.
  - cbn. split; [apply steps_refl | exact I].
Qed.

End RepositoryFrames.

(** ** The entities within a frame *)

Section EntityFrames.

Variable F : Frame.

Lemma hoare_portfolio_init (id : option string) (cash : option Q)
    (lu ca : option datetime) :
  hoare F (PortfolioM.init id cash lu ca) (fun p => (0 <= p_cash_balance p)%Q).
Proof.
  unfold PortfolioM.init.
  eapply hoare_bind; [apply hoare_default_utcnow |]. intros d1 _.
  eapply hoare_bind; [apply hoare_default_utcnow |]. intros d2 _.
  apply hoare_lift. intros p. unfold PortfolioM.validate, require.
  destruct (Num.geb _ 0) eqn:Hc; cbn; [| discriminate].
  intros Hp. inversion Hp; subst. cbn. apply geb_true in Hc. exact Hc.
Qed.

Lemma hoare_portfolio_from_dict (d : dict) :
  hoare F (PortfolioM.from_dict d) (fun p => (0 <= p_cash_balance p)%Q).
Proof.
  unfold PortfolioM.from_dict.
  repeat (eapply hoare_bind; [apply hoare_lift with (Q := fun _ => True); auto |];
          intros ? _).
  apply hoare_portfolio_init.
Qed.

Lemma hoare_holding_from_dict (d : dict) :
  hoare F (HoldingM.from_dict d) (fun _ => True).
Proof.
  unfold HoldingM.from_dict, HoldingM.init.
  repeat (eapply hoare_bind; [apply hoare_lift with (Q := fun _ => True); auto |];
          intros ? _).
  eapply hoare_bind; [apply hoare_default_utcnow |]. intros d1 _.
  eapply hoare_bind; [apply hoare_default_utcnow |]. intros d2 _.
  apply hoare_lift. auto.
Qed.

Lemma hoare_holding_init (id pid tk : string) (q p : Q) (dt : datetime)
    (nt : option string) (ca ua : option datetime) :
  hoare F (HoldingM.init id pid tk q p dt nt ca ua) (fun _ => True).
Proof.
  unfold HoldingM.init.
  eapply hoare_bind; [apply hoare_default_utcnow |]. intros d1 _.
  eapply hoare_bind; [apply hoare_default_utcnow |]. intros d2 _.
  apply hoare_lift. auto.
Qed.

Lemma hoare_transaction_init (id pid : string) (ty : TransactionType)
    (tk : option string) (q : option Q) (p total : Q) (dt : datetime)
    (nt : option string) (ca : option datetime) :
  hoare F (TransactionM.init id pid ty tk q p total dt nt ca) (fun _ => True).
Proof.
  unfold TransactionM.init.
  eapply hoare_bind; [apply hoare_default_utcnow |]. intros d1 _.
  apply hoare_lift. auto.
Qed.

Lemma hoare_transaction_from_dict (d : dict) :
  hoare F (TransactionM.from_dict d) (fun _ => True).
Proof.
  unfold TransactionM.from_dict.
  repeat (eapply hoare_bind; [apply hoare_lift with (Q := fun _ => True); auto |];
          intros ? _).
  apply hoare_transaction_init.
Qed.

End EntityFrames.

(** ** The ledger operations and the cash invariant *)

Lemma cash_nonneg_to_dict (p : Portfolio) :
  (0 <= p_cash_balance p)%Q -> cash_nonneg (PortfolioM.to_dict p).
Proof. intros Hp. exists (p_cash_balance p). split; [reflexivity | exact Hp]. Qed.

Lemma cash_get_or_create (pid : string) :
  hoare cash_frame (PortfolioService.get_or_create_portfolio pid)
        (fun p => (0 <= p_cash_balance p)%Q).
Proof.
  unfold PortfolioService.get_or_create_portfolio.
  eapply hoare_bind.
  - apply hoare_get_by_id with (Qfd := fun p => (0 <= p_cash_balance p)%Q).
    intros d. apply hoare_portfolio_from_dict.
  - intros o Ho. destruct o as [p |]; cbn [PortfolioService.create_if_absent].
    + apply hoare_ret. apply Ho. reflexivity.
    + eapply hoare_bind; [apply hoare_portfolio_init |]. intros p Hp.
      unfold CosmosPortfolioRepository.create.
      apply hoare_create with (Qfd := fun p => (0 <= p_cash_balance p)%Q).
      * intros d. apply hoare_portfolio_from_dict.
      * intros k _. apply cash_nonneg_to_dict, Hp.
Qed.

Lemma cash_get_cash_balance (pid : string) :
  hoare cash_frame (PortfolioService.get_cash_balance pid) (fun _ => True).
Proof.
  unfold PortfolioService.get_cash_balance.
  eapply hoare_bind; [apply cash_get_or_create |]. intros p _.
  apply hoare_ret. exact I.
Qed.

Lemma cash_update_cash_balance (amount : Q) (operation pid : string) :
  hoare cash_frame (PortfolioService.update_cash_balance amount operation pid)
        (fun _ => True).
Proof.
  unfold PortfolioService.update_cash_balance.
  destruct (Num.ltb amount 0); [apply hoare_raise |].
  destruct (negb _); [apply hoare_raise |].
  eapply hoare_bind; [apply cash_get_or_create |]. intros p Hp.
  eapply hoare_bind with (Q1 := fun p' => (0 <= p_cash_balance p')%Q).
  - destruct (String.eqb operation "add").
    + unfold PortfolioM.add_cash. destruct (Num.leb amount 0) eqn:Ha; [apply hoare_raise |].
      eapply hoare_bind; [apply hoare_utcnow with (Q := fun _ => True); auto |].
      intros now _. apply hoare_ret. cbn [p_cash_balance PortfolioM.with_cash].
      apply leb_false in Ha. cbn beta in Hp. lra.
    + destruct (Num.gtb amount (p_cash_balance p)) eqn:Hg; [apply hoare_raise |].
      unfold PortfolioM.withdraw_cash.
      destruct (Num.leb amount 0) eqn:Ha; [apply hoare_raise |].
      rewrite Hg.
      eapply hoare_bind; [apply hoare_utcnow with (Q := fun _ => True); auto |].
      intros now _. apply hoare_ret. cbn [p_cash_balance PortfolioM.with_cash].
      apply gtb_false in Hg. cbn beta in Hp. lra.
  - intros p' Hp'.
    eapply hoare_bind; [| intros; apply hoare_ret; exact I].
    unfold CosmosPortfolioRepository.update.
    apply hoare_update with (Qfd := fun p => (0 <= p_cash_balance p)%Q).
    + intros d. apply hoare_portfolio_from_dict.
    + intros item' k [now ->] _. apply cash_nonneg_to_dict. exact Hp'.
Qed.

(* in the cash frame the holdings and the transactions are free *)
Ltac free_write := intros; exact I.

Lemma cash_holdings_create (h : Holding) :
  hoare cash_frame (CosmosHoldingsRepository.create h) (fun _ => True).
Proof.
  unfold CosmosHoldingsRepository.create.
  apply hoare_create with (Qfd := fun _ => True);
    [intros d; apply hoare_holding_from_dict | free_write].
Qed.

Lemma cash_holdings_update (id : string) (h : Holding) (pk : option string) :
  hoare cash_frame (CosmosHoldingsRepository.update id h pk) (fun _ => True).
Proof.
  unfold CosmosHoldingsRepository.update.
  apply hoare_update with (Qfd := fun _ => True);
    [intros d; apply hoare_holding_from_dict | free_write].
Qed.

Lemma cash_holdings_get_by_id (id : string) (pk : option string) :
  hoare cash_frame (CosmosHoldingsRepository.get_by_id id pk) (fun _ => True).
Proof.
  unfold CosmosHoldingsRepository.get_by_id.
  eapply hoare_weaken;
    [apply hoare_get_by_id with (Qfd := fun _ => True);
     intros d; apply hoare_holding_from_dict | auto].
Qed.

Lemma cash_holdings_delete (id : string) (pk : option string) :
  hoare cash_frame (CosmosHoldingsRepository.delete id pk) (fun _ => True).
Proof.
  unfold CosmosHoldingsRepository.delete. apply hoare_delete. exact I.
Qed.

Lemma cash_transactions_create (t : Transaction) :
  hoare cash_frame (CosmosTransactionsRepository.create t) (fun _ => True).
Proof.
  unfold CosmosTransactionsRepository.create.
  apply hoare_create with (Qfd := fun _ => True);
    [intros d; apply hoare_transaction_from_dict | free_write].
Qed.

Lemma cash_add_holding (ticker : string) (quantity price : Q)
    (date notes : option string) (pid : string) :
  hoare cash_frame (PortfolioService.add_holding ticker quantity price date notes pid)
        (fun _ => True).
Proof.
  unfold PortfolioService.add_holding.
  do 3 (eapply hoare_bind; [apply hoare_lift with (Q := fun _ => True); auto |];
        intros ? _).
  eapply hoare_bind; [apply hoare_validate_date |]. intros dt _.
  eapply hoare_bind; [apply hoare_lift with (Q := fun _ => True); auto |]. intros nt _.
  eapply hoare_bind; [apply cash_get_cash_balance |]. intros bal _.
  destruct (Num.gtb _ bal); [apply hoare_raise |].
  eapply hoare_bind; [apply hoare_uuid4 with (Q := fun _ => True); auto |]. intros hid _.
  eapply hoare_bind; [apply hoare_holding_init |]. intros h _.
  eapply hoare_bind; [apply cash_holdings_create |]. intros h' _.
  eapply hoare_bind; [apply hoare_uuid4 with (Q := fun _ => True); auto |]. intros tid _.
  eapply hoare_bind; [apply hoare_transaction_init |]. intros t _.
  eapply hoare_bind; [apply cash_transactions_create |]. intros t' _.
  eapply hoare_bind; [apply cash_update_cash_balance |]. intros nb _.
  apply hoare_ret. exact I.
Qed.

Lemma cash_remove_holding (position_id : string) (quantity : option Q) (pid : string) :
  hoare cash_frame (PortfolioService.remove_holding position_id quantity pid)
        (fun _ => True).
Proof.
  unfold PortfolioService.remove_holding.
  eapply hoare_bind; [apply hoare_lift with (Q := fun _ => True); auto |]. intros id _.
  eapply hoare_bind; [apply cash_holdings_get_by_id |]. intros o _.
  destruct o as [h |]; [| apply hoare_raise].
  eapply hoare_bind with (Q1 := fun _ => True).
  - destruct quantity as [q |]; [| apply hoare_ret; exact I].
    eapply hoare_bind; [apply hoare_lift with (Q := fun _ => True); auto |]. intros q' _.
    destruct (Num.gtb q' (h_quantity h)); [apply hoare_raise | apply hoare_ret; exact I].
  - intros [sold full] _.
    eapply hoare_bind with (Q1 := fun _ => True).
    + destruct full.
      * eapply hoare_bind; [apply cash_holdings_delete |]. intros; apply hoare_ret; exact I.
      * eapply hoare_bind; [apply hoare_utcnow with (Q := fun _ => True); auto |].
        intros now _.
        eapply hoare_bind; [apply cash_holdings_update |].
        intros; apply hoare_ret; exact I.
    + intros h2 _.
      eapply hoare_bind; [apply hoare_uuid4 with (Q := fun _ => True); auto |]. intros tid _.
      eapply hoare_bind; [apply hoare_utcnow with (Q := fun _ => True); auto |]. intros now _.
      eapply hoare_bind; [apply hoare_transaction_init |]. intros t _.
      eapply hoare_bind; [apply cash_transactions_create |]. intros t' _.
      eapply hoare_bind; [apply cash_update_cash_balance |]. intros nb _.
      apply hoare_ret. exact I.
Qed.

Lemma cash_update_position (position_id : string) (notes : option string)
    (price : option Q) (pid : string) :
  hoare cash_frame (PortfolioService.update_position position_id notes price pid)
        (fun _ => True).
Proof.
  unfold PortfolioService.update_position.
  eapply hoare_bind; [apply hoare_lift with (Q := fun _ => True); auto |]. intros id _.
  eapply hoare_bind; [apply cash_holdings_get_by_id |]. intros o _.
  destruct o as [h |]; [| apply hoare_raise].
  eapply hoare_bind with (Q1 := fun _ => True).
  - destruct notes as [n |]; [| apply hoare_ret; exact I].
    eapply hoare_bind; [apply hoare_lift with (Q := fun _ => True); auto |].
    intros; apply hoare_ret; exact I.
  - intros [h1 u1] _.
    eapply hoare_bind with (Q1 := fun _ => True).
    + destruct price as [p |]; [| apply hoare_ret; exact I].
      eapply hoare_bind; [apply hoare_lift with (Q := fun _ => True); auto |].
      intros; apply hoare_ret; exact I.
    + intros [h2 u2] _. destruct (negb u2); [apply hoare_raise |].
      eapply hoare_bind; [apply hoare_utcnow with (Q := fun _ => True); auto |]. intros now _.
      eapply hoare_bind; [apply cash_holdings_update |].
      intros; apply hoare_ret; exact I.
Qed.

Lemma cash_get_holdings (filter_ticker : option string) (totals : bool) (pid : string) :
  hoare cash_frame (PortfolioService.get_holdings filter_ticker totals pid)
        (fun _ => True).
Proof.
  unfold PortfolioService.get_holdings.
  eapply hoare_bind with (Q1 := fun _ => True).
  - destruct (PortfolioService.given filter_ticker).
    + eapply hoare_bind; [apply hoare_lift with (Q := fun _ => True); auto |]. intros tk _.
      unfold CosmosHoldingsRepository.get_by_ticker.
      eapply hoare_weaken;
        [apply hoare_query with (Qfd := fun _ => True);
         intros d; apply hoare_holding_from_dict | auto].
    + unfold CosmosHoldingsRepository.get_portfolio_holdings.
      eapply hoare_weaken;
        [apply hoare_get_all with (Qfd := fun _ => True);
         intros d; apply hoare_holding_from_dict | auto].
  - intros hs _.
    eapply hoare_bind with (Q1 := fun _ => True).
    + destruct totals; [| apply hoare_ret; exact I].
      eapply hoare_bind; [apply cash_get_cash_balance |].
      intros; apply hoare_ret; exact I.
    + intros; apply hoare_ret; exact I.
Qed.

Lemma cash_get_transaction_history (ticker start_date end_date ttype : option string)
    (limit : Z) (pid : string) :
  hoare cash_frame
        (PortfolioService.get_transaction_history ticker start_date end_date ttype
                                                  limit pid)
        (fun _ => True).
Proof.
  unfold PortfolioService.get_transaction_history.
  eapply hoare_bind with (Q1 := fun _ => True).
  { destruct (PortfolioService.given ticker); [| apply hoare_ret; exact I].
    eapply hoare_bind; [apply hoare_lift with (Q := fun _ => True); auto |].
    intros; apply hoare_ret; exact I. }
  intros tk _.
  eapply hoare_bind with (Q1 := fun _ => True).
  { destruct (PortfolioService.given ttype); [| apply hoare_ret; exact I].
    eapply hoare_bind; [apply hoare_lift with (Q := fun _ => True); auto |].
    intros; apply hoare_ret; exact I. }
  intros ty _.
  eapply hoare_bind with (Q1 := fun _ => True).
  { destruct (PortfolioService.given start_date); [| apply hoare_ret; exact I].
    eapply hoare_bind; [apply hoare_validate_date |].
    intros; apply hoare_ret; exact I. }
  intros sd _.
  eapply hoare_bind with (Q1 := fun _ => True).
  { destruct (PortfolioService.given end_date); [| apply hoare_ret; exact I].
    eapply hoare_bind; [apply hoare_validate_date |].
    intros; apply hoare_ret; exact I. }
  intros ed _.
  eapply hoare_bind with (Q1 := fun _ => True).
  { destruct (PortfolioService.given tk).
    - unfold CosmosTransactionsRepository.get_by_ticker.
      eapply hoare_weaken;
        [apply hoare_query with (Qfd := fun _ => True);
         intros d; apply hoare_transaction_from_dict | auto].
    - unfold CosmosTransactionsRepository.get_portfolio_transactions.
      eapply hoare_weaken;
        [apply hoare_get_all with (Qfd := fun _ => True);
         intros d; apply hoare_transaction_from_dict | auto]. }
  intros ts _.
  eapply hoare_bind; [apply hoare_lift with (Q := fun _ => True); auto |].
  intros; apply hoare_ret; exact I.
Qed.

Lemma cash_run_op (op : ledger_op) (w : World) : steps cash_frame w (run_op op w).
Proof.
  destruct op; cbn [run_op].
  - apply cash_get_or_create.
  - apply cash_get_cash_balance.
  - apply cash_update_cash_balance.
  - apply cash_add_holding.
  - apply cash_remove_holding.
  - apply cash_update_position.
  - apply cash_get_holdings.
  - apply cash_get_transaction_history.
Qed.

Lemma cash_ok_steps (w w' : World) : steps cash_frame w w' -> cash_ok w -> cash_ok w'.
Proof.
  intros (_ & _ & Hp & _) Hok k d Hd.
  destruct (Hp k) as [E | O].
  - apply (Hok k). rewrite <- E. exact Hd.
  - rewrite Hd in O. exact O.
Qed.

(** * The claims of the specification *)

(** ** Facts about the scenario *)

Lemma scenario_clock_ok : WF.clock_ok Scenario.empty.
Proof. intros n. reflexivity. Qed.

Lemma scenario_bought_clock_ok : WF.clock_ok Scenario.bought.
Proof. intros n. reflexivity. Qed.

Lemma scenario_empty_cash : cash_is Scenario.empty "default" 100000%Q.
Proof. left. split; reflexivity. Qed.


Lemma scenario_bought_holding :
  holding_at Scenario.bought "default" "id-000" Scenario.apple.
Proof.
  split; [vm_compute; reflexivity |]. split; [reflexivity |]. split; reflexivity.
Qed.

(** ** C4: the cash balance is never negative *)

(** C4. The invariant cash_balance >= 0 of the stored portfolios is kept by
    every ledger operation, whatever its arguments and whether it returns or
    raises: from a store in which no portfolio has a negative cash balance
    (the empty store is one), no sequence of ledger operations reaches a
    store with a negative cash balance. *)
Theorem cash_balance_never_negative (ops : list ledger_op) (w : World) :
  cash_ok w -> cash_ok (run_ops ops w).
Proof.
  revert w. induction ops as [| op ops IH]; intros w Hok; [exact Hok |].
  cbn [run_ops fold_left]. apply IH.
  eapply cash_ok_steps; [apply cash_run_op | exact Hok].
Qed.

Lemma cash_balance_never_negative_witness :
  cash_ok (run_ops [OpAddHolding "aapl" 10 150 None None "default";
                    OpUpdateCashBalance 200000 "subtract" "default";
                    OpRemoveHolding "id-000" None "default"] Scenario.empty).
Proof.
  apply cash_balance_never_negative.
  intros k d Hd. cbn [portfolios Scenario.empty] in Hd.
  rewrite lookup_empty in Hd. discriminate Hd.
Defined.

(** ** C9: to_dict then from_dict *)

(** C9. For every Holding, Transaction and Portfolio with valid field values,
    from_dict (to_dict x) is x: the dict holds the dates as ISO-8601 strings
    and the transaction type as its lower-case name, and parsing them gives
    the datetime and the enum member back. *)
Theorem to_dict_from_dict_lossless :
  (forall h w, WF.holding h = true ->
     HoldingM.from_dict (HoldingM.to_dict h) w = (Ok h, w)) /\
  (forall t w, WF.transaction t = true ->
     TransactionM.from_dict (TransactionM.to_dict t) w = (Ok t, w)) /\
  (forall p w, WF.portfolio p = true ->
     PortfolioM.from_dict (PortfolioM.to_dict p) w = (Ok p, w)) /\
  (forall t,
     Dict.get "date" (TransactionM.to_dict t) = Some (PStr (DT.isoformat (t_date t))) /\
     Dict.get "type" (TransactionM.to_dict t) = Some (PStr (TType.value (t_type t))) /\
     Str.all_chars (fun c => negb (Str.is_upper c)) (TType.value (t_type t)) = true).
Proof.
  split; [intros h w Hwf; apply Holding_roundtrip, Hwf |].
  split; [intros t w Hwf; apply Transaction_roundtrip, Hwf |].
  split; [intros p w Hwf; apply Portfolio_roundtrip, Hwf |].
  intros t. split; [reflexivity |]. split; [reflexivity |].
  destruct (t_type t); reflexivity.
Qed.

Lemma to_dict_from_dict_lossless_witness :
  HoldingM.from_dict (HoldingM.to_dict Scenario.apple) Scenario.empty
  = (Ok Scenario.apple, Scenario.empty) /\
  TransactionM.from_dict (TransactionM.to_dict Scenario.bought_apple) Scenario.empty
  = (Ok Scenario.bought_apple, Scenario.empty) /\
  PortfolioM.from_dict (PortfolioM.to_dict Scenario.fund) Scenario.empty
  = (Ok Scenario.fund, Scenario.empty).
Proof.
  destruct to_dict_from_dict_lossless as (Hh & Ht & Hp & _).
  split; [apply Hh; reflexivity |].
  split; [apply Ht; reflexivity | apply Hp; reflexivity].
Defined.

(** ** C6: update_cash_balance *)



(** ** Filtering and sorting the transactions *)

Lemma compare_uniform (a b : datetime) :
  DT.aware a = DT.aware b ->
  DT.compare a b = Ok (DT.instant a ?= DT.instant b)%Z.
Proof.
  intros H. unfold DT.compare. rewrite H.
  destruct (DT.aware b); reflexivity.
Qed.

Lemma compare_mixed (a b : datetime) :
  DT.aware a <> DT.aware b ->
  DT.compare a b
  = Raise (TypeError "can't compare offset-naive and offset-aware datetimes").
Proof.
  intros H. unfold DT.compare.
  destruct (DT.aware a), (DT.aware b); try reflexivity; contradiction H; reflexivity.
Qed.

Lemma insert_by_date_ok (a : bool) (t : Transaction) (sorted : list Transaction) :
  DT.aware (t_date t) = a -> uniform a sorted -> newest_first sorted ->
  exists out,
    PortfolioService.insert_by_date t sorted = Ok out /\
    Permutation (t :: sorted) out /\ uniform a out /\ newest_first out /\
    (forall v, not_newer v t -> HdRel not_newer v sorted -> HdRel not_newer v out).
Proof.
  intros Ht. induction sorted as [| u r IH]; intros Hu Hs.
  - exists [t]. cbn. split; [reflexivity |]. split; [apply Permutation_refl |].
    split; [constructor; [first [assumption | reflexivity] | constructor] |].
    split; [constructor; constructor |]. intros v Hv _. constructor. exact Hv.
  - pose proof (List.Forall_inv Hu) as Hua. pose proof (List.Forall_inv_tail Hu) as Hur.
    inversion Hs as [| ? ? Hsr Hhd]; subst.
    cbn [PortfolioService.insert_by_date].
    rewrite compare_uniform by congruence.
    destruct (DT.instant (t_date u) ?= DT.instant (t_date t))%Z eqn:Hc.
    + apply Z.compare_eq in Hc.
      exists (t :: u :: r). split; [reflexivity |]. split; [apply Permutation_refl |].
      split; [constructor; first [assumption | reflexivity | congruence] |].
      split; [| intros v Hv _; constructor; exact Hv].
      constructor; [exact Hs |]. constructor. unfold not_newer. lia.
    + rewrite Z.compare_lt_iff in Hc.
      exists (t :: u :: r). split; [reflexivity |]. split; [apply Permutation_refl |].
      split; [constructor; first [assumption | reflexivity | congruence] |].
      split; [| intros v Hv _; constructor; exact Hv].
      constructor; [exact Hs |]. constructor. unfold not_newer. lia.
    + rewrite Z.compare_gt_iff in Hc.
      destruct (IH Hur Hsr) as (out & Hout & Hperm & Huo & Hso & Hhdo).
      exists (u :: out). unfold rbind. rewrite Hout.
      split; [reflexivity |].
      split; [rewrite perm_swap; apply perm_skip, Hperm |].
      split; [constructor; first [assumption | reflexivity | congruence] |].
      split.
      * constructor; [exact Hso |]. apply Hhdo; [unfold not_newer; lia | exact Hhd].
      * intros v Hv Hvs. inversion Hvs; subst. constructor. assumption.
Qed.

Lemma sort_by_date_desc_ok (a : bool) (ts : list Transaction) :
  uniform a ts ->
  exists out,
    PortfolioService.sort_by_date_desc ts = Ok out /\
    Permutation ts out /\ uniform a out /\ newest_first out.
Proof.
  induction ts as [| t r IH]; intros Hu.
  - exists []. cbn. split; [reflexivity |]. split; [constructor |].
    split; constructor.
  - pose proof (List.Forall_inv Hu) as Hta. pose proof (List.Forall_inv_tail Hu) as Hur.
    destruct (IH Hur) as (out & Hout & Hperm & Huo & Hso).
    destruct (insert_by_date_ok _ t out Hta Huo Hso)
      as (out' & Hout' & Hperm' & Huo' & Hso' & _).
    exists out'. cbn [PortfolioService.sort_by_date_desc]. unfold rbind.
    rewrite Hout. split; [exact Hout' |].
    split; [etransitivity; [apply perm_skip, Hperm | exact Hperm'] |].
    split; assumption.
Qed.

(* a list that holds both kinds of dates does not sort *)
Lemma sort_by_date_desc_mixed (t u : Transaction) :
  DT.aware (t_date t) <> DT.aware (t_date u) ->
  PortfolioService.sort_by_date_desc [t; u]
  = Raise (TypeError "can't compare offset-naive and offset-aware datetimes").
Proof.
  intros H. cbn. rewrite compare_mixed by congruence. reflexivity.
Qed.




Lemma uniform_filter (a : bool) (f : Transaction -> bool) (ts : list Transaction) :
  uniform a ts -> uniform a (List.filter f ts).
Proof.
  unfold uniform. rewrite !List.Forall_forall. intros H t Ht.
  apply List.filter_In in Ht. apply H, Ht.
Qed.


Lemma clamp_limit_range (limit : Z) :
  (1 <= PortfolioService.clamp_limit limit <= 200)%Z.
Proof. unfold PortfolioService.clamp_limit. lia. Qed.

Lemma clamp_limit_min (limit : Z) :
  (1 <= limit)%Z -> PortfolioService.clamp_limit limit = Z.min limit 200.
Proof. unfold PortfolioService.clamp_limit. lia. Qed.


(** ** get_transaction_history on a well-formed store *)

Lemma query_items_stored (c : container_id) (conds : list (string * pyval))
    (pk : option string) (w : World) (d : dict) :
  In d (ContainerProxy.query_items c conds pk w) ->
  exists k, ContainerProxy.docs c w !! k = Some d.
Proof.
  unfold ContainerProxy.query_items. intros Hin.
  apply List.in_map_iff in Hin. destruct Hin as ([k d'] & Heq & Hin).
  cbn in Heq. subst d'. apply List.filter_In in Hin. destruct Hin as [Hin _].
  exists k. apply elem_of_map_to_list. apply list_elem_of_In. exact Hin.
Qed.





(** ** C7: get_transaction_history *)

Lemma scenario_bought_transactions :
  transactions Scenario.bought
  = {[ ("default", "id-001") := TransactionM.to_dict Scenario.bought_apple ]}.
Proof. vm_compute. reflexivity. Qed.

Lemma scenario_bought_stored : transactions_stored false Scenario.bought.
Proof.
  intros k d Hd. rewrite scenario_bought_transactions in Hd.
  apply lookup_singleton_Some in Hd. destruct Hd as [_ <-].
  exists Scenario.bought_apple. repeat split; reflexivity.
Qed.




(** ** C2: a purchase the balance does not cover *)

(** *** The float product *)













(** ** C3: selling a position, in full or in part *)

Lemma validate_quantity_whole (q : Q) :
  (0 < q)%Q -> whole q -> PortfolioValidator.validate_quantity q false = Ok q.
Proof.
  intros Hpos Hwhole. unfold PortfolioValidator.validate_quantity.
  assert (Num.ltb q 0 = false) as -> by (apply ltb_false, Qlt_le_weak, Hpos).
  assert (Num.eqb q 0 = false) as ->.
  { apply eqb_false. intros Heq. rewrite Heq in Hpos. revert Hpos. apply Qlt_irrefl. }
  assert (Num.eqb q (inject_Z (PortfolioValidator.int q)) = true) as ->
    by (apply eqb_true, Hwhole).
  reflexivity.
Qed.




(** ** C8: updating the notes or the cost basis of a position *)

Lemma with_notes_same (h : Holding) : PortfolioService.with_notes h (h_notes h) = h.
Proof. destruct h. reflexivity. Qed.

(* the write at the end of update_position *)
Lemma update_position_write (w : World) (pid id : string) (h g : Holding) :
  WF.clock_ok w ->
  holding_at w pid id h ->
  WF.holding g = true -> h_id g = id -> h_portfolio_id g = pid ->
  let h' := PortfolioService.with_updated_at g (clock (tick w) (ticks (tick w))) in
  (let! now := utcnow in
   let holding := PortfolioService.with_updated_at g now in
   let! updated_holding :=
     CosmosHoldingsRepository.update id holding (Some pid) in
   ret (HoldingM.to_dict updated_holding)) w
  = (Ok (HoldingM.to_dict h'),
     ContainerProxy.set_docs HoldingsC
       (<[(pid, id) := HoldingM.to_dict h']> (holdings w)) (tick (tick w))) /\
  WF.holding h' = true.
Proof.
  intros Hclock (Hdoc & _) Hwf Hgid Hgpid h'.
  assert (Hwf' : WF.holding h' = true).
  { destruct (holding_wf_fields g Hwf) as (Hlen & Hup & Hq & Hp & Hd1 & Hd2 & _).
    unfold WF.holding, WF.upper_case. cbn.
    rewrite Hup, String.eqb_refl, Hlen, Hq, Hp, Hd1, Hd2, Hclock. reflexivity. }
  split; [| exact Hwf'].
  rewrite bind_utcnow. cbn zeta.
  unfold CosmosHoldingsRepository.update.
  erewrite bind_Ok;
    [| eapply (update_hit HoldingsC PortfolioService.with_updated_at
                 (PortfolioService.with_updated_at g (clock w (ticks w))) id pid
                 (Some pid) (tick w));
       [reflexivity | cbn; rewrite Hgid, Hgpid; reflexivity
       | cbn; rewrite Hdoc; eauto
       | apply holding_round_trips; exact Hwf']].
  reflexivity.
Qed.

Lemma update_position_ok (w : World) (position_id id pid : string) (h : Holding)
    (notes : option string) (purchase_price : option Q)
    (nt : option string) (pr : Q) :
  WF.clock_ok w ->
  PortfolioValidator.validate_position_id position_id = Ok id ->
  holding_at w pid id h ->
  match notes with
  | Some n => PortfolioValidator.validate_notes (Some n) 1000
  | None => Ok (h_notes h)
  end = Ok nt ->
  match purchase_price with
  | Some p => PortfolioValidator.validate_price p false
  | None => Ok (h_purchase_price h)
  end = Ok pr ->
  is_Some notes \/ is_Some purchase_price ->
  let h' := PortfolioService.with_updated_at
              (PortfolioService.with_price (PortfolioService.with_notes h nt) pr)
              (clock (tick w) (ticks (tick w))) in
  PortfolioService.update_position position_id notes purchase_price pid w
  = (Ok (HoldingM.to_dict h'),
     ContainerProxy.set_docs HoldingsC
       (<[(pid, id) := HoldingM.to_dict h']> (holdings w)) (tick (tick w))) /\
  WF.holding h' = true.
Proof.
  intros Hclock Hid Hat Hn Hp Hsome h'.
  pose proof Hat as (Hdoc & Hwf & Hhid & Hhpid).
  assert (Hpr : Num.gtb pr 0 = true).
  { destruct purchase_price as [p |].
    - destruct (validate_price_ok _ _ Hp) as (-> & Hpos). apply gtb_true, Hpos.
    - inversion Hp; subst. apply (holding_wf_fields h Hwf). }
  set (g := PortfolioService.with_price (PortfolioService.with_notes h nt) pr).
  assert (Hwfg : WF.holding g = true).
  { destruct (holding_wf_fields h Hwf) as (Hlen & Hup & Hq & _ & Hd1 & Hd2 & Hd3).
    unfold WF.holding, WF.upper_case. cbn.
    rewrite Hup, String.eqb_refl, Hlen, Hq, Hpr, Hd1, Hd2, Hd3. reflexivity. }
  destruct (update_position_write w pid id h g Hclock Hat Hwfg Hhid Hhpid)
    as (Hrun & Hwf').
  split; [| exact Hwf'].
  unfold PortfolioService.update_position.
  rewrite (bind_lift_Ok _ _ _ _ Hid).
  rewrite (bind_Ok _ _ _ _ _ (get_holding_hit w pid id h Hat)).
  destruct notes as [n |], purchase_price as [p |].
  - rewrite bind_assoc, (bind_lift_Ok _ _ _ _ Hn). cbn [bind ret].
    rewrite bind_assoc, (bind_lift_Ok _ _ _ _ Hp). cbn [bind ret negb].
    exact Hrun.
  - rewrite bind_assoc, (bind_lift_Ok _ _ _ _ Hn). cbn [bind ret negb].
    inversion Hp; subst pr.
    assert (Hg : g = PortfolioService.with_notes h nt)
      by (unfold g; destruct h; reflexivity).
    unfold h'. fold g. rewrite Hg in Hrun |- *. exact Hrun.
  - inversion Hn; subst nt. cbn [bind ret].
    rewrite bind_assoc, (bind_lift_Ok _ _ _ _ Hp). cbn [bind ret negb].
    assert (Hg : g = PortfolioService.with_price h pr)
      by (unfold g; rewrite with_notes_same; reflexivity).
    unfold h'. fold g. rewrite Hg in Hrun |- *. exact Hrun.
  - destruct Hsome as [[? Hs] | [? Hs]]; discriminate Hs.
Qed.

(** C8, as the code has it. Given an existing holding, update_position
    raises ValidationError (no fields to update) and changes nothing when
    neither notes nor purchase_price is supplied; when at least one is
    supplied and every supplied value passes its validation, it overwrites
    only those fields, with the validated values, and refreshes updated_at:
    the other fields of the holding, the other holdings, the transactions
    and the portfolios with their cash balances are as before. *)
Theorem update_position_overwrites_supplied (w : World)
    (position_id id pid : string) (h : Holding)
    (notes : option string) (purchase_price : option Q)
    (nt : option string) (pr : Q) :
  WF.clock_ok w ->
  PortfolioValidator.validate_position_id position_id = Ok id ->
  holding_at w pid id h ->
  match notes with
  | Some n => PortfolioValidator.validate_notes (Some n) 1000
  | None => Ok (h_notes h)
  end = Ok nt ->
  match purchase_price with
  | Some p => PortfolioValidator.validate_price p false
  | None => Ok (h_purchase_price h)
  end = Ok pr ->
  match notes, purchase_price with
  | None, None =>
      PortfolioService.update_position position_id notes purchase_price pid w
      = (Raise (ValidationError "No fields to update"), w)
  | _, _ =>
      exists h' w',
        PortfolioService.update_position position_id notes purchase_price pid w
        = (Ok (HoldingM.to_dict h'), w') /\
        holding_at w' pid id h' /\
        h_notes h' = nt /\ h_purchase_price h' = pr /\
        h_updated_at h' = clock (tick w) (ticks (tick w)) /\
        h_ticker h' = h_ticker h /\ h_quantity h' = h_quantity h /\
        h_purchase_date h' = h_purchase_date h /\
        h_created_at h' = h_created_at h /\
        holdings w' = <[(pid, id) := HoldingM.to_dict h']> (holdings w) /\
        transactions w' = transactions w /\ portfolios w' = portfolios w
  end.
Proof.
  intros Hclock Hid Hat Hn Hp.
  pose proof Hat as (Hdoc & Hwf & Hhid & Hhpid).
  assert (Hgo : is_Some notes \/ is_Some purchase_price ->
    exists h' w',
      PortfolioService.update_position position_id notes purchase_price pid w
      = (Ok (HoldingM.to_dict h'), w') /\
      holding_at w' pid id h' /\
      h_notes h' = nt /\ h_purchase_price h' = pr /\
      h_updated_at h' = clock (tick w) (ticks (tick w)) /\
      h_ticker h' = h_ticker h /\ h_quantity h' = h_quantity h /\
      h_purchase_date h' = h_purchase_date h /\
      h_created_at h' = h_created_at h /\
      holdings w' = <[(pid, id) := HoldingM.to_dict h']> (holdings w) /\
      transactions w' = transactions w /\ portfolios w' = portfolios w).
  { intros Hsome.
    destruct (update_position_ok w position_id id pid h notes purchase_price nt pr
                Hclock Hid Hat Hn Hp Hsome) as (Hrun & Hwf').
    eexists. eexists. split; [exact Hrun |].
    repeat match goal with |- _ /\ _ => split end; try reflexivity.
    split; [apply lookup_insert_eq |].
    split; [exact Hwf' |]. split; [exact Hhid | exact Hhpid]. }
  destruct notes as [n |], purchase_price as [p |];
    try (apply Hgo; eauto).
  unfold PortfolioService.update_position.
  rewrite (bind_lift_Ok _ _ _ _ Hid).
  rewrite (bind_Ok _ _ _ _ _ (get_holding_hit w pid id h Hat)).
  reflexivity.
Qed.

Lemma update_position_overwrites_supplied_witness :
  exists h' w',
    PortfolioService.update_position "id-000" (Some "  core position ") (Some 155%Q)
                                     "default" Scenario.bought
    = (Ok (HoldingM.to_dict h'), w') /\
    holding_at w' "default" "id-000" h' /\
    h_notes h' = Some "core position" /\ h_purchase_price h' = 155%Q /\
    h_quantity h' = 10%Q /\ h_ticker h' = "AAPL" /\
    transactions w' = transactions Scenario.bought /\
    portfolios w' = portfolios Scenario.bought.
Proof.
  pose proof (update_position_overwrites_supplied Scenario.bought
                "id-000" "id-000" "default" Scenario.apple
                (Some "  core position ") (Some 155%Q) (Some "core position") 155%Q
                scenario_bought_clock_ok eq_refl scenario_bought_holding
                eq_refl eq_refl) as Hrun.
  cbv iota in Hrun.
  destruct Hrun as (h' & w' & Hrun & Hat & Hnt & Hpr & _ & Htk & Hq & _ & _ & _ & Ht & Hp).
  exists h', w'. repeat match goal with |- _ /\ _ => split end; assumption.
Defined.

(** C8 as stated fails when a supplied value does not pass its validation: a
    purchase price of -1 is supplied, and update_position raises
    ValidationError instead of overwriting the price and refreshing
    updated_at; the stored holding is as before. *)
Lemma update_position_invalid_price_refused :
  holding_at Scenario.bought "default" "id-000" Scenario.apple /\
  PortfolioService.update_position "id-000" None (Some (-1)%Q) "default" Scenario.bought
  = (Raise (ValidationError "Price cannot be negative"), Scenario.bought).
Proof.
  split; [exact scenario_bought_holding |]. reflexivity.
Qed.

(** ** C10 and C1: tickers the validator accepts and the entities refuse *)

Lemma pattern_length (s : string) :
  PortfolioValidator.TICKER_PATTERN_match s = true -> (Str.len s <= 14)%Z.
Proof.
  unfold PortfolioValidator.TICKER_PATTERN_match.
  destruct (PortfolioValidator.take_upper 10 s) as [root rest] eqn:Hroot.
  destruct (take_upper_spec _ _ _ _ Hroot) as (-> & _ & Hlen).
  destruct (Str.is_empty root); [discriminate |].
  unfold Str.len. rewrite length_append.
  destruct rest as [| d suffix]; [intros _; cbn [String.length]; lia |].
  destruct (Ascii.eqb d "."); [| discriminate].
  destruct (PortfolioValidator.take_upper 3 suffix) as [sfx rest'] eqn:Hs.
  destruct (take_upper_spec _ _ _ _ Hs) as (-> & _ & Hlen').
  intros H. apply andb_prop in H. destruct H as [_ H].
  destruct rest'; [| discriminate].
  cbn [String.length]. rewrite length_append. cbn [String.length]. lia.
Qed.

Lemma holding_validate_long (h : Holding) :
  (10 < Str.len (h_ticker h))%Z ->
  HoldingM.validate h = Raise (PydanticValidationError "ticker").
Proof.
  intros Hlen. unfold HoldingM.validate.
  assert ((Str.len (h_ticker h) <=? 10)%Z = false) as -> by (apply Z.leb_gt; exact Hlen).
  rewrite andb_false_r. reflexivity.
Qed.

Lemma transaction_validate_long (t : Transaction) (tk : string) :
  t_ticker t = Some tk -> (10 < Str.len tk)%Z ->
  TransactionM.validate t = Raise (PydanticValidationError "ticker").
Proof.
  intros Htk Hlen. unfold TransactionM.validate, TransactionM.ticker_ok. rewrite Htk.
  assert ((Str.len tk <=? 10)%Z = false) as -> by (apply Z.leb_gt; exact Hlen).
  rewrite andb_false_r. reflexivity.
Qed.

Lemma holding_init_long (id pid tk : string) (q p : Q) (dt : datetime)
    (nt : option string) (w : World) :
  (10 < Str.len tk)%Z ->
  HoldingM.init id pid tk q p dt nt None None w
  = (Raise (PydanticValidationError "ticker"), tick (tick w)).
Proof.
  intros Hlen. unfold HoldingM.init, default_utcnow.
  rewrite bind_utcnow, bind_utcnow. unfold lift.
  rewrite holding_validate_long by exact Hlen. reflexivity.
Qed.

Lemma add_holding_long_ticker (w w0 : World) (ticker : string) (quantity price : Q)
    (date notes : option string) (pid : string) (b : Q)
    (tk : string) (dt : datetime) (nt : option string) :
  WF.clock_ok w ->
  PortfolioValidator.validate_ticker ticker = Ok tk ->
  (10 < Str.len tk)%Z ->
  PortfolioValidator.validate_quantity quantity false = Ok quantity ->
  PortfolioValidator.validate_price price false = Ok price ->
  validate_date date w = (Ok dt, w0) ->
  PortfolioValidator.validate_notes notes 1000 = Ok nt ->
  cash_is w pid b ->
  (quantity * price <= b)%Q ->
  exists w',
    PortfolioService.add_holding ticker quantity price date notes pid w
    = (Raise (PydanticValidationError "ticker"), w') /\
    holdings w' = holdings w /\ transactions w' = transactions w /\
    cash_is w' pid b.
Proof.
  intros Hclock Htk Hlen Hq Hp Hdate Hnotes Hcash Hle.
  destruct (validate_date_ok _ _ _ _ Hclock Hdate) as (Hdt & Hw0).
  assert (Hfr0 : only_portfolio pid w w0).
  { destruct Hw0 as [-> | ->]; [apply only_portfolio_refl | apply only_portfolio_tick]. }
  assert (Hclock0 : WF.clock_ok w0) by (eapply clock_ok_only_portfolio; eauto).
  assert (Hcash0 : cash_is w0 pid b).
  { destruct Hw0 as [-> | ->]; exact Hcash. }
  destruct (get_cash_balance_spec w0 pid b Hclock0 Hcash0)
    as (p & w1 & Hrun & Hat & Hb & Hfr).
  exists (tick (tick (draw w1))).
  split; [| split; [| split]].
  - unfold PortfolioService.add_holding.
    rewrite (bind_lift_Ok _ _ _ _ Htk), (bind_lift_Ok _ _ _ _ Hq),
      (bind_lift_Ok _ _ _ _ Hp).
    rewrite (bind_Ok _ _ _ _ _ Hdate), (bind_lift_Ok _ _ _ _ Hnotes).
    rewrite (bind_Ok _ _ _ _ _ Hrun).
    assert (Num.gtb (quantity * price) b = false) as -> by (apply gtb_false; exact Hle).
    rewrite bind_uuid4.
    apply bind_Raise. apply holding_init_long. exact Hlen.
  - cbn [holdings tick draw].
    destruct Hfr as (-> & _). destruct Hfr0 as (-> & _). reflexivity.
  - cbn [transactions tick draw].
    destruct Hfr as (_ & -> & _). destruct Hfr0 as (_ & -> & _). reflexivity.
  - right. exists p. split; [exact Hat | exact Hb].
Qed.

(** C10. There are tickers that validate_ticker accepts and that the Holding
    and the Transaction models refuse: the validator's pattern admits up to
    14 characters and ABCDEFGHIJ.KL, of 13 characters, matches it, while
    both models bound the ticker by 10 characters.  add_holding called with it on an otherwise valid request
    that the balance covers fails with pydantic's error, which is not a
    ValidationError of the service, so that the tool reports internal_error
    and not validation_error. *)
Theorem validator_accepts_ticker_entities_reject :
  (forall t tk, PortfolioValidator.validate_ticker t = Ok tk -> (Str.len tk <= 14)%Z) /\
  exists ticker,
    PortfolioValidator.validate_ticker ticker = Ok ticker /\
    (10 < Str.len ticker <= 14)%Z /\
    (forall h, h_ticker h = ticker -> exists m,
         HoldingM.validate h = Raise (PydanticValidationError m)) /\
    (forall t, t_ticker t = Some ticker -> exists m,
         TransactionM.validate t = Raise (PydanticValidationError m)) /\
    (forall (w w0 : World) (quantity price : Q) (date notes : option string)
            (pid : string) (b : Q) (dt : datetime) (nt : option string),
        WF.clock_ok w ->
        PortfolioValidator.validate_quantity quantity false = Ok quantity ->
        PortfolioValidator.validate_price price false = Ok price ->
        validate_date date w = (Ok dt, w0) ->
        PortfolioValidator.validate_notes notes 1000 = Ok nt ->
        cash_is w pid b ->
        (quantity * price <= b)%Q ->
        exists e w',
          PortfolioService.add_holding ticker quantity price date notes pid w
          = (Raise e, w') /\
          (forall m, e <> ValidationError m) /\
          Tools.reply_add (A := AddResult) (Raise e)
          = Failure "internal_error" (Tools.message e)) /\
    fst (Tools.add_to_portfolio ticker 10 150 None None Scenario.empty)
    = Failure "internal_error" "ticker".
Proof.
  split.
  { intros t tk Ht. destruct (validate_ticker_ok _ _ Ht) as (_ & Hm & _).
    apply pattern_length, Hm. }
  exists "ABCDEFGHIJ.KL".
  split; [reflexivity |]. split; [split; reflexivity || (cbv; discriminate) |].
  split; [| split; [| split]].
  - intros h Hh. exists "ticker". apply holding_validate_long. rewrite Hh. reflexivity.
  - intros t Ht. exists "ticker". eapply transaction_validate_long; [exact Ht |].
    reflexivity.
  - intros w w0 quantity price date notes pid b dt nt Hclock Hq Hp Hdate Hnotes Hcash Hle.
    destruct (add_holding_long_ticker w w0 "ABCDEFGHIJ.KL" quantity price date notes pid b
                "ABCDEFGHIJ.KL" dt nt Hclock eq_refl eq_refl Hq Hp Hdate Hnotes Hcash Hle)
      as (w' & Hrun & _).
    exists (PydanticValidationError "ticker"), w'.
    split; [exact Hrun |]. split; [intros m; discriminate | reflexivity].
  - vm_compute. reflexivity.
Qed.

(** C1 at a request the claim covers. The ticker ABCDEFGHIJ.KL passes
    validate_ticker, 10 is a whole number > 0, 150 > 0 and the cost 1500 is
    within the balance of 100000; add_holding raises pydantic's error on the
    ticker's length instead of buying: no holding and no transaction is
    stored, the balance stays 100000, and the tool reports internal_error. *)
Theorem add_holding_valid_ticker_not_created :
  PortfolioValidator.validate_ticker "ABCDEFGHIJ.KL" = Ok "ABCDEFGHIJ.KL" /\
  whole 10 /\ (0 < 10)%Q /\ (0 < 150)%Q /\
  cash_is Scenario.empty "default" 100000%Q /\ (10 * 150 <= 100000)%Q /\
  exists w',
    PortfolioService.add_holding "ABCDEFGHIJ.KL" 10 150 None None "default" Scenario.empty
    = (Raise (PydanticValidationError "ticker"), w') /\
    holdings w' = ∅ /\ transactions w' = ∅ /\
    cash_is w' "default" 100000%Q /\
    Tools.add_to_portfolio "ABCDEFGHIJ.KL" 10 150 None None Scenario.empty
    = (Failure "internal_error" "ticker", w').
Proof.
  split; [reflexivity |]. split; [reflexivity |].
  split; [reflexivity |]. split; [reflexivity |].
  split; [exact scenario_empty_cash |]. split; [discriminate |].
  destruct (add_holding_long_ticker Scenario.empty (tick Scenario.empty)
              "ABCDEFGHIJ.KL" 10 150 None None "default" 100000
              "ABCDEFGHIJ.KL" Scenario.new_year None
              scenario_clock_ok eq_refl eq_refl eq_refl eq_refl eq_refl eq_refl
              scenario_empty_cash ltac:(discriminate))
    as (w' & Hrun & Hh & Ht & Hc).
  exists w'. split; [exact Hrun |]. split; [exact Hh |]. split; [exact Ht |].
  split; [exact Hc |].
  unfold Tools.add_to_portfolio, Tools.run.
  change (inject_Z 10) with 10%Q. rewrite Hrun. reflexivity.
Qed.

(** ** C5: two callers racing to create a portfolio *)

(* the create of get_or_create_portfolio when the record has appeared since
   the read: the duplicate is not caught *)
Lemma create_if_absent_duplicate (w : World) (pid : string) :
  is_Some (portfolios w !! (pid, pid)) ->
  PortfolioService.create_if_absent pid None w
  = (Raise (DuplicateItemException "Item already exists"), tick (tick w)).
Proof.
  intros Hsome. unfold PortfolioService.create_if_absent, PortfolioM.init, default_utcnow.
  rewrite bind_assoc, bind_utcnow. rewrite bind_assoc, bind_utcnow.
  unfold lift, PortfolioM.validate. cbn [rbind require Num.geb Num.leb default from_option id
                                               p_cash_balance Qle_bool].
  unfold bind at 1. cbn.
  unfold CosmosPortfolioRepository.create.
  apply (create_duplicate PortfoliosC _ (pid, pid)); [reflexivity | exact Hsome].
Qed.

(** C5 at the race. A first caller reads the portfolios of the empty store
    and finds no record; before it creates one, a second caller runs
    get_or_create_portfolio in full, which stores the record with the
    default balance of 100000.  The first caller's create then raises
    DuplicateItemException, which get_or_create_portfolio passes on: nothing
    is read again and no record is returned.  create_default_portfolio of the
    repository, in the same state, catches the duplicate and returns the
    record that exists. *)
Theorem get_or_create_portfolio_duplicate_escapes :
  let w := Scenario.empty in
  let raced := snd (PortfolioService.get_or_create_portfolio "default" w) in
  CosmosPortfolioRepository.get_by_id "default" (Some "default") w = (Ok None, w) /\
  PortfolioService.get_or_create_portfolio "default" w = (Ok Scenario.fund, raced) /\
  portfolio_at raced "default" Scenario.fund /\
  PortfolioService.create_if_absent "default" None raced
  = (Raise (DuplicateItemException "Item already exists"), tick (tick raced)) /\
  fst (PortfolioService.get_or_create_portfolio "default" raced) = Ok Scenario.fund /\
  fst (CosmosPortfolioRepository.create_default_portfolio raced) = Ok Scenario.fund.
Proof.
  cbv zeta.
  assert (Hat : portfolio_at
                  (snd (PortfolioService.get_or_create_portfolio "default" Scenario.empty))
                  "default" Scenario.fund).
  { split; [vm_compute; reflexivity |]. split; reflexivity. }
  split; [reflexivity |].
  split; [vm_compute; reflexivity |].
  split; [exact Hat |].
  split.
  - apply create_if_absent_duplicate. destruct Hat as (Hdoc & _). rewrite Hdoc. eauto.
  - split; vm_compute; reflexivity.
Qed.

(** * Further properties of the code *)

(** ** Strings: strip and upper *)

Lemma upper_is_not_space (c : ascii) : Str.is_upper c = true -> Str.is_space c = false.
Proof.
  destruct c as [[] [] [] [] [] [] [] []]; cbv; intros H;
    first [reflexivity | discriminate H].
Qed.

Lemma lstrip_head (c : ascii) (r : string) :
  Str.is_space c = false -> Str.lstrip (String c r) = String c r.
Proof. intros H. cbn [Str.lstrip]. rewrite H. reflexivity. Qed.

(* what lstrip returns is empty or starts with a character that is no space *)
Lemma lstrip_starts (s : string) :
  match Str.lstrip s with
  | EmptyString => True
  | String c _ => Str.is_space c = false
  end.
Proof.
  induction s as [| c r IH]; [exact I |].
  cbn [Str.lstrip]. destruct (Str.is_space c) eqn:Hc; [exact IH | exact Hc].
Qed.

Lemma rstrip_head (c : ascii) (r : string) :
  Str.is_space c = false -> exists r', Str.rstrip (String c r) = String c r'.
Proof.
  intros Hc. cbn [Str.rstrip]. destruct (Str.rstrip r); rewrite ?Hc; eauto.
Qed.

Lemma rstrip_idem (s : string) : Str.rstrip (Str.rstrip s) = Str.rstrip s.
Proof.
  induction s as [| c r IH]; [reflexivity |].
  cbn [Str.rstrip]. destruct (Str.rstrip r) as [| d r'] eqn:Hr.
  - destruct (Str.is_space c) eqn:Hc; [reflexivity |].
    cbn [Str.rstrip]. rewrite Hc. reflexivity.
  - change (Str.rstrip (String c (String d r')))
      with (match Str.rstrip (String d r') with
            | EmptyString => if Str.is_space c then EmptyString else String c EmptyString
            | r0 => String c r0
            end).
    rewrite IH. reflexivity.
Qed.

Lemma strip_idem (s : string) : Str.strip (Str.strip s) = Str.strip s.
Proof.
  unfold Str.strip. pose proof (lstrip_starts s) as Hs.
  destruct (Str.lstrip s) as [| c r]; [reflexivity |].
  destruct (rstrip_head c r Hs) as (r' & Hr). rewrite Hr.
  rewrite (lstrip_head c r' Hs), <- Hr. apply rstrip_idem.
Qed.

Lemma strip_nonempty_starts (s : string) :
  match Str.strip s with
  | EmptyString => True
  | String c _ => Str.is_space c = false
  end.
Proof.
  unfold Str.strip. pose proof (lstrip_starts s) as Hs.
  destruct (Str.lstrip s) as [| c r]; [exact I |].
  destruct (rstrip_head c r Hs) as (r' & ->). exact Hs.
Qed.

(* a string without white space is its own strip *)
Lemma rstrip_no_space (s : string) :
  Str.all_chars (fun c => negb (Str.is_space c)) s = true -> Str.rstrip s = s.
Proof.
  induction s as [| c r IH]; [reflexivity |].
  cbn [Str.all_chars]. intros H. apply andb_prop in H. destruct H as [Hc Hr].
  apply negb_true_iff in Hc. cbn [Str.rstrip]. rewrite (IH Hr).
  destruct r; [rewrite Hc |]; reflexivity.
Qed.

Lemma strip_no_space (s : string) :
  Str.all_chars (fun c => negb (Str.is_space c)) s = true -> Str.strip s = s.
Proof.
  intros H. unfold Str.strip.
  assert (Hl : Str.lstrip s = s).
  { destruct s as [| c r]; [reflexivity |].
    cbn [Str.all_chars] in H. apply andb_prop in H. destruct H as [Hc _].
    apply negb_true_iff in Hc. apply lstrip_head, Hc. }
  rewrite Hl. apply rstrip_no_space, H.
Qed.

Lemma all_chars_append (p : ascii -> bool) (a b : string) :
  Str.all_chars p (a ++ b) = Str.all_chars p a && Str.all_chars p b.
Proof.
  induction a as [| c a IH]; [reflexivity |].
  rewrite append_String. cbn [Str.all_chars]. rewrite IH, andb_assoc. reflexivity.
Qed.

Lemma take_upper_chars (n : nat) : forall (s l rest : string),
  PortfolioValidator.take_upper n s = (l, rest) ->
  Str.all_chars Str.is_upper l = true.
Proof.
  induction n as [| n IH]; intros s l rest Ht.
  - cbn in Ht. inversion Ht; subst. reflexivity.
  - destruct s as [| c r]; cbn in Ht.
    + inversion Ht; subst. reflexivity.
    + destruct (Str.is_upper c) eqn:Hc.
      * destruct (PortfolioValidator.take_upper n r) as [l' rest'] eqn:Hr.
        inversion Ht; subst. cbn [Str.all_chars]. rewrite Hc. exact (IH _ _ _ Hr).
      * inversion Ht; subst. reflexivity.
Qed.

Lemma all_chars_weaken (p q : ascii -> bool) (s : string) :
  (forall c, p c = true -> q c = true) ->
  Str.all_chars p s = true -> Str.all_chars q s = true.
Proof.
  intros Hpq. induction s as [| c r IH]; [reflexivity |].
  cbn [Str.all_chars]. intros H. apply andb_prop in H. destruct H as [Hc Hr].
  rewrite (Hpq c Hc), (IH Hr). reflexivity.
Qed.

Lemma pattern_no_space (s : string) :
  PortfolioValidator.TICKER_PATTERN_match s = true ->
  Str.all_chars (fun c => negb (Str.is_space c)) s = true.
Proof.
  assert (Hup : forall l, Str.all_chars Str.is_upper l = true ->
                          Str.all_chars (fun c => negb (Str.is_space c)) l = true).
  { intros l. apply all_chars_weaken. intros c Hc.
    rewrite (upper_is_not_space c Hc). reflexivity. }
  unfold PortfolioValidator.TICKER_PATTERN_match.
  destruct (PortfolioValidator.take_upper 10 s) as [root rest] eqn:Hroot.
  destruct (take_upper_spec _ _ _ _ Hroot) as (-> & _ & _).
  pose proof (take_upper_chars _ _ _ _ Hroot) as Hr.
  destruct (Str.is_empty root); [discriminate |].
  rewrite all_chars_append, (Hup _ Hr). cbn [andb].
  destruct rest as [| d suffix]; [reflexivity |].
  destruct (Ascii.eqb d ".") eqn:Hd; [| discriminate].
  apply Ascii.eqb_eq in Hd. subst d.
  destruct (PortfolioValidator.take_upper 3 suffix) as [sfx rest'] eqn:Hs.
  destruct (take_upper_spec _ _ _ _ Hs) as (-> & _ & _).
  pose proof (take_upper_chars _ _ _ _ Hs) as Hsf.
  intros H. apply andb_prop in H. destruct H as [_ H].
  destruct rest'; [| discriminate].
  cbn [Str.all_chars]. rewrite all_chars_append, (Hup _ Hsf). reflexivity.
Qed.

(** ** The validators *)

(** X1. What validate_ticker returns is in normal form: upper case, without
    surrounding white space, of 1 to 14 characters, and validate_ticker
    returns it unchanged when it is validated again. *)
Theorem validate_ticker_normal_form (ticker tk : string) :
  PortfolioValidator.validate_ticker ticker = Ok tk ->
  PortfolioValidator.validate_ticker tk = Ok tk /\
  Str.upper tk = tk /\ Str.strip tk = tk /\ (1 <= Str.len tk <= 14)%Z.
Proof.
  intros Hv. destruct (validate_ticker_ok _ _ Hv) as (_ & Hm & Hup & Hlen).
  pose proof (strip_no_space tk (pattern_no_space tk Hm)) as Hst.
  pose proof (pattern_length tk Hm) as Hmax.
  split; [| split; [exact Hup | split; [exact Hst | lia]]].
  unfold PortfolioValidator.validate_ticker.
  destruct tk as [| c r];
    [unfold Str.len in Hlen; cbn [String.length] in Hlen; lia |].
  cbn [Str.is_empty].
  rewrite Hst, Hup, Hm. reflexivity.
Qed.

Lemma validate_ticker_normal_form_witness :
  PortfolioValidator.validate_ticker "BRK.B" = Ok "BRK.B" /\
  Str.upper "BRK.B" = "BRK.B" /\ Str.strip "BRK.B" = "BRK.B" /\
  (1 <= Str.len "BRK.B" <= 14)%Z.
Proof.
  apply (validate_ticker_normal_form "  brk.b ").
  reflexivity.
Defined.

(** X2. The transaction types validate_transaction_type accepts are the
    members of TransactionType: the value of every member is accepted and
    gives its upper-case name, and every accepted string is the upper-case
    value of exactly one member, the one the type filter of
    get_transaction_history then selects. *)
Theorem validate_transaction_type_names_member :
  (forall ty,
     PortfolioValidator.validate_transaction_type (TType.value ty)
     = Ok (Str.upper (TType.value ty))) /\
  (forall s v,
     PortfolioValidator.validate_transaction_type s = Ok v ->
     v = Str.upper (Str.strip s) /\
     exists ty, v = Str.upper (TType.value ty) /\
       forall ty', String.eqb (Str.upper (TType.value ty')) v = true <-> ty' = ty).
Proof.
  split; [intros ty; destruct ty; reflexivity |].
  intros s v. unfold PortfolioValidator.validate_transaction_type.
  destruct (Str.is_empty s); [discriminate |].
  destruct (existsb _ PortfolioValidator.valid_types) eqn:He; [| discriminate].
  intros Hv. inversion Hv; subst v. split; [reflexivity |].
  apply existsb_exists in He. destruct He as (name & Hin & Heq).
  apply String.eqb_eq in Heq. rewrite Heq.
  cbn in Hin.
  repeat (destruct Hin as [<- | Hin];
          [ first [ exists BUY; split; [reflexivity |]
                  | exists SELL; split; [reflexivity |]
                  | exists DIVIDEND; split; [reflexivity |]
                  | exists SPLIT; split; [reflexivity |]
                  | exists TRANSFER_IN; split; [reflexivity |]
                  | exists TRANSFER_OUT; split; [reflexivity |] ];
            intros ty'; split;
            [ destruct ty'; cbn; intros H; first [reflexivity | discriminate H]
            | intros ->; reflexivity ]
          | ]).
  destruct Hin.
Qed.

(** X3. What validate_notes returns is in normal form: no notes, or notes
    that are not empty, carry no surrounding white space and are at most
    max_length long; validating the result again returns it unchanged. *)
Theorem validate_notes_normal_form (notes r : option string) (max_length : Z) :
  PortfolioValidator.validate_notes notes max_length = Ok r ->
  PortfolioValidator.validate_notes r max_length = Ok r /\
  match r with
  | None => True
  | Some s => s <> "" /\ Str.strip s = s /\ (Str.len s <= max_length)%Z
  end.
Proof.
  destruct notes as [n |]; cbn [PortfolioValidator.validate_notes];
    [| intros H; inversion H; subst; split; [reflexivity | exact I]].
  destruct (Str.is_empty (Str.strip n)) eqn:He;
    [intros H; inversion H; subst; split; [reflexivity | exact I] |].
  destruct (max_length <? Str.len (Str.strip n))%Z eqn:Hl; [discriminate |].
  intros H. inversion H; subst r. split.
  - cbn [PortfolioValidator.validate_notes]. rewrite strip_idem, He, Hl. reflexivity.
  - split; [intros Hs; rewrite Hs in He; discriminate He |].
    split; [apply strip_idem | apply Z.ltb_ge, Hl].
Qed.

Lemma validate_notes_normal_form_witness :
  PortfolioValidator.validate_notes (Some "long term") 1000 = Ok (Some "long term") /\
  ("long term" <> "" /\ Str.strip "long term" = "long term" /\
   (Str.len "long term" <= 1000)%Z).
Proof.
  apply (validate_notes_normal_form (Some "  long term  ") (Some "long term") 1000).
  reflexivity.
Defined.

Lemma validate_position_id_idem (position_id id : string) :
  PortfolioValidator.validate_position_id position_id = Ok id ->
  id <> "" /\ Str.strip id = id /\ PortfolioValidator.validate_position_id id = Ok id.
Proof.
  unfold PortfolioValidator.validate_position_id.
  destruct (Str.is_empty position_id); [discriminate |].
  destruct (Str.is_empty (Str.strip position_id)) eqn:He; [discriminate |].
  intros H. inversion H; subst id.
  split; [intros Hs; rewrite Hs in He; discriminate He |].
  split; [apply strip_idem |].
  rewrite strip_idem, He. destruct (Str.strip position_id); [discriminate He | reflexivity].
Qed.

(** X4. White space around a position id does not matter: when
    validate_position_id accepts an id it returns it stripped and not empty,
    and remove_holding and update_position called with the id as given do
    what they do with the stripped id. *)
Theorem position_id_padding_ignored (position_id id : string) :
  PortfolioValidator.validate_position_id position_id = Ok id ->
  id <> "" /\ Str.strip position_id = id /\
  (forall quantity portfolio_id w,
     PortfolioService.remove_holding position_id quantity portfolio_id w
     = PortfolioService.remove_holding id quantity portfolio_id w) /\
  (forall notes purchase_price portfolio_id w,
     PortfolioService.update_position position_id notes purchase_price portfolio_id w
     = PortfolioService.update_position id notes purchase_price portfolio_id w).
Proof.
  intros Hv. destruct (validate_position_id_idem _ _ Hv) as (Hne & _ & Hid).
  split; [exact Hne |]. split.
  - revert Hv. unfold PortfolioValidator.validate_position_id.
    destruct (Str.is_empty position_id); [discriminate |].
    destruct (Str.is_empty (Str.strip position_id)); [discriminate |].
    intros H. inversion H. reflexivity.
  - split.
    + intros quantity portfolio_id w. unfold PortfolioService.remove_holding.
      rewrite (bind_lift_Ok _ _ _ _ Hv), (bind_lift_Ok _ _ _ _ Hid). reflexivity.
    + intros notes purchase_price portfolio_id w.
      unfold PortfolioService.update_position.
      rewrite (bind_lift_Ok _ _ _ _ Hv), (bind_lift_Ok _ _ _ _ Hid). reflexivity.
Qed.

Lemma position_id_padding_ignored_witness :
  "id-000" <> "" /\ Str.strip " id-000 " = "id-000" /\
  (forall quantity portfolio_id w,
     PortfolioService.remove_holding " id-000 " quantity portfolio_id w
     = PortfolioService.remove_holding "id-000" quantity portfolio_id w) /\
  (forall notes purchase_price portfolio_id w,
     PortfolioService.update_position " id-000 " notes purchase_price portfolio_id w
     = PortfolioService.update_position "id-000" notes purchase_price portfolio_id w).
Proof.
  apply (position_id_padding_ignored " id-000 " "id-000").
  reflexivity.
Defined.

(** ** Dates: what validate_date accepts *)

Lemma contains_char_append (c : ascii) (a b : string) :
  Str.contains_char c (a ++ b) = Str.contains_char c a || Str.contains_char c b.
Proof.
  induction a as [| d a IH]; [reflexivity |].
  rewrite append_String. cbn [Str.contains_char].
  destruct (Ascii.eqb c d); [reflexivity | exact IH].
Qed.

Lemma replace_char_absent (c : ascii) (t s : string) :
  Str.contains_char c s = false -> Str.replace_char c t s = s.
Proof.
  induction s as [| d r IH]; [reflexivity |].
  cbn [Str.contains_char Str.replace_char].
  destruct (Ascii.eqb c d); [discriminate |]. intros H. rewrite (IH H). reflexivity.
Qed.

Lemma append_assoc (a b c : string) : (a ++ b) ++ c = a ++ (b ++ c).
Proof.
  induction a as [| d a IH]; [reflexivity |].
  rewrite !append_String, IH. reflexivity.
Qed.

Lemma replace_char_append (c : ascii) (t a b : string) :
  Str.replace_char c t (a ++ b) = Str.replace_char c t a ++ Str.replace_char c t b.
Proof.
  induction a as [| d a IH]; [reflexivity |].
  rewrite append_String. cbn [Str.replace_char].
  destruct (Ascii.eqb c d).
  - rewrite IH. symmetry. apply append_assoc.
  - rewrite append_String, IH. reflexivity.
Qed.

(* a decimal field holds neither a Z nor a T *)
Lemma pad_letter_free (c : ascii) (w : nat) (n : Z) :
  Str.is_digit c = false -> Str.contains_char c (DT.pad w n) = false.
Proof.
  intros Hc. induction w as [| w IH]; [reflexivity |].
  cbn [DT.pad Str.contains_char].
  assert (Hd : 0 <= (n / 10 ^ Z.of_nat w) mod 10 < 10)
    by (apply Z.mod_pos_bound; lia).
  destruct (Ascii.eqb c (DT.digit ((n / 10 ^ Z.of_nat w) mod 10))) eqn:He; [| exact IH].
  apply Ascii.eqb_eq in He. rewrite He, (is_digit_digit _ Hd) in Hc. discriminate Hc.
Qed.

Lemma format_offset_Z_free (tz : option Z) :
  Str.contains_char "Z" (DT.format_offset tz) = false.
Proof.
  destruct tz as [off |]; [| reflexivity]. unfold DT.format_offset.
  rewrite !contains_char_append, !pad_letter_free by reflexivity.
  destruct (off <? 0)%Z; reflexivity.
Qed.

Lemma isoformat_Z_free (d : datetime) : Str.contains_char "Z" (DT.isoformat d) = false.
Proof.
  unfold DT.isoformat.
  rewrite !contains_char_append, !pad_letter_free, format_offset_Z_free by reflexivity.
  destruct (DT.microsecond d =? 0)%Z; [reflexivity |].
  rewrite contains_char_append, pad_letter_free by reflexivity. reflexivity.
Qed.

Lemma isoformat_has_T (d : datetime) : Str.contains_char "T" (DT.isoformat d) = true.
Proof.
  unfold DT.isoformat.
  rewrite !contains_char_append, !pad_letter_free by reflexivity.
  reflexivity.
Qed.

(** X5. validate_date accepts the dates the entities print: the isoformat of
    every datetime is parsed back to that datetime, so a date echoed from a
    stored record can be used as a filter; the isoformat of a naive datetime
    followed by Z is read as the same wall-clock time in UTC; and a date
    alone, YYYY-MM-DD, is read as the naive midnight of that day. *)
Theorem validate_date_accepts_printed_dates :
  (forall d, DT.valid d = true ->
     PortfolioValidatorDate.validate_date_str (DT.isoformat d) = Ok d) /\
  (forall d, DT.valid d = true -> DT.tzinfo d = None ->
     PortfolioValidatorDate.validate_date_str (DT.isoformat d ++ "Z")
     = Ok (DTMore.as_utc d)) /\
  (forall y m day, DT.valid (DTMore.midnight y m day) = true ->
     PortfolioValidatorDate.validate_date_str (DTMore.isodate y m day)
     = Ok (DTMore.midnight y m day)).
Proof.
  split; [| split].
  - intros d Hv. unfold PortfolioValidatorDate.validate_date_str.
    rewrite isoformat_has_T, (replace_char_absent _ _ _ (isoformat_Z_free d)).
    rewrite (fromisoformat_isoformat d Hv). reflexivity.
  - intros d Hv Htz. unfold PortfolioValidatorDate.validate_date_str.
    rewrite contains_char_append, isoformat_has_T. cbn [orb].
    rewrite replace_char_append, (replace_char_absent _ _ _ (isoformat_Z_free d)).
    assert (Hiso : DT.isoformat d ++ Str.replace_char "Z" "+00:00" "Z"
                   = DT.isoformat (DTMore.as_utc d)).
    { unfold DT.isoformat. cbn [DTMore.as_utc DT.year DT.month DT.day DT.hour DT.minute
                                  DT.second DT.microsecond DT.tzinfo].
      rewrite Htz. cbn [DT.format_offset]. rewrite append_nil.
      change (Str.replace_char "Z" "+00:00" "Z") with "+00:00".
      change (DT.format_offset (Some 0)) with "+00:00".
      rewrite !append_assoc. reflexivity. }
    rewrite Hiso, fromisoformat_isoformat; [reflexivity |].
    revert Hv. unfold DT.valid. cbn [DTMore.as_utc DT.year DT.month DT.day DT.hour
      DT.minute DT.second DT.microsecond DT.tzinfo]. rewrite Htz.
    intros H. apply andb_prop in H. destruct H as [H _]. rewrite H. reflexivity.
  - intros y m day Hv. unfold PortfolioValidatorDate.validate_date_str, DTMore.isodate.
    rewrite !contains_char_append, !pad_letter_free by reflexivity. cbn [orb Str.contains_char].
    change (Ascii.eqb "T" "-") with false. cbn iota.
    destruct (valid_fields _ Hv) as (Hy & Hm & Hd & _).
    cbn [DTMore.midnight DT.year DT.month DT.day] in Hy, Hm, Hd.
    unfold DT.fromisoformat.
    rewrite <- (append_nil (DT.pad 2 day)).
    rewrite parse_date_format by assumption.
    unfold DT.checked. fold (DTMore.midnight y m day). rewrite Hv. reflexivity.
Qed.

Lemma validate_date_accepts_printed_dates_witness :
  PortfolioValidatorDate.validate_date_str "2024-06-30T12:00:00+00:00"
  = Ok Scenario.mid_year_utc /\
  PortfolioValidatorDate.validate_date_str "2025-01-01T00:00:00Z"
  = Ok (DTMore.as_utc Scenario.new_year) /\
  PortfolioValidatorDate.validate_date_str "2025-01-01" = Ok Scenario.new_year.
Proof.
  destruct validate_date_accepts_printed_dates as (H1 & H2 & H3).
  split; [apply (H1 Scenario.mid_year_utc); reflexivity |].
  split; [apply (H2 Scenario.new_year); reflexivity |].
  apply (H3 2025 1 1). reflexivity.
Defined.

(** ** The repository: create, read, delete *)

Lemma docs_set_docs (c : container_id) (m : container) (w : World) :
  ContainerProxy.docs c (ContainerProxy.set_docs c m w) = m.
Proof. destruct c; reflexivity. Qed.

Lemma set_docs_set_docs (c : container_id) (m1 m2 : container) (w : World) :
  ContainerProxy.set_docs c m2 (ContainerProxy.set_docs c m1 w)
  = ContainerProxy.set_docs c m2 w.
Proof. destruct c; reflexivity. Qed.

Lemma set_docs_docs (c : container_id) (w : World) :
  ContainerProxy.set_docs c (ContainerProxy.docs c w) w = w.
Proof. destruct c, w; reflexivity. Qed.

Section RepositoryRoundTrip.

Context {T : Type} `{ModelClass T}.
Variable c : container_id.

Lemma delete_miss (id pk : string) (w : World) :
  ContainerProxy.docs c w !! (pk, id) = None ->
  CosmosRepositoryBase.delete c id (Some pk) w = (Ok false, w).
Proof.
  intros Hd. unfold CosmosRepositoryBase.delete, ContainerProxy.delete_item.
  change (default id (Some pk)) with pk. rewrite Hd. reflexivity.
Qed.

(** X6. What the repository creates it reads back, and deleting it undoes
    the create: for an item that serializes under the key (partition key,
    id) and is not stored yet, create stores it and returns it, get_by_id
    with that partition key returns it, a second create is refused as a
    duplicate without a write, and delete answers True and leaves the world
    exactly as it was before the create, where get_by_id finds nothing. *)
Theorem create_read_delete (x : T) (pk id : string) (w : World) :
  ContainerProxy.key_of c (mc_to_dict x) = Some (pk, id) ->
  ContainerProxy.docs c w !! (pk, id) = None ->
  round_trips x ->
  exists w1,
    CosmosRepositoryBase.create c x w = (Ok x, w1) /\
    ContainerProxy.docs c w1 !! (pk, id) = Some (mc_to_dict x) /\
    CosmosRepositoryBase.get_by_id c id (Some pk) w1 = (Ok (Some x), w1) /\
    CosmosRepositoryBase.create c x w1
    = (Raise (DuplicateItemException "Item already exists"), w1) /\
    CosmosRepositoryBase.delete c id (Some pk) w1 = (Ok true, w) /\
    CosmosRepositoryBase.get_by_id (T := T) c id (Some pk) w = (Ok None, w).
Proof.
  intros Hk Hfresh Hrt.
  set (w1 := ContainerProxy.set_docs c
               (<[(pk, id) := mc_to_dict x]> (ContainerProxy.docs c w)) w).
  assert (Hdoc : ContainerProxy.docs c w1 !! (pk, id) = Some (mc_to_dict x)).
  { unfold w1. rewrite docs_set_docs. apply lookup_insert_eq. }
  exists w1. split; [apply create_fresh; assumption |].
  split; [exact Hdoc |].
  split; [apply get_by_id_hit; assumption |].
  split; [apply (create_duplicate c x (pk, id)); [exact Hk | rewrite Hdoc; eauto] |].
  split; [| apply get_by_id_miss; exact Hfresh].
  rewrite (delete_hit c id pk w1) by (rewrite Hdoc; eauto).
  f_equal. unfold w1. rewrite docs_set_docs, set_docs_set_docs.
  rewrite delete_insert_id by exact Hfresh. apply set_docs_docs.
Qed.

(** X7. exists answers for the stored document as it can be read: True for
    an item that is stored and parses, False for a missing one, and False
    also for a document that is stored but does not parse, for which
    get_by_id raises RepositoryException. *)
Theorem exists_answers (id pk : string) (w : World) :
  (forall x, ContainerProxy.docs c w !! (pk, id) = Some (mc_to_dict x) ->
             round_trips x ->
             CosmosRepositoryMore.exists_ (T := T) c id (Some pk) w = (Ok true, w)) /\
  (ContainerProxy.docs c w !! (pk, id) = None ->
   CosmosRepositoryMore.exists_ (T := T) c id (Some pk) w = (Ok false, w)) /\
  (forall d e w',
     ContainerProxy.docs c w !! (pk, id) = Some d ->
     mc_from_dict (T := T) d w = (Raise e, w') ->
     CosmosRepositoryBase.get_by_id (T := T) c id (Some pk) w
     = (Raise (RepositoryException "Failed to retrieve item"), w') /\
     CosmosRepositoryMore.exists_ (T := T) c id (Some pk) w = (Ok false, w')).
Proof.
  split; [| split].
  - intros x Hd Hrt. unfold CosmosRepositoryMore.exists_, try_except.
    rewrite (bind_Ok _ _ _ _ _ (get_by_id_hit c id pk x w Hd Hrt)). reflexivity.
  - intros Hd. unfold CosmosRepositoryMore.exists_, try_except.
    rewrite (bind_Ok _ _ _ _ _ (get_by_id_miss c id pk w Hd)). reflexivity.
  - intros d e w' Hd Hraise.
    assert (Hget : CosmosRepositoryBase.get_by_id (T := T) c id (Some pk) w
                   = (Raise (RepositoryException "Failed to retrieve item"), w')).
    { unfold CosmosRepositoryBase.get_by_id, ContainerProxy.read_item.
      change (default id (Some pk)) with pk. rewrite Hd.
      unfold CosmosRepositoryBase.wrapped, try_except, CosmosRepositoryBase._from_cosmos.
      rewrite (bind_Raise _ _ _ _ _ Hraise). reflexivity. }
    split; [exact Hget |].
    unfold CosmosRepositoryMore.exists_, try_except.
    rewrite (bind_Raise _ _ _ _ _ Hget). reflexivity.
Qed.

End RepositoryRoundTrip.

Lemma create_read_delete_witness :
  exists w1,
    CosmosHoldingsRepository.create Scenario.apple Scenario.empty
    = (Ok Scenario.apple, w1) /\
    holdings w1 !! ("default", "id-000") = Some (HoldingM.to_dict Scenario.apple) /\
    CosmosHoldingsRepository.get_by_id "id-000" (Some "default") w1
    = (Ok (Some Scenario.apple), w1) /\
    CosmosHoldingsRepository.create Scenario.apple w1
    = (Raise (DuplicateItemException "Item already exists"), w1) /\
    CosmosHoldingsRepository.delete "id-000" (Some "default") w1
    = (Ok true, Scenario.empty) /\
    CosmosHoldingsRepository.get_by_id "id-000" (Some "default") Scenario.empty
    = (Ok None, Scenario.empty).
Proof.
  exact (create_read_delete HoldingsC Scenario.apple "default" "id-000" Scenario.empty
           eq_refl eq_refl (holding_round_trips Scenario.apple eq_refl)).
Defined.

Lemma exists_answers_witness :
  let damaged := ContainerProxy.set_docs HoldingsC
                   {[ ("default", "id-009") := [("id", PStr "id-009")] ]}
                   Scenario.empty in
  CosmosRepositoryMore.exists_ (T := Holding) HoldingsC "id-000" (Some "default")
    Scenario.bought = (Ok true, Scenario.bought) /\
  CosmosRepositoryMore.exists_ (T := Holding) HoldingsC "id-000" (Some "default")
    Scenario.empty = (Ok false, Scenario.empty) /\
  CosmosHoldingsRepository.get_by_id "id-009" (Some "default") damaged
  = (Raise (RepositoryException "Failed to retrieve item"), damaged) /\
  CosmosRepositoryMore.exists_ (T := Holding) HoldingsC "id-009" (Some "default")
    damaged = (Ok false, damaged).
Proof.
  cbv zeta.
  split; [| split].
  - destruct (exists_answers (T := Holding) HoldingsC "id-000" "default" Scenario.bought)
      as (Hyes & _).
    apply (Hyes Scenario.apple); [apply scenario_bought_holding |].
    apply holding_round_trips. reflexivity.
  - destruct (exists_answers (T := Holding) HoldingsC "id-000" "default" Scenario.empty)
      as (_ & Hno & _).
    apply Hno. reflexivity.
  - destruct (exists_answers (T := Holding) HoldingsC "id-009" "default"
                (ContainerProxy.set_docs HoldingsC
                   {[ ("default", "id-009") := [("id", PStr "id-009")] ]}
                   Scenario.empty))
      as (_ & _ & Hbad).
    apply (Hbad [("id", PStr "id-009")] (PydanticValidationError "ticker")).
    + vm_compute. reflexivity.
    + vm_compute. reflexivity.
Defined.

(** ** The repository: partition keys and missing items *)

(** X8. Without a partition key get_by_id, delete and exists look in the
    partition named by the item id.  That finds a portfolio, whose partition
    key is its id; it does not find a holding, which is stored under its
    portfolio's id: get_by_id answers None, delete answers False and leaves
    the holding in place, and exists answers False. *)
Theorem default_partition_key_is_item_id :
  (forall w pid p, portfolio_at w pid p ->
     CosmosPortfolioRepository.get_by_id pid None w = (Ok (Some p), w)) /\
  (forall w pid id h,
     holding_at w pid id h -> holdings w !! (id, id) = None ->
     CosmosHoldingsRepository.get_by_id id None w = (Ok None, w) /\
     CosmosHoldingsRepository.delete id None w = (Ok false, w) /\
     CosmosRepositoryMore.exists_ (T := Holding) HoldingsC id None w = (Ok false, w) /\
     CosmosHoldingsRepository.get_by_id id (Some pid) w = (Ok (Some h), w)).
Proof.
  split.
  - intros w pid p (Hdoc & Hwf & Hid).
    change (CosmosPortfolioRepository.get_by_id pid None w)
      with (CosmosPortfolioRepository.get_by_id pid (Some pid) w).
    apply (get_by_id_hit PortfoliosC pid pid p w);
      [exact Hdoc | apply portfolio_round_trips, Hwf].
  - intros w pid id h Hat Hnone.
    assert (Hget : CosmosHoldingsRepository.get_by_id id None w = (Ok None, w)).
    { change (CosmosHoldingsRepository.get_by_id id None w)
        with (CosmosHoldingsRepository.get_by_id id (Some id) w).
      apply (get_by_id_miss (T := Holding) HoldingsC id id w); exact Hnone. }
    split; [exact Hget |].
    split.
    { change (CosmosHoldingsRepository.delete id None w)
        with (CosmosHoldingsRepository.delete id (Some id) w).
      apply (delete_miss HoldingsC id id w); exact Hnone. }
    split; [| apply get_holding_hit, Hat].
    unfold CosmosRepositoryMore.exists_, try_except.
    unfold CosmosHoldingsRepository.get_by_id in Hget.
    rewrite (bind_Ok _ _ _ _ _ Hget). reflexivity.
Qed.

Lemma default_partition_key_is_item_id_witness :
  CosmosHoldingsRepository.get_by_id "id-000" None Scenario.bought
  = (Ok None, Scenario.bought) /\
  CosmosHoldingsRepository.delete "id-000" None Scenario.bought
  = (Ok false, Scenario.bought) /\
  CosmosRepositoryMore.exists_ (T := Holding) HoldingsC "id-000" None Scenario.bought
  = (Ok false, Scenario.bought) /\
  CosmosHoldingsRepository.get_by_id "id-000" (Some "default") Scenario.bought
  = (Ok (Some Scenario.apple), Scenario.bought).
Proof.
  destruct default_partition_key_is_item_id as (_ & Hh).
  apply (Hh Scenario.bought "default" "id-000" Scenario.apple).
  - exact scenario_bought_holding.
  - vm_compute. reflexivity.
Defined.

(** X9. A holding that is not stored: get_by_id answers None, delete answers
    False and exists answers False, all three leaving the world as it is,
    and update raises ItemNotFoundException without storing anything. *)
Theorem missing_holding_operations (w : World) (pid id : string) :
  holdings w !! (pid, id) = None ->
  CosmosHoldingsRepository.get_by_id id (Some pid) w = (Ok None, w) /\
  CosmosHoldingsRepository.delete id (Some pid) w = (Ok false, w) /\
  CosmosRepositoryMore.exists_ (T := Holding) HoldingsC id (Some pid) w
  = (Ok false, w) /\
  (forall h, h_id h = id -> h_portfolio_id h = pid ->
     exists msg w',
       CosmosHoldingsRepository.update id h (Some pid) w
       = (Raise (ItemNotFoundException msg), w') /\
       holdings w' = holdings w /\ transactions w' = transactions w /\
       portfolios w' = portfolios w).
Proof.
  intros Hnone.
  assert (Hget : CosmosHoldingsRepository.get_by_id id (Some pid) w = (Ok None, w))
    by (apply (get_by_id_miss (T := Holding) HoldingsC id pid w); exact Hnone).
  split; [exact Hget |].
  split; [apply (delete_miss HoldingsC id pid w); exact Hnone |].
  split.
  - destruct (exists_answers (T := Holding) HoldingsC id pid w) as (_ & Hno & _).
    apply Hno, Hnone.
  - intros h Hid Hpid. exists "Item not found", (tick w).
    split; [| repeat split].
    unfold CosmosHoldingsRepository.update, CosmosRepositoryBase.update,
      CosmosRepositoryBase.stamped.
    cbn [mc_stamp Holding_model]. rewrite bind_assoc, bind_utcnow.
    cbn [bind ret]. unfold ContainerProxy.replace_item, CosmosRepositoryBase._to_cosmos.
    cbn [mc_to_dict Holding_model]. rewrite key_of_holding.
    cbn [h_id h_portfolio_id]. rewrite Hid, Hpid, String.eqb_refl. cbn [negb].
    change (ContainerProxy.docs HoldingsC (tick w)) with (holdings w).
    rewrite Hnone. reflexivity.
Qed.

Lemma missing_holding_operations_witness :
  CosmosHoldingsRepository.get_by_id "id-404" (Some "default") Scenario.bought
  = (Ok None, Scenario.bought) /\
  CosmosHoldingsRepository.delete "id-404" (Some "default") Scenario.bought
  = (Ok false, Scenario.bought) /\
  CosmosRepositoryMore.exists_ (T := Holding) HoldingsC "id-404" (Some "default")
    Scenario.bought = (Ok false, Scenario.bought) /\
  (forall h, h_id h = "id-404" -> h_portfolio_id h = "default" ->
     exists msg w',
       CosmosHoldingsRepository.update "id-404" h (Some "default") Scenario.bought
       = (Raise (ItemNotFoundException msg), w') /\
       holdings w' = holdings Scenario.bought /\
       transactions w' = transactions Scenario.bought /\
       portfolios w' = portfolios Scenario.bought).
Proof.
  apply (missing_holding_operations Scenario.bought "default" "id-404").
  vm_compute. reflexivity.
Defined.

(** ** The repository: the default portfolio *)

Lemma create_default_absent (w : World) :
  portfolios w !! ("default", "default") = None ->
  WF.clock_ok w ->
  let p0 := {| p_id := "default"; p_cash_balance := 0%Q;
               p_last_updated := clock w (ticks w);
               p_created_at := clock w (S (ticks w)) |} in
  CosmosPortfolioRepository.create_default_portfolio w
  = (Ok p0,
     ContainerProxy.set_docs PortfoliosC
       (<[("default", "default") := PortfolioM.to_dict p0]> (portfolios w))
       (tick (tick w))) /\
  WF.portfolio p0 = true.
Proof.
  intros Hnone Hclock p0.
  assert (Hwf : WF.portfolio p0 = true).
  { unfold WF.portfolio. cbn [p_cash_balance p_last_updated p_created_at p0].
    rewrite !Hclock. reflexivity. }
  split; [| exact Hwf].
  unfold CosmosPortfolioRepository.create_default_portfolio, PortfolioM.init.
  unfold default_utcnow. rewrite bind_assoc, bind_utcnow, bind_assoc, bind_utcnow.
  unfold lift. cbn [default from_option id tick clock ticks].
  change (PortfolioM.validate _) with (PortfolioM.validate p0).
  rewrite (portfolio_validate_wf p0 Hwf).
  unfold bind at 1. unfold try_except, CosmosPortfolioRepository.create.
  rewrite (create_fresh PortfoliosC p0 ("default", "default")).
  - reflexivity.
  - reflexivity.
  - exact Hnone.
  - apply portfolio_round_trips, Hwf.
Qed.

Lemma create_default_present (w : World) (p : Portfolio) :
  portfolio_at w "default" p ->
  CosmosPortfolioRepository.create_default_portfolio w = (Ok p, tick (tick w)).
Proof.
  intros Hat. pose proof Hat as (Hdoc & Hwf & Hid).
  unfold CosmosPortfolioRepository.create_default_portfolio, PortfolioM.init.
  unfold default_utcnow. rewrite bind_assoc, bind_utcnow, bind_assoc, bind_utcnow.
  erewrite bind_lift_Ok by reflexivity.
  unfold try_except, CosmosPortfolioRepository.create.
  erewrite (create_duplicate PortfoliosC _ ("default", "default"));
    [| reflexivity | cbn; rewrite Hdoc; eauto].
  unfold CosmosPortfolioRepository.get_default_portfolio,
    CosmosPortfolioRepository.get_by_id.
  erewrite bind_Ok;
    [| apply (get_by_id_hit PortfoliosC "default" "default" p (tick (tick w)));
       [exact Hdoc | apply portfolio_round_trips, Hwf]].
  reflexivity.
Qed.

(** X10. create_default_portfolio is idempotent.  On a store without the
    default portfolio it creates the record, with a cash balance of 0; on a
    store that has it, the duplicate is caught and the stored record is
    returned, with nothing written.  Either way the default portfolio is
    stored afterwards, and a second call returns the same record and
    leaves the containers as they are. *)
Theorem create_default_portfolio_idempotent (w : World) :
  WF.clock_ok w ->
  portfolios w !! ("default", "default") = None \/
  (exists p0, portfolio_at w "default" p0) ->
  exists p w1 w2,
    CosmosPortfolioRepository.create_default_portfolio w = (Ok p, w1) /\
    portfolio_at w1 "default" p /\ only_portfolio "default" w w1 /\
    (portfolios w !! ("default", "default") = None -> p_cash_balance p = 0%Q) /\
    (forall p0, portfolio_at w "default" p0 ->
                p = p0 /\ portfolios w1 = portfolios w) /\
    CosmosPortfolioRepository.create_default_portfolio w1 = (Ok p, w2) /\
    portfolios w2 = portfolios w1 /\ holdings w2 = holdings w /\
    transactions w2 = transactions w.
Proof.
  intros Hclock [Hnone | (p0 & Hat)].
  - destruct (create_default_absent w Hnone Hclock) as (Hrun & Hwf).
    eexists _, _, _. split; [exact Hrun |].
    match goal with |- portfolio_at ?w1 _ ?p /\ _ =>
      assert (Hat1 : portfolio_at w1 "default" p)
    end.
    { split; [apply lookup_insert_eq |]. split; [exact Hwf | reflexivity]. }
    split; [exact Hat1 |].
    split.
    { eapply only_portfolio_trans; [apply only_portfolio_tick |].
      eapply only_portfolio_trans; [apply only_portfolio_tick |].
      apply (only_portfolio_write "default" _ (tick (tick w))). }
    split; [intros _; reflexivity |].
    split.
    { intros p0 (Hdoc & _). rewrite Hdoc in Hnone. discriminate Hnone. }
    split; [apply create_default_present, Hat1 |].
    repeat split.
  - pose proof (create_default_present w p0 Hat) as Hrun.
    assert (Hat1 : portfolio_at (tick (tick w)) "default" p0) by exact Hat.
    exists p0, (tick (tick w)), (tick (tick (tick (tick w)))).
    split; [exact Hrun |]. split; [exact Hat1 |].
    split.
    { eapply only_portfolio_trans; apply only_portfolio_tick. }
    split.
    { intros Hnone. destruct Hat as (Hdoc & _). rewrite Hdoc in Hnone.
      discriminate Hnone. }
    split.
    { intros p1 (Hdoc1 & Hwf1 & _). split; [| reflexivity].
      destruct Hat as (Hdoc & Hwf & _). rewrite Hdoc in Hdoc1.
      assert (Heq : PortfolioM.to_dict p0 = PortfolioM.to_dict p1) by congruence.
      pose proof (Portfolio_roundtrip p0 w Hwf) as R0.
      pose proof (Portfolio_roundtrip p1 w Hwf1) as R1.
      rewrite Heq in R0. rewrite R0 in R1. inversion R1. reflexivity. }
    split; [apply create_default_present, Hat1 |].
    repeat split.
Qed.

Lemma create_default_portfolio_idempotent_witness :
  exists p w1 w2,
    CosmosPortfolioRepository.create_default_portfolio Scenario.empty = (Ok p, w1) /\
    portfolio_at w1 "default" p /\ only_portfolio "default" Scenario.empty w1 /\
    (portfolios Scenario.empty !! ("default", "default") = None ->
     p_cash_balance p = 0%Q) /\
    (forall p0, portfolio_at Scenario.empty "default" p0 ->
                p = p0 /\ portfolios w1 = portfolios Scenario.empty) /\
    CosmosPortfolioRepository.create_default_portfolio w1 = (Ok p, w2) /\
    portfolios w2 = portfolios w1 /\ holdings w2 = holdings Scenario.empty /\
    transactions w2 = transactions Scenario.empty.
Proof.
  apply (create_default_portfolio_idempotent Scenario.empty).
  - exact scenario_clock_ok.
  - left. reflexivity.
Defined.

(** ** The repository: queries over the holdings *)

Lemma query_items_In (c : container_id) (conds : list (string * pyval))
    (pk : option string) (w : World) (d : dict) :
  In d (ContainerProxy.query_items c conds pk w) <->
  exists k, ContainerProxy.docs c w !! k = Some d /\
            match pk with Some p => fst k = p | None => True end /\
            forallb (fun fv : string * pyval =>
                       match Dict.get (fst fv) d with
                       | Some v => ContainerProxy.value_eqb v (snd fv)
                       | None => false
                       end) conds = true.
Proof.
  unfold ContainerProxy.query_items. rewrite List.in_map_iff. split.
  - intros ([k d'] & Heq & Hin). cbn in Heq. subst d'.
    apply List.filter_In in Hin. destruct Hin as [Hin Hf].
    apply andb_prop in Hf. destruct Hf as [Hp Hs]. cbn [fst snd] in Hp, Hs.
    exists k. split; [apply elem_of_map_to_list, list_elem_of_In, Hin |].
    split; [| exact Hs].
    destruct pk as [p |]; [apply String.eqb_eq, Hp | exact I].
  - intros (k & Hk & Hp & Hs). exists (k, d). split; [reflexivity |].
    apply List.filter_In. split.
    + apply list_elem_of_In, elem_of_map_to_list, Hk.
    + cbn [fst snd]. rewrite Hs, andb_true_r.
      destruct pk as [p |]; [apply String.eqb_eq, Hp | reflexivity].
Qed.

Lemma holding_to_dict_inj (h h' : Holding) :
  WF.holding h = true -> WF.holding h' = true ->
  HoldingM.to_dict h = HoldingM.to_dict h' -> h = h'.
Proof.
  intros Hwf Hwf' Heq.
  pose proof (Holding_roundtrip h Scenario.empty Hwf) as R.
  pose proof (Holding_roundtrip h' Scenario.empty Hwf') as R'.
  rewrite Heq in R. rewrite R in R'. inversion R'. reflexivity.
Qed.

(* the documents of a well-formed store parse, each to the holding it
   serializes *)
Lemma holdings_from_cosmos (docs : list dict) (w : World) :
  Forall (fun d => exists h, d = HoldingM.to_dict h /\ WF.holding h = true) docs ->
  exists hs,
    CosmosRepositoryBase.from_cosmos_all (T := Holding) docs w = (Ok hs, w) /\
    List.map HoldingM.to_dict hs = docs /\
    Forall (fun h => WF.holding h = true) hs.
Proof.
  induction docs as [| d r IH]; intros Hall.
  - exists []. split; [reflexivity |]. split; [reflexivity | constructor].
  - pose proof (List.Forall_inv Hall) as (h & -> & Hwf).
    destruct (IH (List.Forall_inv_tail Hall)) as (hs & Hhs & Hmap & Hwfs).
    exists (h :: hs). cbn [CosmosRepositoryBase.from_cosmos_all].
    unfold CosmosRepositoryBase._from_cosmos.
    erewrite bind_Ok; [| apply Holding_roundtrip, Hwf].
    rewrite (bind_Ok _ _ _ _ _ Hhs).
    split; [reflexivity |]. split; [cbn; rewrite Hmap; reflexivity |].
    constructor; assumption.
Qed.

Lemma holdings_query (conds : list (string * pyval)) (pk : option string) (w : World) :
  holdings_stored w ->
  exists hs,
    CosmosRepositoryBase.query (T := Holding) HoldingsC conds pk w = (Ok hs, w) /\
    List.map HoldingM.to_dict hs = ContainerProxy.query_items HoldingsC conds pk w /\
    Forall (fun h => WF.holding h = true) hs.
Proof.
  intros Hst.
  destruct (holdings_from_cosmos (ContainerProxy.query_items HoldingsC conds pk w) w)
    as (hs & Hhs & Hmap & Hwfs).
  { apply List.Forall_forall. intros d Hd.
    destruct (query_items_stored _ _ _ _ _ Hd) as (k & Hk).
    destruct (Hst k d Hk) as (h & Hh & Hwf & _). eauto. }
  exists hs. split; [| auto].
  unfold CosmosRepositoryBase.query, CosmosRepositoryBase.wrapped, try_except.
  rewrite Hhs. reflexivity.
Qed.

Lemma holdings_get_all (pk : option string) (w : World) :
  holdings_stored w ->
  let scope := match pk with
               | Some p => if Str.is_empty p then None else Some p
               | None => None
               end in
  exists hs,
    CosmosRepositoryBase.get_all (T := Holding) HoldingsC pk w = (Ok hs, w) /\
    List.map HoldingM.to_dict hs = ContainerProxy.query_items HoldingsC [] scope w /\
    Forall (fun h => WF.holding h = true) hs.
Proof.
  intros Hst scope.
  destruct (holdings_from_cosmos (ContainerProxy.query_items HoldingsC [] scope w) w)
    as (hs & Hhs & Hmap & Hwfs).
  { apply List.Forall_forall. intros d Hd.
    destruct (query_items_stored _ _ _ _ _ Hd) as (k & Hk).
    destruct (Hst k d Hk) as (h & Hh & Hwf & _). eauto. }
  exists hs. split; [| auto].
  unfold CosmosRepositoryBase.get_all, CosmosRepositoryBase.wrapped, try_except.
  fold scope. rewrite Hhs. reflexivity.
Qed.

(* membership in the parsed result, in terms of the store *)
Lemma holdings_listed (w : World) (conds : list (string * pyval)) (pk : option string)
    (hs : list Holding) (h : Holding) :
  holdings_stored w ->
  List.map HoldingM.to_dict hs = ContainerProxy.query_items HoldingsC conds pk w ->
  Forall (fun h => WF.holding h = true) hs ->
  In h hs <->
  (holding_at w (h_portfolio_id h) (h_id h) h /\
   match pk with Some p => h_portfolio_id h = p | None => True end /\
   forallb (fun fv : string * pyval =>
              match Dict.get (fst fv) (HoldingM.to_dict h) with
              | Some v => ContainerProxy.value_eqb v (snd fv)
              | None => false
              end) conds = true).
Proof.
  intros Hst Hmap Hwfs. split.
  - intros Hin.
    assert (Hwf : WF.holding h = true) by (rewrite List.Forall_forall in Hwfs; auto).
    assert (Hd : In (HoldingM.to_dict h) (ContainerProxy.query_items HoldingsC conds pk w)).
    { rewrite <- Hmap. apply List.in_map, Hin. }
    apply query_items_In in Hd. destruct Hd as (k & Hk & Hp & Hs).
    change (ContainerProxy.docs HoldingsC w) with (holdings w) in Hk.
    destruct (Hst k _ Hk) as (h' & Heq & Hwf' & Hkey).
    pose proof (holding_to_dict_inj h h' Hwf Hwf' Heq) as <-.
    subst k. cbn [fst] in Hp.
    split; [| split; assumption].
    split; [exact Hk |]. split; [exact Hwf |]. split; reflexivity.
  - intros ((Hdoc & Hwf & _ & _) & Hp & Hs).
    assert (Hd : In (HoldingM.to_dict h) (ContainerProxy.query_items HoldingsC conds pk w)).
    { apply query_items_In. exists (h_portfolio_id h, h_id h).
      split; [exact Hdoc |]. split; assumption. }
    rewrite <- Hmap in Hd. apply List.in_map_iff in Hd.
    destruct Hd as (h' & Heq & Hin).
    assert (Hwf' : WF.holding h' = true) by (rewrite List.Forall_forall in Hwfs; auto).
    rewrite (holding_to_dict_inj h h' Hwf Hwf' (eq_sym Heq)). exact Hin.
Qed.

(** X11. The holdings the repository lists.  On a store of well-formed
    holdings get_by_ticker returns exactly the holdings stored in the given
    portfolio whose ticker is the given one in upper case, and
    get_portfolio_holdings returns exactly the holdings stored in the given
    portfolio (for a portfolio id that is not empty); neither writes. *)
Theorem holdings_repository_lists (w : World) (ticker portfolio_id : string) :
  holdings_stored w ->
  (exists hs,
     CosmosHoldingsRepository.get_by_ticker ticker portfolio_id w = (Ok hs, w) /\
     forall h, In h hs <->
               holding_at w portfolio_id (h_id h) h /\ h_ticker h = Str.upper ticker) /\
  (portfolio_id <> "" ->
   exists hs,
     CosmosHoldingsRepository.get_portfolio_holdings portfolio_id w = (Ok hs, w) /\
     forall h, In h hs <-> holding_at w portfolio_id (h_id h) h).
Proof.
  intros Hst. split.
  - destruct (holdings_query [("ticker", PStr (Str.upper ticker))] (Some portfolio_id)
                w Hst) as (hs & Hrun & Hmap & Hwfs).
    exists hs. split; [exact Hrun |]. intros h.
    rewrite (holdings_listed w _ _ hs h Hst Hmap Hwfs).
    cbn [forallb fst snd]. change (Dict.get "ticker" (HoldingM.to_dict h))
      with (Some (PStr (h_ticker h))).
    cbn [ContainerProxy.value_eqb]. rewrite andb_true_r. split.
    + intros (Hat & Hp & Ht). apply String.eqb_eq in Ht.
      rewrite Hp in Hat. auto.
    + intros (Hat & Ht). pose proof Hat as (_ & _ & _ & Hp).
      rewrite Hp. split; [exact Hat |]. split; [reflexivity |].
      apply String.eqb_eq, Ht.
  - intros Hne.
    destruct (holdings_get_all (Some portfolio_id) w Hst) as (hs & Hrun & Hmap & Hwfs).
    assert (Hscope : (if Str.is_empty portfolio_id then None else Some portfolio_id)
                     = Some portfolio_id).
    { destruct portfolio_id; [contradiction Hne; reflexivity | reflexivity]. }
    rewrite Hscope in Hmap.
    exists hs. split; [exact Hrun |]. intros h.
    rewrite (holdings_listed w _ _ hs h Hst Hmap Hwfs). cbn [forallb]. split.
    + intros (Hat & Hp & _). rewrite Hp in Hat. exact Hat.
    + intros Hat. pose proof Hat as (_ & _ & _ & Hp). rewrite Hp. auto.
Qed.

Lemma scenario_bought_holdings_stored : holdings_stored Scenario.bought.
Proof.
  intros k d Hd.
  assert (Hh : holdings Scenario.bought
               = {[ ("default", "id-000") := HoldingM.to_dict Scenario.apple ]})
    by (vm_compute; reflexivity).
  rewrite Hh in Hd. apply lookup_singleton_Some in Hd. destruct Hd as [<- <-].
  exists Scenario.apple. repeat split; reflexivity.
Qed.

Lemma holdings_repository_lists_witness :
  (exists hs,
     CosmosHoldingsRepository.get_by_ticker "aapl" "default" Scenario.bought
     = (Ok hs, Scenario.bought) /\
     forall h, In h hs <->
               holding_at Scenario.bought "default" (h_id h) h /\
               h_ticker h = Str.upper "aapl") /\
  ("default" <> "" ->
   exists hs,
     CosmosHoldingsRepository.get_portfolio_holdings "default" Scenario.bought
     = (Ok hs, Scenario.bought) /\
     forall h, In h hs <-> holding_at Scenario.bought "default" (h_id h) h).
Proof.
  apply (holdings_repository_lists Scenario.bought "aapl" "default").
  exact scenario_bought_holdings_stored.
Defined.

(** ** What the reads never write *)

Lemma step_False_eq (m m' : container) : step (fun _ _ => False) m m' -> m' = m.
Proof.
  intros Hs. apply map_eq. intros k. destruct (Hs k) as [E | []]. exact E.
Qed.

Section ReadFrames.

Variable F : Frame.

Lemma frame_get_transaction_history (ticker start_date end_date ttype : option string)
    (limit : Z) (pid : string) :
  hoare F
        (PortfolioService.get_transaction_history ticker start_date end_date ttype
                                                  limit pid)
        (fun _ => True).
Proof.
  unfold PortfolioService.get_transaction_history.
  eapply hoare_bind with (Q1 := fun _ => True).
  { destruct (PortfolioService.given ticker); [| apply hoare_ret; exact I].
    eapply hoare_bind; [apply hoare_lift with (Q := fun _ => True); auto |].
    intros; apply hoare_ret; exact I. }
  intros tk _.
  eapply hoare_bind with (Q1 := fun _ => True).
  { destruct (PortfolioService.given ttype); [| apply hoare_ret; exact I].
    eapply hoare_bind; [apply hoare_lift with (Q := fun _ => True); auto |].
    intros; apply hoare_ret; exact I. }
  intros ty _.
  eapply hoare_bind with (Q1 := fun _ => True).
  { destruct (PortfolioService.given start_date); [| apply hoare_ret; exact I].
    eapply hoare_bind; [apply hoare_validate_date |].
    intros; apply hoare_ret; exact I. }
  intros sd _.
  eapply hoare_bind with (Q1 := fun _ => True).
  { destruct (PortfolioService.given end_date); [| apply hoare_ret; exact I].
    eapply hoare_bind; [apply hoare_validate_date |].
    intros; apply hoare_ret; exact I. }
  intros ed _.
  eapply hoare_bind with (Q1 := fun _ => True).
  { destruct (PortfolioService.given tk).
    - unfold CosmosTransactionsRepository.get_by_ticker.
      eapply hoare_weaken;
        [apply hoare_query with (Qfd := fun _ => True);
         intros d; apply hoare_transaction_from_dict | auto].
    - unfold CosmosTransactionsRepository.get_portfolio_transactions.
      eapply hoare_weaken;
        [apply hoare_get_all with (Qfd := fun _ => True);
         intros d; apply hoare_transaction_from_dict | auto]. }
  intros ts _.
  eapply hoare_bind; [apply hoare_lift with (Q := fun _ => True); auto |].
  intros; apply hoare_ret; exact I.
Qed.

Lemma frame_get_or_create (pid : string) :
  (forall p, p_id p = pid -> okP F (pid, pid) (Some (PortfolioM.to_dict p))) ->
  hoare F (PortfolioService.get_or_create_portfolio pid) (fun _ => True).
Proof.
  intros Hok. unfold PortfolioService.get_or_create_portfolio.
  eapply hoare_bind.
  - apply hoare_get_by_id with (Qfd := fun _ : Portfolio => True).
    intros d. eapply hoare_weaken; [apply hoare_portfolio_from_dict | auto].
  - intros o _. destruct o as [p |]; cbn [PortfolioService.create_if_absent].
    + apply hoare_ret. exact I.
    + eapply hoare_bind with (Q1 := fun p => p_id p = pid).
      * unfold PortfolioM.init.
        eapply hoare_bind; [apply hoare_default_utcnow |]. intros d1 _.
        eapply hoare_bind; [apply hoare_default_utcnow |]. intros d2 _.
        apply hoare_lift. intros p. unfold PortfolioM.validate, require.
        destruct (Num.geb _ 0); cbn; [| discriminate].
        intros Hp. inversion Hp; subst. reflexivity.
      * intros p Hp. unfold CosmosPortfolioRepository.create.
        apply hoare_create with (Qfd := fun _ : Portfolio => True).
        -- intros d. eapply hoare_weaken; [apply hoare_portfolio_from_dict | auto].
        -- intros k Hk. rewrite key_of_portfolio, Hp in Hk. inversion Hk; subst k.
           apply Hok, Hp.
Qed.

Lemma frame_get_holdings (filter_ticker : option string) (totals : bool) (pid : string) :
  (totals = true ->
   forall p, p_id p = pid -> okP F (pid, pid) (Some (PortfolioM.to_dict p))) ->
  hoare F (PortfolioService.get_holdings filter_ticker totals pid) (fun _ => True).
Proof.
  intros Hok. unfold PortfolioService.get_holdings.
  eapply hoare_bind with (Q1 := fun _ => True).
  - destruct (PortfolioService.given filter_ticker).
    + eapply hoare_bind; [apply hoare_lift with (Q := fun _ => True); auto |]. intros tk _.
      unfold CosmosHoldingsRepository.get_by_ticker.
      eapply hoare_weaken;
        [apply hoare_query with (Qfd := fun _ => True);
         intros d; apply hoare_holding_from_dict | auto].
    + unfold CosmosHoldingsRepository.get_portfolio_holdings.
      eapply hoare_weaken;
        [apply hoare_get_all with (Qfd := fun _ => True);
         intros d; apply hoare_holding_from_dict | auto].
  - intros hs _.
    eapply hoare_bind with (Q1 := fun _ => True).
    + destruct totals; [| apply hoare_ret; exact I].
      unfold PortfolioService.get_cash_balance.
      eapply hoare_bind with (Q1 := fun _ => True).
      * eapply hoare_bind; [apply frame_get_or_create; auto |].
        intros; apply hoare_ret; exact I.
      * intros; apply hoare_ret; exact I.
    + intros; apply hoare_ret; exact I.
Qed.

End ReadFrames.

Lemma frame_update_position (position_id : string) (notes : option string)
    (price : option Q) (pid : string) :
  hoare holdings_only_frame
        (PortfolioService.update_position position_id notes price pid)
        (fun _ => True).
Proof.
  unfold PortfolioService.update_position.
  eapply hoare_bind; [apply hoare_lift with (Q := fun _ => True); auto |]. intros id _.
  eapply hoare_bind.
  { unfold CosmosHoldingsRepository.get_by_id.
    eapply hoare_weaken;
      [apply hoare_get_by_id with (Qfd := fun _ => True);
       intros d; apply hoare_holding_from_dict | intros; exact I]. }
  intros o _.
  destruct o as [h |]; [| apply hoare_raise].
  eapply hoare_bind with (Q1 := fun _ => True).
  - destruct notes as [n |]; [| apply hoare_ret; exact I].
    eapply hoare_bind; [apply hoare_lift with (Q := fun _ => True); auto |].
    intros; apply hoare_ret; exact I.
  - intros [h1 u1] _.
    eapply hoare_bind with (Q1 := fun _ => True).
    + destruct price as [p |]; [| apply hoare_ret; exact I].
      eapply hoare_bind; [apply hoare_lift with (Q := fun _ => True); auto |].
      intros; apply hoare_ret; exact I.
    + intros [h2 u2] _. destruct (negb u2); [apply hoare_raise |].
      eapply hoare_bind; [apply hoare_utcnow with (Q := fun _ => True); auto |].
      intros now _.
      eapply hoare_bind.
      { unfold CosmosHoldingsRepository.update.
        apply hoare_update with (Qfd := fun _ => True);
          [intros d; apply hoare_holding_from_dict |].
        intros item' k _ _. cbn. eauto. }
      intros; apply hoare_ret; exact I.
Qed.

(** X12. The reads write nothing, on any store, for any arguments and
    whether they return or raise: get_transaction_history and get_holdings
    without totals leave the holdings, the transactions and the portfolios
    as they are; get_holdings with totals leaves the holdings, the
    transactions and every other portfolio as they are (reading the cash
    balance may create the record of the portfolio asked for). *)
Theorem reads_write_nothing (w : World) (portfolio_id : string) :
  (forall ticker start_date end_date transaction_type limit,
     let w' := snd (PortfolioService.get_transaction_history ticker start_date end_date
                      transaction_type limit portfolio_id w) in
     holdings w' = holdings w /\ transactions w' = transactions w /\
     portfolios w' = portfolios w) /\
  (forall filter_ticker,
     let w' := snd (PortfolioService.get_holdings filter_ticker false portfolio_id w) in
     holdings w' = holdings w /\ transactions w' = transactions w /\
     portfolios w' = portfolios w) /\
  (forall filter_ticker,
     let w' := snd (PortfolioService.get_holdings filter_ticker true portfolio_id w) in
     holdings w' = holdings w /\ transactions w' = transactions w /\
     forall k, k <> (portfolio_id, portfolio_id) ->
               portfolios w' !! k = portfolios w !! k).
Proof.
  split; [| split].
  - intros ticker start_date end_date transaction_type limit w'.
    destruct (frame_get_transaction_history nothing_frame ticker start_date end_date
                transaction_type limit portfolio_id w) as ((Hh & Ht & Hp & _) & _).
    split; [apply step_False_eq, Hh |].
    split; [apply step_False_eq, Ht | apply step_False_eq, Hp].
  - intros filter_ticker w'.
    destruct (frame_get_holdings nothing_frame filter_ticker false portfolio_id
                ltac:(discriminate) w) as ((Hh & Ht & Hp & _) & _).
    split; [apply step_False_eq, Hh |].
    split; [apply step_False_eq, Ht | apply step_False_eq, Hp].
  - intros filter_ticker w'.
    destruct (frame_get_holdings (read_frame portfolio_id) filter_ticker true portfolio_id
                ltac:(intros _ p _; reflexivity) w) as ((Hh & Ht & Hp & _) & _).
    split; [apply step_False_eq, Hh |].
    split; [apply step_False_eq, Ht |].
    intros k Hk. destruct (Hp k) as [E | E]; [exact E | contradiction (Hk E)].
Qed.

(** X13. update_position works on the holdings alone, on any store, for any
    arguments and whether it returns or raises: the transactions and the
    portfolios (hence every cash balance) are as before, and no holding is
    deleted. *)
Theorem update_position_leaves_ledger (w : World) (position_id : string)
    (notes : option string) (purchase_price : option Q) (portfolio_id : string) :
  let w' := snd (PortfolioService.update_position position_id notes purchase_price
                   portfolio_id w) in
  transactions w' = transactions w /\ portfolios w' = portfolios w /\
  forall k, is_Some (holdings w !! k) -> is_Some (holdings w' !! k).
Proof.
  intros w'.
  destruct (frame_update_position position_id notes purchase_price portfolio_id w)
    as ((Hh & Ht & Hp & _) & _).
  split; [apply step_False_eq, Ht |]. split; [apply step_False_eq, Hp |].
  intros k Hk. destruct (Hh k) as [E | E]; [| exact E].
  fold w' in E. rewrite E. exact Hk.
Qed.

(** ** get_holdings: the list and the totals *)








(* the holdings get_holdings reads *)
Lemma get_holdings_read (w : World) (filter_ticker : option string) (pid : string) :
  holdings_stored w ->
  filter_valid PortfolioValidator.validate_ticker filter_ticker ->
  pid <> "" ->
  exists hs,
    (if PortfolioService.given filter_ticker then
       let! filter_ticker :=
         lift (PortfolioValidator.validate_ticker (default "" filter_ticker)) in
       CosmosHoldingsRepository.get_by_ticker filter_ticker pid
     else CosmosHoldingsRepository.get_portfolio_holdings pid) w = (Ok hs, w) /\
    forall h, In h hs <->
              holding_at w pid (h_id h) h /\
              (if PortfolioService.given filter_ticker
               then PortfolioValidator.validate_ticker (default "" filter_ticker)
                    = Ok (h_ticker h)
               else True).
Proof.
  intros Hst Hf Hne. destruct (PortfolioService.given filter_ticker) eqn:Hg.
  - destruct (Hf Hg) as (tk & Htk).
    destruct (validate_ticker_ok _ _ Htk) as (_ & _ & Hup & _).
    destruct (holdings_query [("ticker", PStr (Str.upper tk))] (Some pid) w Hst)
      as (hs & Hrun & Hmap & Hwfs).
    exists hs. split.
    { rewrite (bind_lift_Ok _ _ _ _ Htk). exact Hrun. }
    intros h. rewrite (holdings_listed w _ _ hs h Hst Hmap Hwfs).
    cbn [forallb fst snd]. change (Dict.get "ticker" (HoldingM.to_dict h))
      with (Some (PStr (h_ticker h))).
    cbn [ContainerProxy.value_eqb]. rewrite andb_true_r, Hup, Htk. split.
    + intros (Hat & Hp & Ht). apply String.eqb_eq in Ht.
      rewrite Hp in Hat. split; [exact Hat | congruence].
    + intros (Hat & Ht). pose proof Hat as (_ & _ & _ & Hp).
      rewrite Hp. split; [exact Hat |]. split; [reflexivity |].
      apply String.eqb_eq. congruence.
  - destruct (holdings_get_all (Some pid) w Hst) as (hs & Hrun & Hmap & Hwfs).
    assert (Hscope : (if Str.is_empty pid then None else Some pid) = Some pid).
    { destruct pid; [contradiction Hne; reflexivity | reflexivity]. }
    rewrite Hscope in Hmap.
    exists hs. split; [exact Hrun |]. intros h.
    rewrite (holdings_listed w _ _ hs h Hst Hmap Hwfs). cbn [forallb]. split.
    + intros (Hat & Hp & _). rewrite Hp in Hat. auto.
    + intros (Hat & _). pose proof Hat as (_ & _ & _ & Hp). rewrite Hp. auto.
Qed.

(** X14. get_holdings without totals, on a store of well-formed holdings and
    with a ticker filter that validates when one is given: it returns, writes
    nothing, and lists exactly the holdings stored in the portfolio whose
    ticker is the validated filter (all of them without a filter); count is
    the length of the list and there are no totals.  An empty filter string
    counts as no filter. *)
Theorem get_holdings_lists (w : World) (filter_ticker : option string)
    (portfolio_id : string) :
  holdings_stored w ->
  filter_valid PortfolioValidator.validate_ticker filter_ticker ->
  portfolio_id <> "" ->
  exists res hs,
    PortfolioService.get_holdings filter_ticker false portfolio_id w = (Ok res, w) /\
    hr_holdings res = List.map HoldingM.to_dict hs /\
    hr_count res = length hs /\ hr_totals res = None /\
    (forall h, In h hs <->
               holding_at w portfolio_id (h_id h) h /\
               (if PortfolioService.given filter_ticker
                then PortfolioValidator.validate_ticker (default "" filter_ticker)
                     = Ok (h_ticker h)
                else True)) /\
    PortfolioService.get_holdings (Some "") false portfolio_id w
    = PortfolioService.get_holdings None false portfolio_id w.
Proof.
  intros Hst Hf Hne.
  destruct (get_holdings_read w filter_ticker portfolio_id Hst Hf Hne)
    as (hs & Hrun & Hin).
  eexists _, hs. split; [| split; [| split; [| split; [| split]]]]; cycle 4.
  - exact Hin.
  - reflexivity.
  - unfold PortfolioService.get_holdings. rewrite (bind_Ok _ _ _ _ _ Hrun).
    reflexivity.
  - reflexivity.
  - reflexivity.
  - reflexivity.
Qed.

Lemma get_holdings_lists_witness :
  exists res hs,
    PortfolioService.get_holdings (Some "aapl") false "default" Scenario.bought
    = (Ok res, Scenario.bought) /\
    hr_holdings res = List.map HoldingM.to_dict hs /\
    hr_count res = length hs /\ hr_totals res = None /\
    (forall h, In h hs <->
               holding_at Scenario.bought "default" (h_id h) h /\
               (if PortfolioService.given (Some "aapl")
                then PortfolioValidator.validate_ticker (default "" (Some "aapl"))
                     = Ok (h_ticker h)
                else True)) /\
    PortfolioService.get_holdings (Some "") false "default" Scenario.bought
    = PortfolioService.get_holdings None false "default" Scenario.bought.
Proof.
  apply (get_holdings_lists Scenario.bought (Some "aapl") "default").
  - exact scenario_bought_holdings_stored.
  - intros _. eexists. reflexivity.
  - discriminate.
Defined.



(** ** Buying and selling again; sales that are refused *)



(** X17. A sale that cannot be made changes nothing.  For a position that is
    not stored remove_holding raises ItemNotFoundException, which the tool
    reports as internal_error; for a quantity above the quantity held it
    raises ValidationError.  Either way the world is left as it was: the
    checks come before the first write. *)
Theorem remove_holding_refused (w : World) (position_id id pid : string) :
  PortfolioValidator.validate_position_id position_id = Ok id ->
  (holdings w !! (pid, id) = None ->
   forall quantity, exists msg,
     PortfolioService.remove_holding position_id quantity pid w
     = (Raise (ItemNotFoundException msg), w) /\
     Tools.reply (A := RemoveResult) (Raise (ItemNotFoundException msg))
     = Failure "internal_error" msg) /\
  (forall h quantity,
     holding_at w pid id h ->
     (0 < quantity)%Q -> whole quantity -> (h_quantity h < quantity)%Q ->
     exists msg,
       PortfolioService.remove_holding position_id (Some quantity) pid w
       = (Raise (ValidationError msg), w)).
Proof.
  intros Hid. split.
  - intros Hnone quantity. exists "Holding not found". split; [| reflexivity].
    unfold PortfolioService.remove_holding.
    rewrite (bind_lift_Ok _ _ _ _ Hid).
    erewrite bind_Ok;
      [| apply (get_by_id_miss (T := Holding) HoldingsC id pid w); exact Hnone].
    reflexivity.
  - intros h quantity Hat Hpos Hwhole Hgt.
    exists "Cannot sell more shares than held".
    unfold PortfolioService.remove_holding.
    rewrite (bind_lift_Ok _ _ _ _ Hid).
    rewrite (bind_Ok _ _ _ _ _ (get_holding_hit w pid id h Hat)).
    rewrite bind_assoc.
    rewrite (bind_lift_Ok _ _ _ _ (validate_quantity_whole quantity Hpos Hwhole)).
    assert (Num.gtb quantity (h_quantity h) = true) as -> by (apply gtb_true; exact Hgt).
    reflexivity.
Qed.

Lemma remove_holding_refused_witness :
  (holdings Scenario.bought !! ("default", "id-404") = None ->
   forall quantity, exists msg,
     PortfolioService.remove_holding " id-404" quantity "default" Scenario.bought
     = (Raise (ItemNotFoundException msg), Scenario.bought) /\
     Tools.reply (A := RemoveResult) (Raise (ItemNotFoundException msg))
     = Failure "internal_error" msg) /\
  (forall h quantity,
     holding_at Scenario.bought "default" "id-404" h ->
     (0 < quantity)%Q -> whole quantity -> (h_quantity h < quantity)%Q ->
     exists msg,
       PortfolioService.remove_holding " id-404" (Some quantity) "default"
         Scenario.bought
       = (Raise (ValidationError msg), Scenario.bought)).
Proof.
  apply (remove_holding_refused Scenario.bought " id-404" "id-404" "default").
  reflexivity.
Defined.

(** ** get_transaction_history: what is listed *)

Lemma transaction_to_dict_inj (t t' : Transaction) :
  WF.transaction t = true -> WF.transaction t' = true ->
  TransactionM.to_dict t = TransactionM.to_dict t' -> t = t'.
Proof.
  intros Hwf Hwf' Heq.
  pose proof (Transaction_roundtrip t Scenario.empty Hwf) as R.
  pose proof (Transaction_roundtrip t' Scenario.empty Hwf') as R'.
  rewrite Heq in R. rewrite R in R'. inversion R'. reflexivity.
Qed.

Lemma transactions_parse (a : bool) (docs : list dict) (w : World) :
  Forall (fun d => exists t, d = TransactionM.to_dict t /\ WF.transaction t = true /\
                             DT.aware (t_date t) = a) docs ->
  exists ts,
    CosmosRepositoryBase.from_cosmos_all (T := Transaction) docs w = (Ok ts, w) /\
    List.map TransactionM.to_dict ts = docs /\
    Forall (fun t => WF.transaction t = true) ts /\ uniform a ts.
Proof.
  induction docs as [| d r IH]; intros Hall.
  - exists []. split; [reflexivity |]. split; [reflexivity |]. split; constructor.
  - pose proof (List.Forall_inv Hall) as (t & -> & Hwf & Ha).
    destruct (IH (List.Forall_inv_tail Hall)) as (ts & Hts & Hmap & Hwfs & Hu).
    exists (t :: ts). cbn [CosmosRepositoryBase.from_cosmos_all].
    unfold CosmosRepositoryBase._from_cosmos.
    erewrite bind_Ok; [| apply Transaction_roundtrip, Hwf].
    rewrite (bind_Ok _ _ _ _ _ Hts).
    split; [reflexivity |]. split; [cbn; rewrite Hmap; reflexivity |].
    split; constructor; assumption.
Qed.

Lemma transactions_listed (a : bool) (w : World) (conds : list (string * pyval))
    (pk : option string) (ts : list Transaction) (t : Transaction) :
  transactions_stored a w ->
  List.map TransactionM.to_dict ts = ContainerProxy.query_items TransactionsC conds pk w ->
  Forall (fun t => WF.transaction t = true) ts ->
  In t ts <->
  (WF.transaction t = true /\
   exists k, transactions w !! k = Some (TransactionM.to_dict t) /\
             match pk with Some p => fst k = p | None => True end /\
             forallb (fun fv : string * pyval =>
                        match Dict.get (fst fv) (TransactionM.to_dict t) with
                        | Some v => ContainerProxy.value_eqb v (snd fv)
                        | None => false
                        end) conds = true).
Proof.
  intros Hst Hmap Hwfs. split.
  - intros Hin.
    assert (Hwf : WF.transaction t = true) by (rewrite List.Forall_forall in Hwfs; auto).
    split; [exact Hwf |].
    assert (Hd : In (TransactionM.to_dict t)
                    (ContainerProxy.query_items TransactionsC conds pk w)).
    { rewrite <- Hmap. apply List.in_map, Hin. }
    apply query_items_In in Hd. exact Hd.
  - intros (Hwf & Hk).
    assert (Hd : In (TransactionM.to_dict t)
                    (ContainerProxy.query_items TransactionsC conds pk w))
      by (apply query_items_In; exact Hk).
    rewrite <- Hmap in Hd. apply List.in_map_iff in Hd.
    destruct Hd as (t' & Heq & Hin).
    assert (Hwf' : WF.transaction t' = true) by (rewrite List.Forall_forall in Hwfs; auto).
    rewrite (transaction_to_dict_inj t t' Hwf Hwf' (eq_sym Heq)). exact Hin.
Qed.

Lemma transactions_query (a : bool) (conds : list (string * pyval)) (pk : option string)
    (w : World) :
  transactions_stored a w ->
  exists ts,
    CosmosRepositoryBase.query (T := Transaction) TransactionsC conds pk w = (Ok ts, w) /\
    List.map TransactionM.to_dict ts
    = ContainerProxy.query_items TransactionsC conds pk w /\
    Forall (fun t => WF.transaction t = true) ts /\ uniform a ts.
Proof.
  intros Hst.
  destruct (transactions_parse a (ContainerProxy.query_items TransactionsC conds pk w) w)
    as (ts & Hts & Hrest).
  { apply List.Forall_forall. intros d Hd.
    destruct (query_items_stored _ _ _ _ _ Hd) as (k & Hk). apply (Hst k d Hk). }
  exists ts. split; [| exact Hrest].
  unfold CosmosRepositoryBase.query, CosmosRepositoryBase.wrapped, try_except.
  rewrite Hts. reflexivity.
Qed.

Lemma transactions_get_all (a : bool) (pid : string) (w : World) :
  transactions_stored a w -> pid <> "" ->
  exists ts,
    CosmosRepositoryBase.get_all (T := Transaction) TransactionsC (Some pid) w
    = (Ok ts, w) /\
    List.map TransactionM.to_dict ts
    = ContainerProxy.query_items TransactionsC [] (Some pid) w /\
    Forall (fun t => WF.transaction t = true) ts /\ uniform a ts.
Proof.
  intros Hst Hne.
  destruct (transactions_parse a (ContainerProxy.query_items TransactionsC [] (Some pid) w) w)
    as (ts & Hts & Hrest).
  { apply List.Forall_forall. intros d Hd.
    destruct (query_items_stored _ _ _ _ _ Hd) as (k & Hk). apply (Hst k d Hk). }
  exists ts. split; [| exact Hrest].
  unfold CosmosRepositoryBase.get_all, CosmosRepositoryBase.wrapped, try_except.
  destruct pid; [contradiction Hne; reflexivity |]. cbn [Str.is_empty].
  rewrite Hts. reflexivity.
Qed.

(* the date filters, on dates that compare *)
Lemma filter_r_ge (a : bool) (bound : datetime) (ts : list Transaction) :
  DT.aware bound = a -> uniform a ts ->
  PortfolioService.filter_r (fun t => DT.ge (t_date t) bound) ts
  = Ok (List.filter (fun t => (DT.instant bound <=? DT.instant (t_date t))%Z) ts).
Proof.
  intros Hb. induction ts as [| t r IH]; intros Hu; [reflexivity |].
  pose proof (List.Forall_inv Hu) as Hta.
  cbn [PortfolioService.filter_r List.filter]. unfold rbind.
  rewrite (IH (List.Forall_inv_tail Hu)).
  unfold DT.ge. rewrite compare_uniform by congruence.
  destruct (DT.instant (t_date t) ?= DT.instant bound)%Z eqn:Hc.
  - apply Z.compare_eq in Hc.
    assert ((DT.instant bound <=? DT.instant (t_date t))%Z = true) as ->
      by (apply Z.leb_le; lia). reflexivity.
  - rewrite Z.compare_lt_iff in Hc.
    assert ((DT.instant bound <=? DT.instant (t_date t))%Z = false) as ->
      by (apply Z.leb_gt; lia). reflexivity.
  - rewrite Z.compare_gt_iff in Hc.
    assert ((DT.instant bound <=? DT.instant (t_date t))%Z = true) as ->
      by (apply Z.leb_le; lia). reflexivity.
Qed.

Lemma filter_r_le (a : bool) (bound : datetime) (ts : list Transaction) :
  DT.aware bound = a -> uniform a ts ->
  PortfolioService.filter_r (fun t => DT.le (t_date t) bound) ts
  = Ok (List.filter (fun t => (DT.instant (t_date t) <=? DT.instant bound)%Z) ts).
Proof.
  intros Hb. induction ts as [| t r IH]; intros Hu; [reflexivity |].
  pose proof (List.Forall_inv Hu) as Hta.
  cbn [PortfolioService.filter_r List.filter]. unfold rbind.
  rewrite (IH (List.Forall_inv_tail Hu)).
  unfold DT.le. rewrite compare_uniform by congruence.
  destruct (DT.instant (t_date t) ?= DT.instant bound)%Z eqn:Hc.
  - apply Z.compare_eq in Hc.
    assert ((DT.instant (t_date t) <=? DT.instant bound)%Z = true) as ->
      by (apply Z.leb_le; lia). reflexivity.
  - rewrite Z.compare_lt_iff in Hc.
    assert ((DT.instant (t_date t) <=? DT.instant bound)%Z = true) as ->
      by (apply Z.leb_le; lia). reflexivity.
  - rewrite Z.compare_gt_iff in Hc.
    assert ((DT.instant (t_date t) <=? DT.instant bound)%Z = false) as ->
      by (apply Z.leb_gt; lia). reflexivity.
Qed.

(* the selection: the first [limit] of a sorted rearrangement of the
   transactions that pass the three filters *)
Lemma select_transactions_spec (a : bool) (ttype : option string)
    (start_dt end_dt : option datetime) (limit : Z) (ts : list Transaction) :
  uniform a ts ->
  match start_dt with Some d => DT.aware d = a | None => True end ->
  match end_dt with Some d => DT.aware d = a | None => True end ->
  exists sorted,
    PortfolioService.select_transactions ttype start_dt end_dt limit ts
    = Ok (firstn (Z.to_nat limit) sorted) /\
    forall t, In t sorted <->
      In t ts /\
      (PortfolioService.given ttype = true ->
       Str.upper (TType.value (t_type t)) = default "" ttype) /\
      (forall d, start_dt = Some d -> (DT.instant d <= DT.instant (t_date t))%Z) /\
      (forall d, end_dt = Some d -> (DT.instant (t_date t) <= DT.instant d)%Z).
Proof.
  intros Hu Hs He. unfold PortfolioService.select_transactions.
  set (f1 := if PortfolioService.given ttype then _ else ts).
  assert (Hu1 : uniform a f1).
  { subst f1. destruct (PortfolioService.given ttype); [apply uniform_filter |]; exact Hu. }
  assert (H1 : forall t, In t f1 <->
            In t ts /\ (PortfolioService.given ttype = true ->
                        Str.upper (TType.value (t_type t)) = default "" ttype)).
  { intros t. subst f1. destruct (PortfolioService.given ttype).
    - rewrite List.filter_In, String.eqb_eq. intuition.
    - split; [intros H; split; [exact H | discriminate] | intros [H _]; exact H]. }
  set (f2 := match start_dt with
             | Some d => List.filter (fun t => (DT.instant d <=? DT.instant (t_date t))%Z) f1
             | None => f1
             end).
  assert (Hf2 : match start_dt with
                | Some start_dt0 =>
                    PortfolioService.filter_r (fun t => DT.ge (t_date t) start_dt0) f1
                | None => Ok f1
                end = Ok f2).
  { subst f2. destruct start_dt as [d |]; [| reflexivity].
    apply (filter_r_ge a d f1 Hs Hu1). }
  assert (Hu2 : uniform a f2).
  { subst f2. destruct start_dt; [apply uniform_filter |]; exact Hu1. }
  assert (H2 : forall t, In t f2 <->
            In t f1 /\ forall d, start_dt = Some d ->
                                 (DT.instant d <= DT.instant (t_date t))%Z).
  { intros t. subst f2. destruct start_dt as [d |].
    - rewrite List.filter_In, Z.leb_le. split.
      + intros [H Hle]. split; [exact H |]. intros d' Hd'. inversion Hd'; subst. exact Hle.
      + intros [H Hle]. split; [exact H | apply Hle; reflexivity].
    - split; [intros H; split; [exact H | discriminate] | intros [H _]; exact H]. }
  unfold rbind at 1. rewrite Hf2.
  set (f3 := match end_dt with
             | Some d => List.filter (fun t => (DT.instant (t_date t) <=? DT.instant d)%Z) f2
             | None => f2
             end).
  assert (Hf3 : match end_dt with
                | Some end_dt0 =>
                    PortfolioService.filter_r (fun t => DT.le (t_date t) end_dt0) f2
                | None => Ok f2
                end = Ok f3).
  { subst f3. destruct end_dt as [d |]; [| reflexivity].
    apply (filter_r_le a d f2 He Hu2). }
  assert (Hu3 : uniform a f3).
  { subst f3. destruct end_dt; [apply uniform_filter |]; exact Hu2. }
  assert (H3 : forall t, In t f3 <->
            In t f2 /\ forall d, end_dt = Some d ->
                                 (DT.instant (t_date t) <= DT.instant d)%Z).
  { intros t. subst f3. destruct end_dt as [d |].
    - rewrite List.filter_In, Z.leb_le. split.
      + intros [H Hle]. split; [exact H |]. intros d' Hd'. inversion Hd'; subst. exact Hle.
      + intros [H Hle]. split; [exact H | apply Hle; reflexivity].
    - split; [intros H; split; [exact H | discriminate] | intros [H _]; exact H]. }
  unfold rbind at 1. rewrite Hf3.
  destruct (sort_by_date_desc_ok a f3 Hu3) as (f4 & Hf4 & Hperm & _ & _).
  unfold rbind. rewrite Hf4.
  exists f4. split; [reflexivity |]. intros t.
  assert (Hp : In t f4 <-> In t f3).
  { split; intros H; [apply Permutation_sym in Hperm |];
      eapply Permutation_in; eassumption. }
  rewrite Hp, H3, H2, H1. tauto.
Qed.

Lemma transaction_type_accepted (s v : string) :
  PortfolioValidator.validate_transaction_type s = Ok v ->
  Str.is_empty v = false.
Proof.
  unfold PortfolioValidator.validate_transaction_type.
  destruct (Str.is_empty s); [discriminate |].
  destruct (existsb _ PortfolioValidator.valid_types) eqn:He; [| discriminate].
  intros Hv. inversion Hv; subst v.
  apply existsb_exists in He. destruct He as (name & Hin & Heq).
  apply String.eqb_eq in Heq. rewrite Heq. cbn in Hin.
  repeat (destruct Hin as [<- | Hin]; [reflexivity |]). destruct Hin.
Qed.

Lemma firstn_In_list {A} (n : nat) (l : list A) (x : A) : In x (firstn n l) -> In x l.
Proof.
  revert l. induction n as [| n IH]; intros l; [intros [] |].
  destruct l as [| y r]; [intros [] |]. cbn [firstn In].
  intros [H | H]; [left; exact H | right; apply IH, H].
Qed.

Lemma firstn_short {A} (n : nat) (l : list A) :
  (length (firstn n l) < n)%nat -> firstn n l = l.
Proof.
  rewrite List.length_firstn. intros H. apply List.firstn_all2. lia.
Qed.

(** X18. What get_transaction_history lists.  On a store of well-formed
    transactions whose dates are all of one kind, with filters that
    validate: every transaction listed is stored in the portfolio asked for
    and passes every filter given (ticker, type, start and end date, bounds
    included); and when fewer transactions are listed than the clamped
    limit allows, every stored transaction of the portfolio that passes
    the filters is listed. *)
Theorem transaction_history_lists_matches (a : bool) (w : World)
    (ticker start_date end_date transaction_type : option string)
    (limit : Z) (portfolio_id : string) :
  transactions_stored a w ->
  portfolio_id <> "" ->
  filter_valid PortfolioValidator.validate_ticker ticker ->
  filter_valid PortfolioValidator.validate_transaction_type transaction_type ->
  date_filter_valid a start_date -> date_filter_valid a end_date ->
  exists res ts,
    PortfolioService.get_transaction_history ticker start_date end_date
      transaction_type limit portfolio_id w = (Ok res, w) /\
    tr_transactions res = List.map TransactionM.to_dict ts /\
    (forall t, In t ts ->
       history_match w portfolio_id ticker start_date end_date transaction_type t) /\
    ((Z.of_nat (length ts) < PortfolioService.clamp_limit limit)%Z ->
     forall t,
       history_match w portfolio_id ticker start_date end_date transaction_type t ->
       In t ts).
Proof.
  intros Hst Hne Htk Hty Hsd Hed.
  unfold PortfolioService.get_transaction_history.
  (* ticker *)
  assert (H1 : exists tk,
    (if PortfolioService.given ticker
     then let! t := lift (PortfolioValidator.validate_ticker (default "" ticker)) in
          ret (Some t)
     else ret ticker) w = (Ok tk, w) /\
    PortfolioService.given tk = PortfolioService.given ticker /\
    (PortfolioService.given ticker = true ->
     PortfolioValidator.validate_ticker (default "" ticker) = Ok (default "" tk) /\
     Str.upper (default "" tk) = default "" tk)).
  { destruct (PortfolioService.given ticker) eqn:Hg.
    - destruct (Htk Hg) as (x & Hx). exists (Some x).
      rewrite (bind_lift_Ok _ _ _ _ Hx).
      destruct (validate_ticker_ok _ _ Hx) as (_ & _ & Hup & Hlen).
      split; [reflexivity |]. split; [| intros _; split; [exact Hx | exact Hup]].
      destruct x; [unfold Str.len in Hlen; cbn [String.length] in Hlen; lia | reflexivity].
    - exists ticker. split; [reflexivity |]. split; [exact Hg | discriminate]. }
  destruct H1 as (tk & H1 & Hgtk & Htkv). rewrite (bind_Ok _ _ _ _ _ H1).
  (* transaction type *)
  assert (H2 : exists ty,
    (if PortfolioService.given transaction_type
     then let! t := lift (PortfolioValidator.validate_transaction_type
                            (default "" transaction_type)) in
          ret (Some t)
     else ret transaction_type) w = (Ok ty, w) /\
    PortfolioService.given ty = PortfolioService.given transaction_type /\
    (PortfolioService.given transaction_type = true ->
     PortfolioValidator.validate_transaction_type (default "" transaction_type)
     = Ok (default "" ty))).
  { destruct (PortfolioService.given transaction_type) eqn:Hg.
    - destruct (Hty Hg) as (x & Hx). exists (Some x).
      rewrite (bind_lift_Ok _ _ _ _ Hx).
      split; [reflexivity |]. split; [| intros _; exact Hx].
      cbn [PortfolioService.given]. rewrite (transaction_type_accepted _ _ Hx). reflexivity.
    - exists transaction_type. split; [reflexivity |]. split; [exact Hg | discriminate]. }
  destruct H2 as (ty & H2 & Hgty & Htyv). rewrite (bind_Ok _ _ _ _ _ H2).
  (* the dates *)
  assert (Hdate : forall o, date_filter_valid a o ->
    exists dt,
      (if PortfolioService.given o
       then let! d := validate_date o in ret (Some d)
       else ret None) w = (Ok dt, w) /\
      match dt with Some d => DT.aware d = a | None => True end /\
      (forall d, dt = Some d <->
                 PortfolioService.given o = true /\
                 PortfolioValidatorDate.validate_date_str (default "" o) = Ok d)).
  { intros o Ho. destruct (PortfolioService.given o) eqn:Hg.
    - destruct (Ho Hg) as (d & Hd & Ha). exists (Some d).
      destruct o as [s |]; [| discriminate Hg].
      cbn [validate_date default from_option id] in *.
      rewrite (bind_lift_Ok _ _ _ _ Hd).
      split; [reflexivity |]. split; [exact Ha |].
      intros d'. split; [intros H; inversion H; subst; auto |].
      intros [_ H]. rewrite Hd in H. inversion H. reflexivity.
    - exists None. split; [reflexivity |]. split; [exact I |].
      intros d. split; [discriminate | intros [H _]; discriminate H]. }
  destruct (Hdate start_date Hsd) as (sd & H3 & Hsa & Hsdv).
  rewrite (bind_Ok _ _ _ _ _ H3).
  destruct (Hdate end_date Hed) as (ed & H4 & Hea & Hedv).
  rewrite (bind_Ok _ _ _ _ _ H4).
  (* the read *)
  assert (H5 : exists ts,
    (if PortfolioService.given tk
     then CosmosTransactionsRepository.get_by_ticker (default "" tk) portfolio_id
     else CosmosTransactionsRepository.get_portfolio_transactions portfolio_id) w
    = (Ok ts, w) /\ uniform a ts /\
    forall t, In t ts <->
      WF.transaction t = true /\
      (exists id, transactions w !! (portfolio_id, id) = Some (TransactionM.to_dict t)) /\
      (PortfolioService.given ticker = true -> t_ticker t = Some (default "" tk))).
  { rewrite Hgtk. destruct (PortfolioService.given ticker) eqn:Hg.
    - destruct (Htkv eq_refl) as (_ & Hup).
      destruct (transactions_query a [("ticker", PStr (Str.upper (default "" tk)))]
                  (Some portfolio_id) w Hst) as (ts & Hrun & Hmap & Hwfs & Hu).
      exists ts. split; [exact Hrun |]. split; [exact Hu |]. intros t.
      rewrite (transactions_listed a w _ _ ts t Hst Hmap Hwfs).
      cbn [forallb fst snd].
      change (Dict.get "ticker" (TransactionM.to_dict t))
        with (Some (Dict.of_option (t_ticker t))).
      rewrite andb_true_r, Hup. split.
      + intros (Hwf & [pk id] & Hk & Hp & Hc). cbn [fst] in Hp. subst pk.
        split; [exact Hwf |]. split; [eauto |]. intros _.
        destruct (t_ticker t) as [s |]; cbn in Hc; [| discriminate Hc].
        apply String.eqb_eq in Hc. rewrite Hc. reflexivity.
      + intros (Hwf & (id & Hk) & Ht). split; [exact Hwf |].
        exists (portfolio_id, id). split; [exact Hk |]. split; [reflexivity |].
        rewrite (Ht eq_refl). cbn. apply String.eqb_refl.
    - destruct (transactions_get_all a portfolio_id w Hst Hne)
        as (ts & Hrun & Hmap & Hwfs & Hu).
      exists ts. split; [exact Hrun |]. split; [exact Hu |]. intros t.
      rewrite (transactions_listed a w _ _ ts t Hst Hmap Hwfs). cbn [forallb]. split.
      + intros (Hwf & [pk id] & Hk & Hp & _). cbn [fst] in Hp. subst pk.
        split; [exact Hwf |]. split; [eauto | discriminate].
      + intros (Hwf & (id & Hk) & _). split; [exact Hwf |].
        exists (portfolio_id, id). auto. }
  destruct H5 as (ts & H5 & Hu & Hin). rewrite (bind_Ok _ _ _ _ _ H5).
  destruct (select_transactions_spec a ty sd ed (PortfolioService.clamp_limit limit) ts
              Hu Hsa Hea) as (sorted & Hsel & Hsorted).
  rewrite (bind_lift_Ok _ _ _ _ Hsel).
  assert (Hmatch : forall t, In t sorted <->
            history_match w portfolio_id ticker start_date end_date transaction_type t).
  { intros t. rewrite Hsorted, Hin, Hgty. unfold history_match. split.
    - intros ((Hwf & Hid & Htk') & Hty' & Hs' & He').
      split; [exact Hwf |]. split; [exact Hid |].
      split.
      { intros Hg. exists (default "" tk). split; [apply Htkv, Hg | apply Htk', Hg]. }
      split.
      { intros Hg. rewrite (Hty' Hg). apply Htyv, Hg. }
      split.
      { intros Hg. destruct (Hsd Hg) as (d & Hd & _). exists d. split; [exact Hd |].
        apply Hs', Hsdv. auto. }
      intros Hg. destruct (Hed Hg) as (d & Hd & _). exists d. split; [exact Hd |].
      apply He', Hedv. auto.
    - intros (Hwf & Hid & Htk' & Hty' & Hs' & He').
      split; [split; [exact Hwf | split; [exact Hid |]] | split; [| split]].
      + intros Hg. destruct (Htk' Hg) as (x & Hx & Ht).
        destruct (Htkv Hg) as (Hv & _). congruence.
      + intros Hg. pose proof (Hty' Hg) as Hx. pose proof (Htyv Hg) as Hy. congruence.
      + intros d Hd. apply Hsdv in Hd. destruct Hd as (Hg & Hd).
        destruct (Hs' Hg) as (d' & Hd' & Hle). rewrite Hd in Hd'. inversion Hd'. subst d'.
        exact Hle.
      + intros d Hd. apply Hedv in Hd. destruct Hd as (Hg & Hd).
        destruct (He' Hg) as (d' & Hd' & Hle). rewrite Hd in Hd'. inversion Hd'. subst d'.
        exact Hle. }
  eexists _, (firstn (Z.to_nat (PortfolioService.clamp_limit limit)) sorted).
  split; [reflexivity |]. split; [reflexivity |]. split.
  - intros t Ht. apply Hmatch. eapply firstn_In_list, Ht.
  - intros Hlt t Ht. rewrite firstn_short; [apply Hmatch, Ht |].
    pose proof (clamp_limit_range limit). lia.
Qed.

Lemma transaction_history_lists_matches_witness :
  exists res ts,
    PortfolioService.get_transaction_history (Some "aapl") (Some "2024-01-01") None
      (Some "buy") 10 "default" Scenario.bought = (Ok res, Scenario.bought) /\
    tr_transactions res = List.map TransactionM.to_dict ts /\
    (forall t, In t ts ->
       history_match Scenario.bought "default" (Some "aapl") (Some "2024-01-01") None
                     (Some "buy") t) /\
    ((Z.of_nat (length ts) < PortfolioService.clamp_limit 10)%Z ->
     forall t,
       history_match Scenario.bought "default" (Some "aapl") (Some "2024-01-01") None
                     (Some "buy") t ->
       In t ts).
Proof.
  apply (transaction_history_lists_matches false Scenario.bought (Some "aapl")
           (Some "2024-01-01") None (Some "buy") 10 "default").
  - exact scenario_bought_stored.
  - discriminate.
  - intros _. eexists. vm_compute. reflexivity.
  - intros _. eexists. vm_compute. reflexivity.
  - intros _. eexists. split; vm_compute; reflexivity.
  - intros H. discriminate H.
Defined.

(** ** Holding: value and gain *)



(** ** Watchlist *)

Lemma has_In (t : string) (l : list string) : WatchlistM.has t l = true <-> In t l.
Proof.
  unfold WatchlistM.has. rewrite existsb_exists. split.
  - intros (x & Hin & Heq). apply String.eqb_eq in Heq. subst. exact Hin.
  - intros Hin. exists t. split; [exact Hin | apply String.eqb_refl].
Qed.

Lemma has_not_In (t : string) (l : list string) :
  WatchlistM.has t l = false <-> ~ In t l.
Proof.
  rewrite <- has_In. destruct (WatchlistM.has t l).
  - split; [discriminate | intros H; exfalso; apply H; reflexivity].
  - split; [intros _ H; discriminate H | reflexivity].
Qed.

Lemma upper_upper (s : string) : Str.upper (Str.upper s) = Str.upper s.
Proof.
  induction s as [| c r IH]; [reflexivity |].
  cbn [Str.upper]. rewrite IH. f_equal.
  destruct c as [[] [] [] [] [] [] [] []]; reflexivity.
Qed.

(** X20. add_ticker puts the ticker, in upper case, on the watchlist once:
    afterwards it is on the list; when it was there already nothing
    changes, not even updated_at; otherwise it is appended at the end and
    updated_at is the current time.  A list without repetitions stays
    without repetitions, a list in upper case stays in upper case, and
    adding the same ticker again, in any case of letters, changes
    nothing. *)
Theorem watchlist_add_ticker (x : Watchlist) (ticker : string) (w : World) :
  exists x' w',
    WatchlistM.add_ticker x ticker w = (Ok x', w') /\
    In (Str.upper ticker) (wl_tickers x') /\
    (In (Str.upper ticker) (wl_tickers x) -> x' = x /\ w' = w) /\
    (~ In (Str.upper ticker) (wl_tickers x) ->
     wl_tickers x' = (wl_tickers x ++ [Str.upper ticker])%list /\
     wl_updated_at x' = clock w (ticks w) /\ wl_name x' = wl_name x /\
     wl_id x' = wl_id x) /\
    (List.NoDup (wl_tickers x) -> List.NoDup (wl_tickers x')) /\
    (List.map Str.upper (wl_tickers x) = wl_tickers x ->
     List.map Str.upper (wl_tickers x') = wl_tickers x') /\
    WatchlistM.add_ticker x' (Str.upper ticker) w' = (Ok x', w') /\
    WatchlistM.add_ticker x' ticker w' = (Ok x', w').
Proof.
  unfold WatchlistM.add_ticker.
  destruct (WatchlistM.has (Str.upper ticker) (wl_tickers x)) eqn:Hh; cbn [negb].
  - pose proof (proj1 (has_In _ _) Hh) as Hin.
    exists x, w. split; [reflexivity |]. split; [exact Hin |].
    split; [auto |]. split; [intros Hn; contradiction (Hn Hin) |].
    split; [auto |]. split; [auto |].
    rewrite upper_upper, Hh. cbn [negb]. split; reflexivity.
  - pose proof (proj1 (has_not_In _ _) Hh) as Hnin.
    rewrite bind_utcnow.
    eexists _, (tick w). split; [reflexivity |].
    cbn [WatchlistM.with_tickers wl_tickers wl_updated_at wl_name wl_id].
    assert (Hin : In (Str.upper ticker) (wl_tickers x ++ [Str.upper ticker])%list).
    { apply List.in_or_app. right. left. reflexivity. }
    split; [exact Hin |].
    split; [intros H; contradiction (Hnin H) |].
    split; [intros _; repeat split |].
    split.
    { intros Hnd. apply List.NoDup_app; [exact Hnd | constructor; [intros [] | constructor] |].
      intros t Ht [<- | []]. exact (Hnin Ht). }
    split.
    { intros Hup. rewrite List.map_app, Hup. cbn [List.map]. rewrite upper_upper.
      reflexivity. }
    rewrite upper_upper.
    assert (WatchlistM.has (Str.upper ticker) (wl_tickers x ++ [Str.upper ticker])%list = true)
      as -> by (apply has_In, Hin).
    split; reflexivity.
Qed.

Lemma remove_first_split (t : string) (l : list string) :
  In t l ->
  exists l1 l2, l = (l1 ++ t :: l2)%list /\ ~ In t l1 /\
                WatchlistM.remove_first t l = (l1 ++ l2)%list.
Proof.
  induction l as [| a r IH]; [intros [] |].
  intros Hin. cbn [WatchlistM.remove_first].
  destruct (String.eqb t a) eqn:He.
  - apply String.eqb_eq in He. subst a. exists [], r.
    split; [reflexivity |]. split; [intros [] | reflexivity].
  - apply String.eqb_neq in He.
    destruct Hin as [Ha | Hin]; [congruence |].
    destruct (IH Hin) as (l1 & l2 & Hl & Hn & Hr).
    exists (a :: l1), l2. cbn [app]. rewrite Hr, <- Hl.
    split; [reflexivity |]. split; [| reflexivity].
    intros [Ha | Hi]; [congruence | exact (Hn Hi)].
Qed.

Lemma remove_first_app_last (t : string) (l : list string) :
  ~ In t l -> WatchlistM.remove_first t (l ++ [t])%list = l.
Proof.
  induction l as [| a r IH]; intros Hn.
  - cbn. rewrite String.eqb_refl. reflexivity.
  - cbn [app WatchlistM.remove_first].
    destruct (String.eqb t a) eqn:He.
    + apply String.eqb_eq in He. subst a. exfalso. apply Hn. left. reflexivity.
    + rewrite IH; [reflexivity |]. intros Hi. apply Hn. right. exact Hi.
Qed.

(** X21. remove_ticker answers whether the ticker, in upper case, was on
    the watchlist.  When it was not, nothing changes.  When it was, its
    first occurrence is taken out, the other entries keep their order and
    updated_at is the current time; the ticker is gone afterwards when the
    list had no repetitions, while a second occurrence stays on the list.
    Removing a ticker that add_ticker has just appended gives the tickers
    there were before. *)
Theorem watchlist_remove_ticker (x : Watchlist) (ticker : string) (w : World) :
  exists b x' w',
    WatchlistM.remove_ticker x ticker w = (Ok (b, x'), w') /\
    (b = true <-> In (Str.upper ticker) (wl_tickers x)) /\
    (b = false -> x' = x /\ w' = w) /\
    (b = true ->
     wl_updated_at x' = clock w (ticks w) /\ wl_name x' = wl_name x /\
     wl_id x' = wl_id x /\
     exists l1 l2,
       wl_tickers x = (l1 ++ Str.upper ticker :: l2)%list /\
       ~ In (Str.upper ticker) l1 /\
       wl_tickers x' = (l1 ++ l2)%list) /\
    (List.NoDup (wl_tickers x) ->
     ~ In (Str.upper ticker) (wl_tickers x') /\ List.NoDup (wl_tickers x')) /\
    (forall t, t <> Str.upper ticker ->
               (In t (wl_tickers x') <-> In t (wl_tickers x))) /\
    (~ In (Str.upper ticker) (wl_tickers x) ->
     exists x1 w1 x2 w2,
       WatchlistM.add_ticker x ticker w = (Ok x1, w1) /\
       WatchlistM.remove_ticker x1 ticker w1 = (Ok (true, x2), w2) /\
       wl_tickers x2 = wl_tickers x).
Proof.
  unfold WatchlistM.remove_ticker, WatchlistM.add_ticker.
  destruct (WatchlistM.has (Str.upper ticker) (wl_tickers x)) eqn:Hh; cbn [negb].
  - pose proof (proj1 (has_In _ _) Hh) as Hin.
    destruct (remove_first_split _ _ Hin) as (l1 & l2 & Hl & Hn1 & Hr).
    rewrite bind_utcnow.
    eexists true, _, (tick w). split; [reflexivity |].
    cbn [WatchlistM.with_tickers wl_tickers wl_updated_at wl_name wl_id].
    split; [split; auto |].
    split; [discriminate |].
    split.
    { intros _. repeat split. exists l1, l2. auto. }
    split.
    { intros Hnd. rewrite Hr. rewrite Hl in Hnd.
      apply List.NoDup_remove in Hnd. destruct Hnd as [Hnd Hni]. auto. }
    split.
    { intros t Ht. rewrite Hr, Hl, !List.in_app_iff. cbn [In].
      split; [tauto |]. intros [H | [H | H]]; [tauto | congruence | tauto]. }
    intros Hnin. contradiction (Hnin Hin).
  - pose proof (proj1 (has_not_In _ _) Hh) as Hnin.
    exists false, x, w. split; [reflexivity |].
    split; [split; [discriminate | intros H; contradiction (Hnin H)] |].
    split; [auto |].
    split; [discriminate |].
    split; [intros Hnd; auto |].
    split; [tauto |].
    intros _. rewrite bind_utcnow.
    assert (Hh' : WatchlistM.has (Str.upper ticker)
                    (wl_tickers x ++ [Str.upper ticker])%list = true).
    { apply has_In, List.in_or_app. right. left. reflexivity. }
    eexists _, (tick w), _, (tick (tick w)). split; [reflexivity |].
    cbn [WatchlistM.with_tickers wl_tickers]. rewrite Hh', bind_utcnow.
    split; [reflexivity |].
    cbn [WatchlistM.with_tickers wl_tickers]. apply remove_first_app_last, Hnin.
Qed.

Lemma watchlist_validate_wf (x : Watchlist) :
  (1 <= Str.len (wl_name x) <= 100)%Z ->
  WatchlistM.validate x
  = Ok (WatchlistM.with_tickers x (List.map Str.upper (wl_tickers x)) (wl_updated_at x)).
Proof.
  intros [H1 H2]. unfold WatchlistM.validate, require.
  apply Z.leb_le in H1, H2. rewrite H1, H2. reflexivity.
Qed.

(** X22. A watchlist written with to_dict and read back with from_dict is
    the same watchlist with its tickers in upper case, and the very same
    watchlist when its tickers were in upper case already; the clock is
    not consulted.  The name must have 1 to 100 characters for from_dict to
    accept the document. *)
Theorem watchlist_roundtrip (x : Watchlist) (w : World) :
  (1 <= Str.len (wl_name x) <= 100)%Z ->
  DT.valid (wl_created_at x) = true -> DT.valid (wl_updated_at x) = true ->
  WatchlistM.from_dict (WatchlistM.to_dict x) w
  = (Ok (WatchlistM.with_tickers x (List.map Str.upper (wl_tickers x))
           (wl_updated_at x)), w) /\
  (List.map Str.upper (wl_tickers x) = wl_tickers x ->
   WatchlistM.from_dict (WatchlistM.to_dict x) w = (Ok x, w)).
Proof.
  intros Hn Hc Hu.
  assert (Hmain : WatchlistM.from_dict (WatchlistM.to_dict x) w
                  = (Ok (WatchlistM.with_tickers x (List.map Str.upper (wl_tickers x))
                           (wl_updated_at x)), w)).
  { unfold WatchlistM.from_dict, WatchlistM.to_dict, WatchlistM.model_dump,
      WatchlistM.date_keys.
    cbn -[DT.isoformat DT.fromisoformat WatchlistM.init].
    rewrite !fromisoformat_isoformat by assumption.
    cbn -[DT.isoformat DT.fromisoformat WatchlistM.init].
    replace (match match wl_notes x with Some s => WStr s | None => WNone end with
             | WNone => Ok None
             | WStr s => Ok (Some s)
             | _ => Raise (PydanticValidationError "notes")
             end) with (@Ok (option string) (wl_notes x))
      by (destruct (wl_notes x); reflexivity).
    unfold WatchlistM.init. cbn -[WatchlistM.validate].
    rewrite watchlist_validate_wf by exact Hn. reflexivity. }
  split; [exact Hmain |].
  intros Hup. rewrite Hmain, Hup. destruct x; reflexivity.
Qed.

Lemma watchlist_roundtrip_witness :
  WatchlistM.from_dict (WatchlistM.to_dict ScenarioWatch.tech) Scenario.empty
  = (Ok ScenarioWatch.tech, Scenario.empty).
Proof.
  destruct (watchlist_roundtrip ScenarioWatch.tech Scenario.empty) as [_ H];
    [vm_compute; split; discriminate | reflexivity | reflexivity |].
  apply H. reflexivity.
Defined.

(** ** The ledger of transactions only grows *)

Lemma ledger_kept_refl (w : World) : ledger_kept w w.
Proof. intros k d Hd. exact Hd. Qed.

Lemma ledger_kept_trans (w1 w2 w3 : World) :
  ledger_kept w1 w2 -> ledger_kept w2 w3 -> ledger_kept w1 w3.
Proof. intros H12 H23 k d Hd. apply H23, H12, Hd. Qed.

Lemma beside_ledger_eq {A} (m : M A) (Q : A -> Prop) (w : World) :
  hoare beside_ledger_frame m Q -> transactions (snd (m w)) = transactions w.
Proof.
  intros Hm. destruct (Hm w) as ((_ & Ht & _) & _).
  apply step_False_eq. exact Ht.
Qed.

Lemma appends_beside {A} (m : M A) (Q : A -> Prop) :
  hoare beside_ledger_frame m Q -> appends m.
Proof.
  intros Hm w. unfold ledger_kept. rewrite (beside_ledger_eq m Q w Hm).
  split; [intros k d Hd; exact Hd | lia].
Qed.

(* a step beside the ledger, then one that appends *)
Lemma appends_bind_l {A B} (m : M A) (k : A -> M B) (Q : A -> Prop) :
  hoare beside_ledger_frame m Q -> (forall a, appends (k a)) -> appends (bind m k).
Proof.
  intros Hm Hk w. pose proof (beside_ledger_eq m Q w Hm) as Heq.
  unfold bind. destruct (m w) as [[a | e] w1]; cbn [snd] in Heq |- *.
  - destruct (Hk a w1) as (Hkept & Hsize). unfold ledger_kept in *.
    rewrite Heq in Hkept, Hsize. split; assumption.
  - unfold ledger_kept. rewrite Heq. split; [auto | lia].
Qed.

(* a step that appends, then one beside the ledger *)
Lemma appends_bind_r {A B} (m : M A) (k : A -> M B) (Q : B -> Prop) :
  appends m -> (forall a, hoare beside_ledger_frame (k a) Q) -> appends (bind m k).
Proof.
  intros Hm Hk w. destruct (Hm w) as (Hkept & Hsize).
  unfold bind. destruct (m w) as [[a | e] w1]; cbn [snd] in Hkept, Hsize |- *.
  - pose proof (beside_ledger_eq (k a) Q w1 (Hk a)) as Heq.
    unfold ledger_kept in *. rewrite Heq. split; assumption.
  - split; assumption.
Qed.

Lemma appends_raise {A} (e : exn) : appends (raise (A:=A) e).
Proof. apply appends_beside with (Q := fun _ => True), hoare_raise. Qed.

(* create on the transactions: the document goes under a key that was free *)
Lemma appends_transactions_create (t : Transaction) :
  appends (CosmosTransactionsRepository.create t).
Proof.
  intros w. unfold CosmosTransactionsRepository.create, CosmosRepositoryBase.create,
    ContainerProxy.create_item, CosmosRepositoryBase._to_cosmos.
  destruct (ContainerProxy.key_of TransactionsC (mc_to_dict t)) as [k |] eqn:Hk.
  - destruct (ContainerProxy.docs TransactionsC w !! k) as [d |] eqn:Hd.
    + cbn. split; [apply ledger_kept_refl | lia].
    + pose proof (hoare_wrapped beside_ledger_frame "Failed to create item" _ _
                    (hoare_transaction_from_dict beside_ledger_frame (mc_to_dict t)))
        as Hw.
      pose proof (beside_ledger_eq _ _
                    (ContainerProxy.set_docs TransactionsC
                       (<[k := mc_to_dict t]> (ContainerProxy.docs TransactionsC w)) w)
                    Hw) as Heq.
      cbn [ContainerProxy.set_docs transactions ContainerProxy.docs] in Heq, Hd.
      cbn [ContainerProxy.docs]. unfold ledger_kept, CosmosRepositoryBase._from_cosmos.
      change (@mc_from_dict Transaction _) with TransactionM.from_dict.
      rewrite Heq. split.
      * intros k' d' Hd'. rewrite lookup_insert_ne; [exact Hd' |].
        intros ->. rewrite Hd in Hd'. discriminate Hd'.
      * rewrite map_size_insert_None by exact Hd. lia.
  - cbn. split; [apply ledger_kept_refl | lia].
Qed.

Ltac beside_free := intros; exact I.

(* the cash operations write portfolio documents only *)
Section PortfolioWrites.

Variable F : Frame.
Hypothesis okP_free : forall k d, okP F k (Some d).

Lemma frame_get_cash_balance (pid : string) :
  hoare F (PortfolioService.get_cash_balance pid) (fun _ => True).
Proof.
  unfold PortfolioService.get_cash_balance.
  eapply hoare_bind; [apply frame_get_or_create; intros; apply okP_free |]. intros p _.
  apply hoare_ret. exact I.
Qed.

Lemma frame_update_cash_balance (amount : Q) (operation pid : string) :
  hoare F (PortfolioService.update_cash_balance amount operation pid) (fun _ => True).
Proof.
  unfold PortfolioService.update_cash_balance.
  destruct (Num.ltb amount 0); [apply hoare_raise |].
  destruct (negb _); [apply hoare_raise |].
  eapply hoare_bind; [apply frame_get_or_create; intros; apply okP_free |]. intros p _.
  eapply hoare_bind with (Q1 := fun _ => True).
  - destruct (String.eqb operation "add").
    + unfold PortfolioM.add_cash. destruct (Num.leb amount 0); [apply hoare_raise |].
      eapply hoare_bind; [apply hoare_utcnow with (Q := fun _ => True); auto |].
      intros now _. apply hoare_ret. exact I.
    + destruct (Num.gtb amount (p_cash_balance p)) eqn:Hg; [apply hoare_raise |].
      unfold PortfolioM.withdraw_cash.
      destruct (Num.leb amount 0); [apply hoare_raise |].
      rewrite Hg.
      eapply hoare_bind; [apply hoare_utcnow with (Q := fun _ => True); auto |].
      intros now _. apply hoare_ret. exact I.
  - intros p' _.
    eapply hoare_bind; [| intros; apply hoare_ret; exact I].
    unfold CosmosPortfolioRepository.update.
    apply hoare_update with (Qfd := fun _ : Portfolio => True).
    + intros d. eapply hoare_weaken; [apply hoare_portfolio_from_dict | auto].
    + intros. apply okP_free.
Qed.

End PortfolioWrites.

Lemma beside_get_or_create (pid : string) :
  hoare beside_ledger_frame (PortfolioService.get_or_create_portfolio pid)
        (fun _ => True).
Proof. apply frame_get_or_create. beside_free. Qed.

Lemma beside_get_cash_balance (pid : string) :
  hoare beside_ledger_frame (PortfolioService.get_cash_balance pid) (fun _ => True).
Proof. apply frame_get_cash_balance. beside_free. Qed.

Lemma beside_update_cash_balance (amount : Q) (operation pid : string) :
  hoare beside_ledger_frame
        (PortfolioService.update_cash_balance amount operation pid) (fun _ => True).
Proof. apply frame_update_cash_balance. beside_free. Qed.

Lemma beside_holdings_create (h : Holding) :
  hoare beside_ledger_frame (CosmosHoldingsRepository.create h) (fun _ => True).
Proof.
  unfold CosmosHoldingsRepository.create.
  apply hoare_create with (Qfd := fun _ => True);
    [intros d; apply hoare_holding_from_dict | beside_free].
Qed.

Lemma beside_holdings_update (id : string) (h : Holding) (pk : option string) :
  hoare beside_ledger_frame (CosmosHoldingsRepository.update id h pk) (fun _ => True).
Proof.
  unfold CosmosHoldingsRepository.update.
  apply hoare_update with (Qfd := fun _ => True);
    [intros d; apply hoare_holding_from_dict | beside_free].
Qed.

Lemma beside_holdings_get_by_id (id : string) (pk : option string) :
  hoare beside_ledger_frame (CosmosHoldingsRepository.get_by_id id pk) (fun _ => True).
Proof.
  unfold CosmosHoldingsRepository.get_by_id.
  eapply hoare_weaken;
    [apply hoare_get_by_id with (Qfd := fun _ => True);
     intros d; apply hoare_holding_from_dict | auto].
Qed.

Lemma beside_holdings_delete (id : string) (pk : option string) :
  hoare beside_ledger_frame (CosmosHoldingsRepository.delete id pk) (fun _ => True).
Proof.
  unfold CosmosHoldingsRepository.delete. apply hoare_delete. exact I.
Qed.

Lemma beside_update_position (position_id : string) (notes : option string)
    (price : option Q) (pid : string) :
  hoare beside_ledger_frame
        (PortfolioService.update_position position_id notes price pid)
        (fun _ => True).
Proof.
  intros w. destruct (frame_update_position position_id notes price pid w)
    as ((Hh & Ht & Hp & Hc & Hu) & Hq).
  split; [| exact Hq].
  unfold steps. repeat split; try assumption.
  - intros k. destruct (Hh k) as [E | _]; [left; exact E | right; exact I].
  - intros k. destruct (Hp k) as [E | []]. left. exact E.
Qed.

(* the steps of a purchase or a sale after the holding is written: the
   transaction is created, then the cash is moved *)
Lemma appends_record {R : Type} (t : Transaction) (amount : Q) (operation pid : string)
    (k : Transaction -> Q -> R) :
  appends (let! created_transaction := CosmosTransactionsRepository.create t in
           let! new_balance :=
             PortfolioService.update_cash_balance amount operation pid in
           ret (k created_transaction new_balance)).
Proof.
  eapply appends_bind_r with (Q := fun _ => True);
    [apply appends_transactions_create |].
  intros t'. eapply hoare_bind; [apply beside_update_cash_balance |].
  intros nb _. apply hoare_ret. exact I.
Qed.

Ltac beside_lift :=
  eapply appends_bind_l;
  [apply hoare_lift with (Q := fun _ => True); auto |]; intros ?.

Lemma appends_add_holding (ticker : string) (quantity price : Q)
    (date notes : option string) (pid : string) :
  appends (PortfolioService.add_holding ticker quantity price date notes pid).
Proof.
  unfold PortfolioService.add_holding.
  do 3 beside_lift.
  eapply appends_bind_l; [apply hoare_validate_date |]. intros dt.
  beside_lift.
  eapply appends_bind_l; [apply beside_get_cash_balance |]. intros bal.
  destruct (Num.gtb _ bal); [apply appends_raise |].
  eapply appends_bind_l; [apply hoare_uuid4 with (Q := fun _ => True); auto |].
  intros hid.
  eapply appends_bind_l; [apply hoare_holding_init |]. intros h.
  eapply appends_bind_l; [apply beside_holdings_create |]. intros h'.
  eapply appends_bind_l; [apply hoare_uuid4 with (Q := fun _ => True); auto |].
  intros tid.
  eapply appends_bind_l; [apply hoare_transaction_init |]. intros t.
  apply (appends_record t _ "subtract" pid
           (fun created_transaction new_balance =>
              {| ar_holding := HoldingM.to_dict h';
                 ar_transaction := TransactionM.to_dict created_transaction;
                 ar_total_cost := _;
                 ar_new_cash_balance := new_balance |})).
Qed.

Lemma appends_remove_holding (position_id : string) (quantity : option Q)
    (pid : string) :
  appends (PortfolioService.remove_holding position_id quantity pid).
Proof.
  unfold PortfolioService.remove_holding.
  beside_lift.
  eapply appends_bind_l; [apply beside_holdings_get_by_id |]. intros o.
  destruct o as [h |]; [| apply appends_raise].
  eapply appends_bind_l with (Q := fun _ => True).
  { destruct quantity as [q |]; [| apply hoare_ret; exact I].
    eapply hoare_bind; [apply hoare_lift with (Q := fun _ => True); auto |]. intros q' _.
    destruct (Num.gtb q' (h_quantity h)); [apply hoare_raise | apply hoare_ret; exact I]. }
  intros [sold full].
  eapply appends_bind_l with (Q := fun _ => True).
  { destruct full.
    - eapply hoare_bind; [apply beside_holdings_delete |].
      intros; apply hoare_ret; exact I.
    - eapply hoare_bind; [apply hoare_utcnow with (Q := fun _ => True); auto |].
      intros now _.
      eapply hoare_bind; [apply beside_holdings_update |].
      intros; apply hoare_ret; exact I. }
  intros h2.
  eapply appends_bind_l; [apply hoare_uuid4 with (Q := fun _ => True); auto |].
  intros tid.
  eapply appends_bind_l; [apply hoare_utcnow with (Q := fun _ => True); auto |].
  intros now.
  eapply appends_bind_l; [apply hoare_transaction_init |]. intros t.
  apply (appends_record t _ "add" pid
           (fun created_transaction new_balance =>
              {| rr_transaction := TransactionM.to_dict created_transaction;
                 rr_quantity_sold := sold;
                 rr_proceeds := _;
                 rr_new_cash_balance := new_balance;
                 rr_holding_removed := full;
                 rr_remaining_quantity := if full then 0%Q else h_quantity h2 |})).
Qed.

Lemma appends_run_op (op : ledger_op) (w : World) :
  ledger_kept w (run_op op w) /\
  (size (transactions (run_op op w)) <= S (size (transactions w)))%nat.
Proof.
  destruct op; cbn [run_op].
  - apply (appends_beside _ _ (beside_get_or_create _)).
  - apply (appends_beside _ _ (beside_get_cash_balance _)).
  - apply (appends_beside _ _ (beside_update_cash_balance _ _ _)).
  - apply appends_add_holding.
  - apply appends_remove_holding.
  - apply (appends_beside _ _ (beside_update_position _ _ _ _)).
  - apply (appends_beside _ (fun _ => True)).
    apply frame_get_holdings. beside_free.
  - apply (appends_beside _ (fun _ => True)).
    apply frame_get_transaction_history.
Qed.

(** X23. The ledger of transactions only grows.  Whatever the store, the
    arguments and the outcomes, a sequence of service operations leaves
    every stored transaction stored and unchanged, and adds at most one
    transaction for each operation of the sequence: none is ever
    overwritten or deleted, also by an operation that raises. *)
Theorem ledger_append_only (ops : list ledger_op) (w : World) :
  ledger_kept w (run_ops ops w) /\
  (size (transactions (run_ops ops w))
   <= size (transactions w) + List.length ops)%nat.
Proof.
  revert w. induction ops as [| op ops IH]; intros w.
  - cbn [run_ops fold_left List.length]. split; [apply ledger_kept_refl | lia].
  - cbn [run_ops fold_left List.length].
    destruct (appends_run_op op w) as (Hk1 & Hs1).
    destruct (IH (run_op op w)) as (Hk2 & Hs2). unfold run_ops in Hk2, Hs2.
    split; [eapply ledger_kept_trans; eassumption | lia].
Qed.

(** ** The stored holdings stay well-formed *)

Lemma steps_store_ok (w w' : World) :
  steps wf_holdings_frame w w' -> store_ok w -> store_ok w'.
Proof.
  intros (Hh & _ & _ & Hc & _) (Hclock & Hst). split.
  - intros n. rewrite Hc. apply Hclock.
  - intros k d Hd. destruct (Hh k) as [E | O].
    + apply (Hst k). rewrite <- E. exact Hd.
    + cbn [okH wf_holdings_frame] in O. rewrite Hd in O. exact O.
Qed.

Lemma keeps_hoare {A} (m : M A) (Q : A -> Prop) :
  hoare wf_holdings_frame m Q -> keeps m Q.
Proof.
  intros Hm w Hok. destruct (Hm w) as (Hs & Hq).
  split; [eapply steps_store_ok; eassumption | exact Hq].
Qed.

Lemma keeps_bind {A B} (m : M A) (k : A -> M B) (Q1 : A -> Prop) (Q2 : B -> Prop) :
  keeps m Q1 -> (forall a, Q1 a -> keeps (k a) Q2) -> keeps (bind m k) Q2.
Proof.
  intros Hm Hk w Hok. specialize (Hm w Hok). unfold bind.
  destruct (m w) as [[a | e] w1]; cbn [fst snd] in Hm |- *.
  - destruct Hm as (Hok1 & Hq). exact (Hk a Hq w1 Hok1).
  - destruct Hm as (Hok1 & _). split; [exact Hok1 | exact I].
Qed.

Lemma keeps_raise {A} (e : exn) (Q : A -> Prop) : keeps (raise e) Q.
Proof. apply keeps_hoare, hoare_raise. Qed.

Lemma keeps_ret {A} (a : A) (Q : A -> Prop) : Q a -> keeps (ret a) Q.
Proof. intros Hq. apply keeps_hoare, hoare_ret, Hq. Qed.

Lemma keeps_lift {A} (r : result A) (Q : A -> Prop) :
  (forall a, r = Ok a -> Q a) -> keeps (lift r) Q.
Proof. intros Hq. apply keeps_hoare, hoare_lift, Hq. Qed.

(* a reading of the clock is a datetime *)
Lemma keeps_utcnow : keeps utcnow (fun d => DT.valid d = true).
Proof.
  intros w (Hclock & Hst). cbn. split; [split; assumption | apply Hclock].
Qed.

Lemma keeps_default_utcnow (o : option datetime) :
  (forall d, o = Some d -> DT.valid d = true) ->
  keeps (default_utcnow o) (fun d => DT.valid d = true).
Proof.
  intros Ho. destruct o as [d |]; cbn [default_utcnow].
  - apply keeps_ret, Ho. reflexivity.
  - apply keeps_utcnow.
Qed.

Lemma keeps_validate_date (o : option string) :
  keeps (validate_date o) (fun d => DT.valid d = true).
Proof.
  destruct o as [s |]; cbn [validate_date].
  - apply keeps_lift. intros d Hd. eapply validate_date_str_valid, Hd.
  - apply keeps_utcnow.
Qed.

Lemma upper_length (s : string) : Str.len (Str.upper s) = Str.len s.
Proof.
  unfold Str.len. f_equal.
  induction s as [| c r IH]; [reflexivity |].
  cbn [Str.upper String.length]. rewrite IH. reflexivity.
Qed.

Lemma wf_holding_intro (h : Holding) :
  ((1 <=? Str.len (h_ticker h))%Z && (Str.len (h_ticker h) <=? 10)%Z = true) ->
  Str.upper (h_ticker h) = h_ticker h ->
  Num.gtb (h_quantity h) 0 = true -> Num.gtb (h_purchase_price h) 0 = true ->
  DT.valid (h_purchase_date h) = true -> DT.valid (h_created_at h) = true ->
  DT.valid (h_updated_at h) = true ->
  WF.holding h = true.
Proof.
  intros Hlen Hup Hq Hp Hd1 Hd2 Hd3. unfold WF.holding, WF.upper_case.
  rewrite Hlen, Hup, String.eqb_refl, Hq, Hp, Hd1, Hd2, Hd3. reflexivity.
Qed.

(* what the constructor accepts has valid field values *)
Lemma holding_validate_valid (h h' : Holding) :
  HoldingM.validate h = Ok h' ->
  DT.valid (h_purchase_date h) = true -> DT.valid (h_created_at h) = true ->
  DT.valid (h_updated_at h) = true ->
  WF.holding h' = true /\ h_id h' = h_id h /\ h_portfolio_id h' = h_portfolio_id h.
Proof.
  unfold HoldingM.validate, require. intros H Hd1 Hd2 Hd3.
  destruct ((1 <=? Str.len (h_ticker h))%Z && (Str.len (h_ticker h) <=? 10)%Z)
    eqn:Hlen; cbn in H; [| discriminate].
  destruct (Num.gtb (h_quantity h) 0) eqn:Hq; cbn in H; [| discriminate].
  destruct (Num.gtb (h_purchase_price h) 0) eqn:Hp; cbn in H; [| discriminate].
  inversion H; subst h'. clear H. split; [| split; reflexivity].
  apply wf_holding_intro; cbn [h_ticker h_quantity h_purchase_price h_purchase_date
                                h_created_at h_updated_at]; try assumption.
  - rewrite upper_length. exact Hlen.
  - apply upper_upper.
Qed.

Lemma keeps_holding_init (id pid tk : string) (q p : Q) (dt : datetime)
    (nt : option string) :
  DT.valid dt = true ->
  keeps (HoldingM.init id pid tk q p dt nt None None) (fun h => WF.holding h = true).
Proof.
  intros Hdt. unfold HoldingM.init.
  eapply keeps_bind; [apply keeps_default_utcnow; discriminate |]. intros d1 Hd1.
  eapply keeps_bind; [apply keeps_default_utcnow; discriminate |]. intros d2 Hd2.
  apply keeps_lift. intros h Hh.
  apply (holding_validate_valid _ _ Hh); assumption.
Qed.

(* what is read from a store of well-formed holdings is well-formed *)
Lemma keeps_holdings_get_by_id (id : string) (pk : option string) :
  keeps (CosmosHoldingsRepository.get_by_id id pk)
        (fun o => forall h, o = Some h -> WF.holding h = true).
Proof.
  intros w Hok. pose proof Hok as (Hclock & Hst).
  unfold CosmosHoldingsRepository.get_by_id.
  assert (Hpk : CosmosRepositoryBase.get_by_id (T := Holding) HoldingsC id pk w
                = CosmosRepositoryBase.get_by_id HoldingsC id (Some (default id pk)) w)
    by (destruct pk; reflexivity).
  rewrite Hpk. clear Hpk.
  destruct (holdings w !! (default id pk, id)) as [d |] eqn:Hd.
  - destruct (Hst _ _ Hd) as (h & -> & Hwf & Hk).
    erewrite get_by_id_hit; [| exact Hd | apply holding_round_trips, Hwf].
    cbn. split; [exact Hok |]. intros h' Hh'. inversion Hh'; subst. exact Hwf.
  - erewrite get_by_id_miss; [| exact Hd].
    cbn. split; [exact Hok |]. intros h' Hh'. discriminate Hh'.
Qed.

Lemma wf_holding_doc_to_dict (h : Holding) (k : string * string) :
  WF.holding h = true ->
  ContainerProxy.key_of HoldingsC (HoldingM.to_dict h) = Some k ->
  wf_holding_doc k (Some (HoldingM.to_dict h)).
Proof.
  intros Hwf Hk. rewrite key_of_holding in Hk. inversion Hk; subst k.
  exists h. split; [reflexivity |]. split; [exact Hwf | reflexivity].
Qed.

Lemma wf_with_updated_at (h : Holding) (now : datetime) :
  WF.holding h = true -> DT.valid now = true ->
  WF.holding (PortfolioService.with_updated_at h now) = true.
Proof.
  intros Hwf Hnow.
  destruct (holding_wf_fields h Hwf) as (Hlen & Hup & Hq & Hp & Hd1 & Hd2 & Hd3).
  apply wf_holding_intro; assumption.
Qed.

Lemma wf_with_quantity (h : Holding) (q : Q) :
  WF.holding h = true -> (0 < q)%Q ->
  WF.holding (PortfolioService.with_quantity h q) = true.
Proof.
  intros Hwf Hpos.
  destruct (holding_wf_fields h Hwf) as (Hlen & Hup & Hq & Hp & Hd1 & Hd2 & Hd3).
  apply wf_holding_intro; try assumption. apply gtb_true. exact Hpos.
Qed.

Lemma wf_with_price (h : Holding) (p : Q) :
  WF.holding h = true -> (0 < p)%Q ->
  WF.holding (PortfolioService.with_price h p) = true.
Proof.
  intros Hwf Hpos.
  destruct (holding_wf_fields h Hwf) as (Hlen & Hup & Hq & Hp & Hd1 & Hd2 & Hd3).
  apply wf_holding_intro; try assumption. apply gtb_true. exact Hpos.
Qed.

Lemma wf_with_notes (h : Holding) (notes : option string) :
  WF.holding h = true -> WF.holding (PortfolioService.with_notes h notes) = true.
Proof. intros Hwf. exact Hwf. Qed.

Lemma keeps_holdings_create (h : Holding) :
  WF.holding h = true ->
  keeps (CosmosHoldingsRepository.create h) (fun _ => True).
Proof.
  intros Hwf. apply keeps_hoare. unfold CosmosHoldingsRepository.create.
  apply hoare_create with (Qfd := fun _ => True);
    [intros d; apply hoare_holding_from_dict |].
  intros k Hk. apply wf_holding_doc_to_dict; assumption.
Qed.

(* update stamps the holding with a reading of the clock and writes it *)
Lemma keeps_holdings_update (id : string) (h : Holding) (pk : option string) :
  WF.holding h = true ->
  keeps (CosmosHoldingsRepository.update id h pk) (fun _ => True).
Proof.
  intros Hwf. unfold CosmosHoldingsRepository.update, CosmosRepositoryBase.update.
  eapply keeps_bind with (Q1 := fun h' => WF.holding h' = true).
  - unfold CosmosRepositoryBase.stamped. cbn [mc_stamp Holding_model].
    eapply keeps_bind; [apply keeps_utcnow |]. intros now Hnow.
    apply keeps_ret. apply (wf_with_updated_at h now Hwf Hnow).
  - intros h' Hwf'. apply keeps_hoare.
    apply hoare_replace with (Qfd := fun _ => True);
      [intros d; apply hoare_holding_from_dict |].
    intros k Hk. apply wf_holding_doc_to_dict; assumption.
Qed.

Lemma keeps_holdings_delete (id : string) (pk : option string) :
  keeps (CosmosHoldingsRepository.delete id pk) (fun _ => True).
Proof.
  apply keeps_hoare. unfold CosmosHoldingsRepository.delete.
  apply hoare_delete. exact I.
Qed.

Ltac keeps_free := intros; exact I.

(* the transaction is created and the cash is moved: no holding is written *)
Lemma keeps_record {R : Type} (t : Transaction) (amount : Q) (operation pid : string)
    (k : Transaction -> Q -> R) :
  keeps (let! created_transaction := CosmosTransactionsRepository.create t in
         let! new_balance :=
           PortfolioService.update_cash_balance amount operation pid in
         ret (k created_transaction new_balance)) (fun _ => True).
Proof.
  apply keeps_hoare.
  eapply hoare_bind.
  - unfold CosmosTransactionsRepository.create.
    apply hoare_create with (Qfd := fun _ => True);
      [intros d; apply hoare_transaction_from_dict | keeps_free].
  - intros t' _.
    eapply hoare_bind; [apply frame_update_cash_balance; keeps_free |].
    intros nb _. apply hoare_ret. exact I.
Qed.

Ltac keeps_lift_any :=
  eapply keeps_bind; [apply keeps_lift with (Q := fun _ => True); auto |]; intros ? _.

Lemma keeps_add_holding (ticker : string) (quantity price : Q)
    (date notes : option string) (pid : string) :
  keeps (PortfolioService.add_holding ticker quantity price date notes pid)
        (fun _ => True).
Proof.
  unfold PortfolioService.add_holding.
  do 3 keeps_lift_any.
  eapply keeps_bind; [apply keeps_validate_date |]. intros dt Hdt.
  keeps_lift_any.
  eapply keeps_bind;
    [apply keeps_hoare, frame_get_cash_balance with (pid := pid); keeps_free |].
  intros bal _.
  destruct (Num.gtb _ bal); [apply keeps_raise |].
  eapply keeps_bind;
    [apply keeps_hoare, hoare_uuid4 with (Q := fun _ => True); auto |].
  intros hid _.
  eapply keeps_bind; [apply keeps_holding_init, Hdt |]. intros h Hh.
  eapply keeps_bind; [apply keeps_holdings_create, Hh |]. intros h' _.
  eapply keeps_bind;
    [apply keeps_hoare, hoare_uuid4 with (Q := fun _ => True); auto |].
  intros tid _.
  eapply keeps_bind;
    [apply keeps_hoare, hoare_transaction_init |].
  intros t _.
  apply (keeps_record t _ "subtract" pid
           (fun created_transaction new_balance =>
              {| ar_holding := HoldingM.to_dict h';
                 ar_transaction := TransactionM.to_dict created_transaction;
                 ar_total_cost := _;
                 ar_new_cash_balance := new_balance |})).
Qed.

Lemma keeps_remove_holding (position_id : string) (quantity : option Q)
    (pid : string) :
  keeps (PortfolioService.remove_holding position_id quantity pid) (fun _ => True).
Proof.
  unfold PortfolioService.remove_holding.
  keeps_lift_any.
  eapply keeps_bind; [apply keeps_holdings_get_by_id |]. intros o Ho.
  destruct o as [h |]; [| apply keeps_raise].
  specialize (Ho h eq_refl).
  eapply keeps_bind with
    (Q1 := fun sf : Q * bool =>
             snd sf = false -> (fst sf < h_quantity h)%Q).
  { destruct quantity as [q |]; [| apply keeps_ret; discriminate].
    eapply keeps_bind; [apply keeps_lift with (Q := fun _ => True); auto |].
    intros q' _.
    destruct (Num.gtb q' (h_quantity h)) eqn:Hg; [apply keeps_raise |].
    apply keeps_ret. cbn [fst snd]. intros He.
    apply gtb_false in Hg. apply eqb_false in He.
    destruct (Qle_lt_or_eq _ _ Hg) as [Hlt | Heq]; [exact Hlt | contradiction]. }
  intros [sold full] Hsf. cbn [fst snd] in Hsf.
  eapply keeps_bind with (Q1 := fun _ => True).
  { destruct full.
    - eapply keeps_bind; [apply keeps_holdings_delete |].
      intros; apply keeps_ret; exact I.
    - eapply keeps_bind; [apply keeps_utcnow |]. intros now Hnow.
      eapply keeps_bind; [| intros; apply keeps_ret; exact I].
      apply keeps_holdings_update, wf_with_updated_at; [| exact Hnow].
      apply wf_with_quantity; [exact Ho |].
      specialize (Hsf eq_refl). lra. }
  intros h2 _.
  eapply keeps_bind;
    [apply keeps_hoare, hoare_uuid4 with (Q := fun _ => True); auto |].
  intros tid _.
  eapply keeps_bind; [apply keeps_utcnow |]. intros now _.
  eapply keeps_bind; [apply keeps_hoare, hoare_transaction_init |]. intros t _.
  apply (keeps_record t _ "add" pid
           (fun created_transaction new_balance =>
              {| rr_transaction := TransactionM.to_dict created_transaction;
                 rr_quantity_sold := sold;
                 rr_proceeds := _;
                 rr_new_cash_balance := new_balance;
                 rr_holding_removed := full;
                 rr_remaining_quantity := if full then 0%Q else h_quantity h2 |})).
Qed.

Lemma keeps_update_position (position_id : string) (notes : option string)
    (price : option Q) (pid : string) :
  keeps (PortfolioService.update_position position_id notes price pid)
        (fun _ => True).
Proof.
  unfold PortfolioService.update_position.
  keeps_lift_any.
  eapply keeps_bind; [apply keeps_holdings_get_by_id |]. intros o Ho.
  destruct o as [h |]; [| apply keeps_raise].
  specialize (Ho h eq_refl).
  eapply keeps_bind with (Q1 := fun hu : Holding * bool => WF.holding (fst hu) = true).
  { destruct notes as [n |]; [| apply keeps_ret; exact Ho].
    eapply keeps_bind; [apply keeps_lift with (Q := fun _ => True); auto |].
    intros n' _. apply keeps_ret. cbn [fst]. apply wf_with_notes, Ho. }
  intros [h1 u1] Hh1. cbn [fst] in Hh1.
  eapply keeps_bind with (Q1 := fun hu : Holding * bool => WF.holding (fst hu) = true).
  { destruct price as [p |]; [| apply keeps_ret; exact Hh1].
    eapply keeps_bind with (Q1 := fun p' => (0 < p')%Q).
    - apply keeps_lift. intros p' Hp'.
      destruct (validate_price_ok _ _ Hp') as (-> & Hpos). exact Hpos.
    - intros p' Hp'. apply keeps_ret. cbn [fst]. apply wf_with_price; assumption. }
  intros [h2 u2] Hh2. cbn [fst] in Hh2.
  destruct (negb u2); [apply keeps_raise |].
  eapply keeps_bind; [apply keeps_utcnow |]. intros now Hnow.
  eapply keeps_bind; [| intros; apply keeps_ret; exact I].
  apply keeps_holdings_update, wf_with_updated_at; assumption.
Qed.

Lemma keeps_run_op (op : ledger_op) (w : World) : store_ok w -> store_ok (run_op op w).
Proof.
  intros Hok. destruct op; cbn [run_op].
  - apply (keeps_hoare _ (fun _ => True)); [| exact Hok].
    apply frame_get_or_create. keeps_free.
  - apply (keeps_hoare _ (fun _ => True)); [| exact Hok].
    apply frame_get_cash_balance. keeps_free.
  - apply (keeps_hoare _ (fun _ => True)); [| exact Hok].
    apply frame_update_cash_balance. keeps_free.
  - apply keeps_add_holding, Hok.
  - apply keeps_remove_holding, Hok.
  - apply keeps_update_position, Hok.
  - apply (keeps_hoare _ (fun _ => True)); [| exact Hok].
    apply frame_get_holdings. keeps_free.
  - apply (keeps_hoare _ (fun _ => True)); [| exact Hok].
    apply frame_get_transaction_history.
Qed.

(** X24. The stored holdings stay well-formed.  When every reading of the
    clock is a datetime and every stored holding is the document of a
    holding with valid field values (ticker of 1 to 10 characters in upper
    case, quantity and purchase price above zero, datetimes) under its own
    portfolio id and id, the same holds after any sequence of service
    operations, whatever their arguments and whether they return or raise:
    a purchase stores what the constructor accepted, a partial sale leaves
    a quantity above zero, update_position writes a validated price. *)
Theorem holdings_stay_well_formed (ops : list ledger_op) (w : World) :
  WF.clock_ok w -> holdings_stored w ->
  holdings_stored (run_ops ops w) /\ WF.clock_ok (run_ops ops w).
Proof.
  intros Hclock Hst.
  assert (Hok : store_ok (run_ops ops w)).
  { assert (Hok : store_ok w) by (split; assumption). clear Hclock Hst.
    revert w Hok. induction ops as [| op ops IH]; intros w Hok; [exact Hok |].
    cbn [run_ops fold_left]. apply IH, keeps_run_op, Hok. }
  destruct Hok as (Hc & Hs). split; assumption.
Qed.

Lemma holdings_stay_well_formed_witness :
  holdings_stored
    (run_ops [OpAddHolding "aapl" 10 150 None None "default";
              OpRemoveHolding "id-000" (Some 4%Q) "default";
              OpUpdatePosition "id-000" None (Some 0%Q) "default";
              OpUpdatePosition "id-000" (Some "core") (Some 160%Q) "default"]
             Scenario.empty) /\
  WF.clock_ok
    (run_ops [OpAddHolding "aapl" 10 150 None None "default";
              OpRemoveHolding "id-000" (Some 4%Q) "default";
              OpUpdatePosition "id-000" None (Some 0%Q) "default";
              OpUpdatePosition "id-000" (Some "core") (Some 160%Q) "default"]
             Scenario.empty).
Proof.
  apply holdings_stay_well_formed.
  - exact scenario_clock_ok.
  - intros k d Hd. cbn [holdings Scenario.empty] in Hd.
    rewrite lookup_empty in Hd. discriminate Hd.
Defined.
